(** * The MCP gateway service of Libre WebUI (backend [McpService])

    A shallow embedding of [backend/src/services/mcpService.ts] together with
    the types of [backend/src/types/mcpTypes.ts] and [getErrorMessage] of
    [backend/src/types/index.ts].

    The service keeps one JavaScript [Map] from server ids to live
    connections.  Everything it does to the outside world goes through the
    MCP SDK ([Client], [StdioClientTransport], [SSEClientTransport]); the SDK
    is not part of the repository, so each call into it is modelled as an
    event appended to a trace, and what the call answers is supplied by the
    caller of the model (the [Reply] arguments).  Asynchronous methods are
    modelled as run to completion, one after the other. *)

From Stdlib Require Import Ascii String List Bool Arith ZArith Lia.
Import ListNotations.
Open Scope string_scope.

(** ** Data model ([mcpTypes.ts]) *)

(** Values typed [z.any()] or [unknown] in the source (schemas, tool
    arguments, payloads) are kept as their JSON text. *)
Definition Json := string.

(** [type: z.enum(['stdio', 'sse', 'websocket'])] *)
Inductive TransportType := stdio | sse | websocket.

Definition TransportType_text (t : TransportType) : string :=
  match t with
  | stdio => "stdio"
  | sse => "sse"
  | websocket => "websocket"
  end.

(** [status: z.enum(['connected', 'disconnected', 'connecting', 'error'])] *)
Inductive StatusKind := connected | disconnected | connecting | error.

Definition StatusKind_eqb (a b : StatusKind) : bool :=
  match a, b with
  | connected, connected => true
  | disconnected, disconnected => true
  | connecting, connecting => true
  | error, error => true
  | _, _ => false
  end.

Module McpServerConfig.
(** [timeout] is a number of milliseconds; it is only ever handed to
    [setTimeout], and is kept as a natural number here. *)
Record t := mk {
  id : string;
  name : string;
  description : option string;
  enabled : bool;
  type : TransportType;
  command : option string;
  args : option (list string);
  url : option string;
  env : option (list (string * string));
  timeout : nat;
  maxRetries : nat
}.
End McpServerConfig.

Module McpToolDefinition.
Record t := mk {
  name : string;
  title : option string;
  description : option string;
  inputSchema : option Json;
  outputSchema : option Json;
  annotations : option Json
}.
End McpToolDefinition.

Module McpTool.
Record t := mk {
  name : string;
  title : option string;
  description : option string;
  inputSchema : option Json;
  outputSchema : option Json;
  annotations : option Json;
  serverId : string
}.
End McpTool.

Module McpResourceDefinition.
Record t := mk {
  uri : string;
  name : string;
  title : option string;
  description : option string;
  mimeType : option string
}.
End McpResourceDefinition.

Module McpResource.
Record t := mk {
  uri : string;
  name : string;
  title : option string;
  description : option string;
  mimeType : option string;
  serverId : string
}.
End McpResource.

Module PromptArgument.
Record t := mk {
  name : string;
  description : option string;
  required : option bool
}.
End PromptArgument.

Module McpPromptDefinition.
Record t := mk {
  name : string;
  title : option string;
  description : option string;
  arguments : option (list PromptArgument.t)
}.
End McpPromptDefinition.

Module McpPrompt.
Record t := mk {
  name : string;
  title : option string;
  description : option string;
  arguments : option (list PromptArgument.t);
  serverId : string
}.
End McpPrompt.

Module Capabilities.
Record t := mk {
  tools : bool;
  resources : bool;
  prompts : bool;
  logging : bool
}.
End Capabilities.

Module McpServerStatus.
Record t := mk {
  id : string;
  status : StatusKind;
  lastConnected : option string;
  error : option string;
  capabilities : option Capabilities.t
}.
End McpServerStatus.

Module McpToolCallRequest.
Record t := mk {
  serverId : string;
  toolName : string;
  arguments : option Json
}.
End McpToolCallRequest.

Module ContentItem.
Record t := mk {
  type : string;
  text : option string;
  data : option Json
}.
End ContentItem.

(** What the SDK hands back for [tools/call]; both fields may be missing,
    the source reads them as [result.content || []] and
    [result.isError || false]. *)
Module McpToolCallResult.
Record t := mk {
  content : option (list ContentItem.t);
  isError : option bool
}.
End McpToolCallResult.

Module McpToolCallResponse.
Record t := mk {
  content : list ContentItem.t;
  isError : bool
}.
End McpToolCallResponse.

Module McpResourceReadRequest.
Record t := mk {
  serverId : string;
  uri : string
}.
End McpResourceReadRequest.

Module ResourceEntry.
Record t := mk {
  uri : string;
  mimeType : option string;
  text : option string;
  blob : option string
}.
End ResourceEntry.

(** [McpResourceContent] as the service returns it. *)
Module McpResourceContent.
Record t := mk { contents : list ResourceEntry.t }.
End McpResourceContent.

(** The list results; the source guards each with [if (result.tools)], so
    the field may be absent. *)
Module McpListToolsResult.
Record t := mk { tools : option (list McpToolDefinition.t) }.
End McpListToolsResult.

Module McpListResourcesResult.
Record t := mk { resources : option (list McpResourceDefinition.t) }.
End McpListResourcesResult.

Module McpListPromptsResult.
Record t := mk { prompts : option (list McpPromptDefinition.t) }.
End McpListPromptsResult.

(** The raw [resources/read] result, read as [result.contents || []]. *)
Module ResourceReadResult.
Record t := mk { contents : option (list ResourceEntry.t) }.
End ResourceReadResult.

(** [McpClientConnection]: the SDK client and transport are opaque objects,
    represented by the handle they were given when constructed. *)
Module McpClientConnection.
Record t := mk {
  client : nat;
  transport : nat;
  config : McpServerConfig.t;
  status : McpServerStatus.t;
  tools : list McpTool.t;
  resources : list McpResource.t;
  prompts : list McpPrompt.t
}.
End McpClientConnection.

(** ** Thrown values and [getErrorMessage] ([types/index.ts]) *)

(** A thrown JavaScript value, as far as [getErrorMessage] can tell values
    apart: [response_data_error] is [error.response?.data?.error] when the
    value is an object with a [response] property, [message] is
    [error.message] when the value is an [Error]. *)
Record JsThrown := mkThrown {
  response_data_error : option string;
  message : option string
}.

(** [new Error(msg)] *)
Definition Error (msg : string) : JsThrown :=
  {| response_data_error := None; message := Some msg |}.

(** Truthiness of an optional string: [undefined] and [''] are falsy. *)
Definition truthy (o : option string) : bool :=
  match o with
  | None => false
  | Some s => negb (s =? "")
  end.

Definition getErrorMessage (e : JsThrown) (fallback : string) : string :=
  match response_data_error e with
  | Some s =>
      if truthy (Some s) then s
      else match message e with Some m => m | None => fallback end
  | None =>
      match message e with Some m => m | None => fallback end
  end.

(** ** The JavaScript [Map], in insertion order *)

Section JsMap.
Variable V : Type.

Definition JsMap := list (string * V).

Fixpoint map_get (k : string) (m : JsMap) : option V :=
  match m with
  | [] => None
  | (k', v) :: rest => if k =? k' then Some v else map_get k rest
  end.

(** [set] keeps the position of a key that is already present and
    appends a new one. *)
Fixpoint map_set (k : string) (v : V) (m : JsMap) : JsMap :=
  match m with
  | [] => [(k, v)]
  | (k', v') :: rest =>
      if k =? k' then (k, v) :: rest else (k', v') :: map_set k v rest
  end.

(** [delete] leaves no entry under the key. *)
Fixpoint map_delete (k : string) (m : JsMap) : JsMap :=
  match m with
  | [] => []
  | (k', v') :: rest =>
      if k =? k' then map_delete k rest else (k', v') :: map_delete k rest
  end.

Definition map_keys (m : JsMap) : list string := map fst m.
Definition map_values (m : JsMap) : list V := map snd m.
End JsMap.

Arguments map_get {V} k m.
Arguments map_set {V} k v m.
Arguments map_delete {V} k m.
Arguments map_keys {V} m.
Arguments map_values {V} m.

(** ** The outside world: SDK objects, calls into them, and their answers *)

Inductive RequestParams :=
| NoParams
| ToolCallParams (name : string) (arguments : option Json)
| ResourceReadParams (uri : string).

(** One entry per call the service makes into the SDK or the platform. *)
Inductive Event :=
| ClientNew (c : nat)
| TransportNew (t : nat) (kind : TransportType)
| ClientConnect (c t : nat)
| TimerStart (ms : nat)
| ClientRequest (c : nat) (method : string) (params : RequestParams)
| ClientClose (c : nat)
| TransportClose (t : nat).

(** How a promise returned by the SDK settles, and after how many
    milliseconds. *)
Inductive Settled (A : Type) :=
| Resolved (a : A)
| Rejected (e : JsThrown).

Arguments Resolved {A} a.
Arguments Rejected {A} e.

Record Reply (A : Type) := mkReply {
  latency : nat;
  settled : Settled A
}.

Arguments mkReply {A} latency settled.
Arguments latency {A} r.
Arguments settled {A} r.

(** The state a method runs in: the service's [connections] field, the
    supply of object identities, and the calls made so far (oldest
    first). *)
Record World := mkWorld {
  connections : JsMap McpClientConnection.t;
  next_handle : nat;
  trace : list Event
}.

Definition initial_world : World :=
  {| connections := []; next_handle := 0; trace := [] |}.

(** ** A monad for method bodies: state, and completion by return or throw *)

Inductive Completion (A : Type) :=
| Normal (a : A)
| Throw (e : JsThrown).

Arguments Normal {A} a.
Arguments Throw {A} e.

Definition Js (A : Type) : Type := World -> Completion A * World.

Definition ret {A} (a : A) : Js A := fun w => (Normal a, w).

Definition bind {A B} (m : Js A) (k : A -> Js B) : Js B :=
  fun w =>
    match m w with
    | (Normal a, w') => k a w'
    | (Throw e, w') => (Throw e, w')
    end.

Definition throw {A} (e : JsThrown) : Js A := fun w => (Throw e, w).

(** [try { body } catch (error) { handler }] *)
Definition try_catch {A} (body : Js A) (handler : JsThrown -> Js A) : Js A :=
  fun w =>
    match body w with
    | (Normal a, w') => (Normal a, w')
    | (Throw e, w') => handler e w'
    end.

Declare Scope js_scope.
Delimit Scope js_scope with js.
Notation "x <- c1 ;; c2" := (bind c1 (fun x => c2))
  (at level 61, c1 at next level, right associativity) : js_scope.
Notation "c1 ;; c2" := (bind c1 (fun _ => c2))
  (at level 61, right associativity) : js_scope.

Definition emit (e : Event) : Js unit :=
  fun w => (Normal tt,
            {| connections := connections w;
               next_handle := next_handle w;
               trace := trace w ++ [e] |}).

Definition fresh_handle : Js nat :=
  fun w => (Normal (next_handle w),
            {| connections := connections w;
               next_handle := S (next_handle w);
               trace := trace w |}).

Definition connections_get (k : string) : Js (option McpClientConnection.t) :=
  fun w => (Normal (map_get k (connections w)), w).

Definition connections_set (k : string) (c : McpClientConnection.t) : Js unit :=
  fun w => (Normal tt,
            {| connections := map_set k c (connections w);
               next_handle := next_handle w;
               trace := trace w |}).

Definition connections_delete (k : string) : Js unit :=
  fun w => (Normal tt,
            {| connections := map_delete k (connections w);
               next_handle := next_handle w;
               trace := trace w |}).

(** [await p] *)
Definition await {A} (p : Reply A) : Js A :=
  match settled p with
  | Resolved a => ret a
  | Rejected e => throw e
  end.

(** [new Client(...)] *)
Definition new_Client : Js nat :=
  (c <- fresh_handle ;; emit (ClientNew c) ;; ret c)%js.

(** [new StdioClientTransport(...)] and [new SSEClientTransport(...)] *)
Definition new_Transport (kind : TransportType) : Js nat :=
  (t <- fresh_handle ;; emit (TransportNew t kind) ;; ret t)%js.

(** [client.connect(transport)]: the call is made, the promise is handed
    back unsettled. *)
Definition client_connect (c t : nat) (answer : Reply unit) : Js (Reply unit) :=
  (emit (ClientConnect c t) ;; ret answer)%js.

(** [new Promise((_, reject) => setTimeout(() => reject(new Error(msg)), ms))]
    The timer is taken to fire after [ms] milliseconds. That is what
    [setTimeout] does for a delay from 1 to 2147483647; a delay outside
    that range it runs as 1 ms. *)
Definition timeout_promise (ms : nat) (msg : string) : Js (nat * JsThrown) :=
  (emit (TimerStart ms) ;; ret (ms, Error msg))%js.

(** [await Promise.race([p, timeoutPromise])]: the promise wins when it
    settles strictly before the timer fires. *)
Definition await_race {A} (p : Reply A) (timer : nat * JsThrown) : Js A :=
  if (latency p <? fst timer)%nat then await p else throw (snd timer).

(** [await client.request({method, params}, {})] *)
Definition client_request {A} (c : nat) (method : string)
    (params : RequestParams) (answer : Reply A) : Js A :=
  (emit (ClientRequest c method params) ;; await answer)%js.

(** [await connection.client.close()] *)
Definition client_close (c : nat) (answer : Reply unit) : Js unit :=
  (emit (ClientClose c) ;; await answer)%js.

(** [await connection.transport.close()] *)
Definition transport_close (t : nat) (answer : Reply unit) : Js unit :=
  (emit (TransportClose t) ;; await answer)%js.

(** ** The service ([mcpService.ts]) *)

(** What the SDK answers to the two [close] calls of a disconnect. *)
Record CloseReplies := mkCloseReplies {
  client_closes : Reply unit;
  transport_closes : Reply unit
}.

(** What the outside world answers during one [connectToServer]:
    the closes of a connection being replaced, the handshake, the three
    list requests, and the clock read by [new Date().toISOString()]. *)
Record ConnectReplies := mkConnectReplies {
  closing : CloseReplies;
  handshake : Reply unit;
  list_tools : Reply McpListToolsResult.t;
  list_resources : Reply McpListResourcesResult.t;
  list_prompts : Reply McpListPromptsResult.t;
  now : string
}.

(** The object literals built inside the three [map] callbacks. *)
Definition tag_tool (serverId : string) (tool : McpToolDefinition.t) : McpTool.t :=
  {| McpTool.name := McpToolDefinition.name tool;
     McpTool.title := McpToolDefinition.title tool;
     McpTool.description := McpToolDefinition.description tool;
     McpTool.inputSchema := McpToolDefinition.inputSchema tool;
     McpTool.outputSchema := McpToolDefinition.outputSchema tool;
     McpTool.annotations := McpToolDefinition.annotations tool;
     McpTool.serverId := serverId |}.

Definition tag_resource (serverId : string) (resource : McpResourceDefinition.t)
    : McpResource.t :=
  {| McpResource.uri := McpResourceDefinition.uri resource;
     McpResource.name := McpResourceDefinition.name resource;
     McpResource.title := McpResourceDefinition.title resource;
     McpResource.description := McpResourceDefinition.description resource;
     McpResource.mimeType := McpResourceDefinition.mimeType resource;
     McpResource.serverId := serverId |}.

Definition tag_prompt (serverId : string) (prompt : McpPromptDefinition.t)
    : McpPrompt.t :=
  {| McpPrompt.name := McpPromptDefinition.name prompt;
     McpPrompt.title := McpPromptDefinition.title prompt;
     McpPrompt.description := McpPromptDefinition.description prompt;
     McpPrompt.arguments := McpPromptDefinition.arguments prompt;
     McpPrompt.serverId := serverId |}.

(** [x || []] *)
Definition or_empty {A} (o : option (list A)) : list A :=
  match o with Some l => l | None => [] end.

(** [x || false] *)
Definition or_false (o : option bool) : bool :=
  match o with Some b => b | None => false end.

(** [if (!field) { throw new Error(msg) }], then the field is used. *)
Definition required (field : option string) (msg : string) : Js string :=
  if truthy field
  then match field with Some s => ret s | None => throw (Error msg) end
  else throw (Error msg).

Definition connected_status (config : McpServerConfig.t) (stamp : string)
    (tools : list McpTool.t) (resources : list McpResource.t)
    (prompts : list McpPrompt.t) : McpServerStatus.t :=
  {| McpServerStatus.id := McpServerConfig.id config;
     McpServerStatus.status := connected;
     McpServerStatus.lastConnected := Some stamp;
     McpServerStatus.error := None;
     McpServerStatus.capabilities :=
       Some {| Capabilities.tools := (0 <? length tools)%nat;
               Capabilities.resources := (0 <? length resources)%nat;
               Capabilities.prompts := (0 <? length prompts)%nat;
               Capabilities.logging := true |} |}.

Definition error_status (config : McpServerConfig.t) (e : JsThrown)
    : McpServerStatus.t :=
  {| McpServerStatus.id := McpServerConfig.id config;
     McpServerStatus.status := error;
     McpServerStatus.lastConnected := None;
     McpServerStatus.error := Some (getErrorMessage e "Unknown connection error");
     McpServerStatus.capabilities := None |}.

(** [connection.tools = []; connection.resources = []; connection.prompts = []]
    on the object held by the map. *)
Definition clear_capabilities (c : McpClientConnection.t) : McpClientConnection.t :=
  {| McpClientConnection.client := McpClientConnection.client c;
     McpClientConnection.transport := McpClientConnection.transport c;
     McpClientConnection.config := McpClientConnection.config c;
     McpClientConnection.status := McpClientConnection.status c;
     McpClientConnection.tools := [];
     McpClientConnection.resources := [];
     McpClientConnection.prompts := [] |}.

Definition is_connected (c : McpClientConnection.t) : bool :=
  StatusKind_eqb (McpServerStatus.status (McpClientConnection.status c)) connected.

Section Service.

(** [new URL(s)] throws exactly when the platform's [URL.canParse(s)] is
    false; URL parsing itself is outside the repository. *)
Variable URL_canParse : string -> bool.

Definition new_URL (s : string) : Js string :=
  if URL_canParse s then ret s else throw (Error "Invalid URL").

Definition disconnectFromServer (serverId : string) (r : CloseReplies) : Js unit :=
  (connection <- connections_get serverId ;;
   match connection with
   | None => ret tt
   | Some connection =>
       try_catch
         (client_close (McpClientConnection.client connection) (client_closes r) ;;
          transport_close (McpClientConnection.transport connection)
            (transport_closes r))
         (fun _ => ret tt) ;;
       connections_delete serverId
   end)%js.

(** The [if / else if / else] on [config.type]. *)
Definition create_transport (config : McpServerConfig.t) : Js nat :=
  match McpServerConfig.type config with
  | stdio =>
      (required (McpServerConfig.command config)
         "Command is required for stdio transport" ;;
       new_Transport stdio)%js
  | sse =>
      (u <- required (McpServerConfig.url config)
              "URL is required for SSE transport" ;;
       new_URL u ;;
       new_Transport sse)%js
  | other =>
      throw (Error ("Unsupported transport type: " ++ TransportType_text other))
  end.

Definition discover_tools (client : nat) (config : McpServerConfig.t)
    (answer : Reply McpListToolsResult.t) : Js (list McpTool.t) :=
  try_catch
    (toolsResult <- client_request client "tools/list" NoParams answer ;;
     ret (map (tag_tool (McpServerConfig.id config))
            (or_empty (McpListToolsResult.tools toolsResult))))%js
    (fun _ => ret []).

Definition discover_resources (client : nat) (config : McpServerConfig.t)
    (answer : Reply McpListResourcesResult.t) : Js (list McpResource.t) :=
  try_catch
    (resourcesResult <- client_request client "resources/list" NoParams answer ;;
     ret (map (tag_resource (McpServerConfig.id config))
            (or_empty (McpListResourcesResult.resources resourcesResult))))%js
    (fun _ => ret []).

Definition discover_prompts (client : nat) (config : McpServerConfig.t)
    (answer : Reply McpListPromptsResult.t) : Js (list McpPrompt.t) :=
  try_catch
    (promptsResult <- client_request client "prompts/list" NoParams answer ;;
     ret (map (tag_prompt (McpServerConfig.id config))
            (or_empty (McpListPromptsResult.prompts promptsResult))))%js
    (fun _ => ret []).

Definition connectToServer (config : McpServerConfig.t) (env : ConnectReplies)
    : Js McpServerStatus.t :=
  try_catch
    (disconnectFromServer (McpServerConfig.id config) (closing env) ;;
     client <- new_Client ;;
     transport <- create_transport config ;;
     timeoutPromise <- timeout_promise (McpServerConfig.timeout config)
                         "Connection timeout" ;;
     connecting <- client_connect client transport (handshake env) ;;
     await_race connecting timeoutPromise ;;
     tools <- discover_tools client config (list_tools env) ;;
     resources <- discover_resources client config (list_resources env) ;;
     prompts <- discover_prompts client config (list_prompts env) ;;
     let status := connected_status config (now env) tools resources prompts in
     connections_set (McpServerConfig.id config)
       {| McpClientConnection.client := client;
          McpClientConnection.transport := transport;
          McpClientConnection.config := config;
          McpClientConnection.status := status;
          McpClientConnection.tools := tools;
          McpClientConnection.resources := resources;
          McpClientConnection.prompts := prompts |} ;;
     ret status)%js
    (fun e => ret (error_status config e)).

Definition callTool (request : McpToolCallRequest.t)
    (answer : Reply McpToolCallResult.t) : Js McpToolCallResponse.t :=
  (connection <- connections_get (McpToolCallRequest.serverId request) ;;
   match connection with
   | None =>
       throw (Error ("MCP server " ++ McpToolCallRequest.serverId request
                       ++ " not connected"))
   | Some connection =>
       if negb (is_connected connection)
       then throw (Error ("MCP server " ++ McpToolCallRequest.serverId request
                            ++ " is not connected"))
       else
         try_catch
           (result <- client_request (McpClientConnection.client connection)
                        "tools/call"
                        (ToolCallParams (McpToolCallRequest.toolName request)
                           (McpToolCallRequest.arguments request))
                        answer ;;
            ret {| McpToolCallResponse.content :=
                     or_empty (McpToolCallResult.content result);
                   McpToolCallResponse.isError :=
                     or_false (McpToolCallResult.isError result) |})
           (fun e =>
              throw (Error ("Failed to call tool "
                              ++ McpToolCallRequest.toolName request ++ ": "
                              ++ getErrorMessage e "Unknown error")))
   end)%js.

Definition readResource (request : McpResourceReadRequest.t)
    (answer : Reply ResourceReadResult.t) : Js McpResourceContent.t :=
  (connection <- connections_get (McpResourceReadRequest.serverId request) ;;
   match connection with
   | None =>
       throw (Error ("MCP server " ++ McpResourceReadRequest.serverId request
                       ++ " not connected"))
   | Some connection =>
       if negb (is_connected connection)
       then throw (Error ("MCP server " ++ McpResourceReadRequest.serverId request
                            ++ " is not connected"))
       else
         try_catch
           (result <- client_request (McpClientConnection.client connection)
                        "resources/read"
                        (ResourceReadParams (McpResourceReadRequest.uri request))
                        answer ;;
            ret {| McpResourceContent.contents :=
                     or_empty (ResourceReadResult.contents result) |})
           (fun e =>
              throw (Error ("Failed to read resource "
                              ++ McpResourceReadRequest.uri request ++ ": "
                              ++ getErrorMessage e "Unknown error")))
   end)%js.

Definition refreshServerCapabilities (serverId : string) (env : ConnectReplies)
    : Js unit :=
  (connection <- connections_get serverId ;;
   match connection with
   | None => ret tt
   | Some connection =>
       if negb (is_connected connection) then ret tt
       else
         try_catch
           (connections_set serverId (clear_capabilities connection) ;;
            connectToServer (McpClientConnection.config connection) env ;;
            ret tt)
           (fun _ => ret tt)
   end)%js.

(** [Promise.allSettled] over one [disconnectFromServer] per key present
    when the method starts, taken one after the other; a disconnect
    that fails does not stop the others. *)
Fixpoint disconnect_each (keys : list string) (r : string -> CloseReplies)
    : Js unit :=
  match keys with
  | [] => ret tt
  | serverId :: rest =>
      (try_catch (disconnectFromServer serverId (r serverId)) (fun _ => ret tt) ;;
       disconnect_each rest r)%js
  end.

Definition disconnectAll (r : string -> CloseReplies) : Js unit :=
  fun w => disconnect_each (map_keys (connections w)) r w.

End Service.

(** ** The synchronous read methods *)

Definition getServerStatus (w : World) (serverId : string)
    : option McpServerStatus.t :=
  match map_get serverId (connections w) with
  | Some connection => Some (McpClientConnection.status connection)
  | None => None
  end.

Definition getAllServerStatuses (w : World) : JsMap McpServerStatus.t :=
  map (fun kv => (fst kv, McpClientConnection.status (snd kv))) (connections w).

Definition getAllTools (w : World) : list McpTool.t :=
  flat_map (fun connection =>
              if is_connected connection
              then McpClientConnection.tools connection else [])
           (map_values (connections w)).

Definition getServerTools (w : World) (serverId : string) : list McpTool.t :=
  match map_get serverId (connections w) with
  | Some connection =>
      if is_connected connection then McpClientConnection.tools connection else []
  | None => []
  end.

Definition getAllResources (w : World) : list McpResource.t :=
  flat_map (fun connection =>
              if is_connected connection
              then McpClientConnection.resources connection else [])
           (map_values (connections w)).

Definition getServerResources (w : World) (serverId : string)
    : list McpResource.t :=
  match map_get serverId (connections w) with
  | Some connection =>
      if is_connected connection
      then McpClientConnection.resources connection else []
  | None => []
  end.

Definition getAllPrompts (w : World) : list McpPrompt.t :=
  flat_map (fun connection =>
              if is_connected connection
              then McpClientConnection.prompts connection else [])
           (map_values (connections w)).

Definition getServerPrompts (w : World) (serverId : string) : list McpPrompt.t :=
  match map_get serverId (connections w) with
  | Some connection =>
      if is_connected connection then McpClientConnection.prompts connection else []
  | None => []
  end.

(** ** Runs of the service *)

Definition outcome {A} (m : Js A) (w : World) : Completion A := fst (m w).
Definition after {A} (m : Js A) (w : World) : World := snd (m w).

(** One call of an asynchronous method, with what the world answers. *)
Inductive Call :=
| CallConnect (config : McpServerConfig.t) (env : ConnectReplies)
| CallDisconnect (serverId : string) (r : CloseReplies)
| CallTool (request : McpToolCallRequest.t) (answer : Reply McpToolCallResult.t)
| CallReadResource (request : McpResourceReadRequest.t)
    (answer : Reply ResourceReadResult.t)
| CallRefresh (serverId : string) (env : ConnectReplies)
| CallDisconnectAll (r : string -> CloseReplies).

Definition run (URL_canParse : string -> bool) (c : Call) (w : World) : World :=
  match c with
  | CallConnect config env => after (connectToServer URL_canParse config env) w
  | CallDisconnect serverId r => after (disconnectFromServer serverId r) w
  | CallTool request answer => after (callTool request answer) w
  | CallReadResource request answer => after (readResource request answer) w
  | CallRefresh serverId env =>
      after (refreshServerCapabilities URL_canParse serverId env) w
  | CallDisconnectAll r => after (disconnectAll r) w
  end.

(** The worlds a service started by [new McpService()] can be in. *)
Inductive reachable (URL_canParse : string -> bool) : World -> Prop :=
| reach_initial : reachable URL_canParse initial_world
| reach_call w c :
    reachable URL_canParse w -> reachable URL_canParse (run URL_canParse c w).

(** ** Sample data for the concrete scenarios *)

Module Sample.

(** A stand-in for the platform's [URL.canParse]: a string parses when it
    has a colon, as every absolute URL does after its scheme. *)
Fixpoint has_colon (s : string) : bool :=
  match s with
  | EmptyString => false
  | String c rest => if Ascii.eqb c ":"%char then true else has_colon rest
  end.

Definition canParse : string -> bool := has_colon.

Definition config (id : string) (kind : TransportType) (ms : nat)
    : McpServerConfig.t :=
  {| McpServerConfig.id := id;
     McpServerConfig.name := id;
     McpServerConfig.description := None;
     McpServerConfig.enabled := true;
     McpServerConfig.type := kind;
     McpServerConfig.command := Some "npx";
     McpServerConfig.args := Some ["server"];
     McpServerConfig.url := Some "ws://localhost:9000/mcp";
     McpServerConfig.env := None;
     McpServerConfig.timeout := ms;
     McpServerConfig.maxRetries := 3 |}.

Definition ok {A} (ms : nat) (a : A) : Reply A := mkReply ms (Resolved a).
Definition fails {A} (ms : nat) (msg : string) : Reply A :=
  mkReply ms (Rejected (Error msg)).

Definition closes_ok : CloseReplies :=
  {| client_closes := ok 1 tt; transport_closes := ok 1 tt |}.

Definition search : McpToolDefinition.t :=
  {| McpToolDefinition.name := "search";
     McpToolDefinition.title := None;
     McpToolDefinition.description := Some "full-text search";
     McpToolDefinition.inputSchema := None;
     McpToolDefinition.outputSchema := None;
     McpToolDefinition.annotations := None |}.

Definition readme : McpResourceDefinition.t :=
  {| McpResourceDefinition.uri := "file:///README.md";
     McpResourceDefinition.name := "readme";
     McpResourceDefinition.title := None;
     McpResourceDefinition.description := None;
     McpResourceDefinition.mimeType := Some "text/markdown" |}.

Definition greet : McpPromptDefinition.t :=
  {| McpPromptDefinition.name := "greet";
     McpPromptDefinition.title := None;
     McpPromptDefinition.description := None;
     McpPromptDefinition.arguments := None |}.

(** A server that answers the handshake after [ms] milliseconds and then
    lists one tool, one resource and one prompt. *)
Definition healthy (ms : nat) : ConnectReplies :=
  {| closing := closes_ok;
     handshake := ok ms tt;
     list_tools := ok 5 {| McpListToolsResult.tools := Some [search] |};
     list_resources :=
       ok 5 {| McpListResourcesResult.resources := Some [readme] |};
     list_prompts := ok 5 {| McpListPromptsResult.prompts := Some [greet] |};
     now := "2025-01-01T00:00:00.000Z" |}.

(** The same server, refusing [prompts/list]. *)
Definition no_prompts (ms : nat) : ConnectReplies :=
  {| closing := closes_ok;
     handshake := ok ms tt;
     list_tools := ok 5 {| McpListToolsResult.tools := Some [search] |};
     list_resources :=
       ok 5 {| McpListResourcesResult.resources := Some [readme] |};
     list_prompts := fails 5 "Method not found";
     now := "2025-01-01T00:00:00.000Z" |}.

(** A server whose handshake is rejected after [ms] milliseconds. *)
Definition refusing (ms : nat) : ConnectReplies :=
  {| closing := closes_ok;
     handshake := fails ms "spawn npx ENOENT";
     list_tools := ok 5 {| McpListToolsResult.tools := Some [search] |};
     list_resources :=
       ok 5 {| McpListResourcesResult.resources := Some [readme] |};
     list_prompts := ok 5 {| McpListPromptsResult.prompts := Some [greet] |};
     now := "2025-01-01T00:00:00.000Z" |}.

Definition call_search (serverId : string) : McpToolCallRequest.t :=
  {| McpToolCallRequest.serverId := serverId;
     McpToolCallRequest.toolName := "search";
     McpToolCallRequest.arguments := Some "{}" |}.

Definition read_readme (serverId : string) : McpResourceReadRequest.t :=
  {| McpResourceReadRequest.serverId := serverId;
     McpResourceReadRequest.uri := "file:///README.md" |}.

Definition hit : McpToolCallResult.t :=
  {| McpToolCallResult.content :=
       Some [ {| ContentItem.type := "text";
                 ContentItem.text := Some "1 match";
                 ContentItem.data := None |} ];
     McpToolCallResult.isError := None |}.

Definition page : ResourceReadResult.t :=
  {| ResourceReadResult.contents :=
       Some [ {| ResourceEntry.uri := "file:///README.md";
                 ResourceEntry.mimeType := Some "text/markdown";
                 ResourceEntry.text := Some "# Libre WebUI";
                 ResourceEntry.blob := None |} ] |}.

(** Servers A and B, both connected, each listing a tool named search. *)
Definition two_servers : World :=
  run canParse (CallConnect (config "B" sse 1000) (healthy 20))
    (run canParse (CallConnect (config "A" stdio 1000) (healthy 20))
       initial_world).

(** Server A alone, connected. *)
Definition one_server : World :=
  run canParse (CallConnect (config "A" stdio 1000) (healthy 20)) initial_world.

(** A map holding, under A, a connection object whose status is not
    [connected]; no method of the service builds such an entry. *)
Definition stale : World :=
  {| connections :=
       [("A",
         {| McpClientConnection.client := 0;
            McpClientConnection.transport := 1;
            McpClientConnection.config := config "A" stdio 1000;
            McpClientConnection.status :=
              error_status (config "A" stdio 1000) (Error "socket hang up");
            McpClientConnection.tools := [tag_tool "A" search];
            McpClientConnection.resources := [];
            McpClientConnection.prompts := [] |})];
     next_handle := 2;
     trace := [] |}.

End Sample.

(** ** What one run of a method amounts to

    The definitions below read off, by running pieces of the method
    bodies, the facts that decide which path [connectToServer] takes. *)

(** The error thrown while building the transport, if any. *)
Definition transport_refusal (URL_canParse : string -> bool)
    (config : McpServerConfig.t) : option JsThrown :=
  match outcome (create_transport URL_canParse config) initial_world with
  | Normal _ => None
  | Throw e => Some e
  end.

(** The error the race between the handshake and the timer ends with, if
    any. *)
Definition handshake_failure (config : McpServerConfig.t) (env : ConnectReplies)
    : option JsThrown :=
  match outcome (await_race (handshake env)
                   (McpServerConfig.timeout config, Error "Connection timeout"))
          initial_world with
  | Normal _ => None
  | Throw e => Some e
  end.

(** The SDK calls made by [disconnectFromServer]. *)
Definition disconnect_events (w : World) (serverId : string) (r : CloseReplies)
    : list Event :=
  match map_get serverId (connections w) with
  | None => []
  | Some connection =>
      ClientClose (McpClientConnection.client connection)
      :: match settled (client_closes r) with
         | Resolved _ => [TransportClose (McpClientConnection.transport connection)]
         | Rejected _ => []
         end
  end.

(** The calls made up to and including [client.connect(transport)], for a
    client [c] and a transport [c + 1]. *)
Definition handshake_events (config : McpServerConfig.t) (c : nat) : list Event :=
  [ ClientNew c;
    TransportNew (S c) (McpServerConfig.type config);
    TimerStart (McpServerConfig.timeout config);
    ClientConnect c (S c) ].

Definition discovery_events (c : nat) : list Event :=
  [ ClientRequest c "tools/list" NoParams;
    ClientRequest c "resources/list" NoParams;
    ClientRequest c "prompts/list" NoParams ].

(** The capability lists a connect ends with, per list request. *)
Definition listed_tools (serverId : string) (r : Reply McpListToolsResult.t)
    : list McpTool.t :=
  match settled r with
  | Resolved x => map (tag_tool serverId) (or_empty (McpListToolsResult.tools x))
  | Rejected _ => []
  end.

Definition listed_resources (serverId : string)
    (r : Reply McpListResourcesResult.t) : list McpResource.t :=
  match settled r with
  | Resolved x =>
      map (tag_resource serverId) (or_empty (McpListResourcesResult.resources x))
  | Rejected _ => []
  end.

Definition listed_prompts (serverId : string) (r : Reply McpListPromptsResult.t)
    : list McpPrompt.t :=
  match settled r with
  | Resolved x =>
      map (tag_prompt serverId) (or_empty (McpListPromptsResult.prompts x))
  | Rejected _ => []
  end.

(** The connection object built by a successful connect for client [c]. *)
Definition new_connection (config : McpServerConfig.t) (env : ConnectReplies)
    (c : nat) : McpClientConnection.t :=
  let serverId := McpServerConfig.id config in
  let tools := listed_tools serverId (list_tools env) in
  let resources := listed_resources serverId (list_resources env) in
  let prompts := listed_prompts serverId (list_prompts env) in
  {| McpClientConnection.client := c;
     McpClientConnection.transport := S c;
     McpClientConnection.config := config;
     McpClientConnection.status :=
       connected_status config (now env) tools resources prompts;
     McpClientConnection.tools := tools;
     McpClientConnection.resources := resources;
     McpClientConnection.prompts := prompts |}.

(** Transports handed to [client.connect] and not closed since. *)
Fixpoint open_transports (events : list Event) (acc : list nat) : list nat :=
  match events with
  | [] => acc
  | ClientConnect _ t :: rest => open_transports rest (acc ++ [t])
  | TransportClose t :: rest =>
      open_transports rest (filter (fun t' => negb (Nat.eqb t t')) acc)
  | _ :: rest => open_transports rest acc
  end.

(** Open transports that no stored connection holds any more: nothing in
    the service can reach them to close them. *)
Definition leaked_transports (w : World) : list nat :=
  filter (fun t =>
            negb (existsb (fun connection =>
                             Nat.eqb (McpClientConnection.transport connection) t)
                    (map_values (connections w))))
         (open_transports (trace w) []).

(** The world [connectToServer] is entered in by a refresh: the stored
    object has had its three lists emptied. *)
Definition cleared (w : World) (serverId : string) (c : McpClientConnection.t)
    : World :=
  {| connections := map_set serverId (clear_capabilities c) (connections w);
     next_handle := next_handle w;
     trace := trace w |}.

(** The representation invariant of the service state. *)
Record entry_ok (w : World) (serverId : string) (c : McpClientConnection.t)
    : Prop := {
  entry_config_id : McpServerConfig.id (McpClientConnection.config c) = serverId;
  entry_status_id : McpServerStatus.id (McpClientConnection.status c) = serverId;
  entry_connected :
    McpServerStatus.status (McpClientConnection.status c) = connected;
  entry_tools :
    forall t, In t (McpClientConnection.tools c) -> McpTool.serverId t = serverId;
  entry_resources :
    forall r, In r (McpClientConnection.resources c) ->
              McpResource.serverId r = serverId;
  entry_prompts :
    forall p, In p (McpClientConnection.prompts c) ->
              McpPrompt.serverId p = serverId;
  entry_client_old : McpClientConnection.client c < next_handle w;
  entry_transport_old : McpClientConnection.transport c < next_handle w
}.

Record well_formed (w : World) : Prop := {
  wf_keys : NoDup (map_keys (connections w));
  wf_entries : forall serverId c,
      In (serverId, c) (connections w) -> entry_ok w serverId c;
  wf_clients : forall id1 c1 id2 c2,
      In (id1, c1) (connections w) -> In (id2, c2) (connections w) ->
      McpClientConnection.client c1 = McpClientConnection.client c2 -> id1 = id2
}.

Arguments wf_keys {w} _.
Arguments wf_entries {w} _ serverId c _.
Arguments wf_clients {w} _ id1 c1 id2 c2 _ _ _.
Arguments entry_config_id {w serverId c} _.
Arguments entry_status_id {w serverId c} _.
Arguments entry_connected {w serverId c} _.
Arguments entry_tools {w serverId c} _ t _.
Arguments entry_resources {w serverId c} _ r _.
Arguments entry_prompts {w serverId c} _ p _.
Arguments entry_client_old {w serverId c} _.
Arguments entry_transport_old {w serverId c} _.

(** ** The HTTP routes ([routes/mcp.ts])

    The handlers of [createMcpRoutes]. The configuration store
    ([mcpStorageService]) and the request-body validation are outside
    the service: what they answer is an argument of each handler, like
    the answers of the SDK. A handler ends by sending one response. *)

(** [{ ...server, status }] *)
Module McpServerWithStatus.
Record t := mk {
  server : McpServerConfig.t;
  status : McpServerStatus.t
}.
End McpServerWithStatus.

(** The JSON bodies the handlers send. *)
Inductive ResponseBody :=
| JsonError (error : string)
| JsonServers (servers : list McpServerWithStatus.t)
| JsonServer (server : McpServerWithStatus.t)
| JsonStatus (status : option McpServerStatus.t)
| JsonSuccess
| JsonTools (tools : list McpTool.t)
| JsonResources (resources : list McpResource.t)
| JsonPrompts (prompts : list McpPrompt.t)
| JsonToolCall (result : McpToolCallResponse.t)
| JsonResourceContent (result : McpResourceContent.t).

Record HttpResponse := mkResponse {
  code : nat;
  body : ResponseBody
}.

(** [res.json(body)] *)
Definition res_json (b : ResponseBody) : Js HttpResponse :=
  ret (mkResponse 200 b).

(** [res.status(code).json(body)] *)
Definition res_status_json (c : nat) (b : ResponseBody) : Js HttpResponse :=
  ret (mkResponse c b).

(** A synchronous call of one of the service's read methods. *)
Definition read {A} (f : World -> A) : Js A :=
  fun w => (Normal (f w), w).

(** A synchronous call that returns or throws ([Schema.parse(...)]). *)
Definition settle {A} (s : Settled A) : Js A :=
  match s with
  | Resolved a => ret a
  | Rejected e => throw e
  end.

(** [{ id: server.id, status: 'disconnected' }] *)
Definition disconnected_status (server : McpServerConfig.t) : McpServerStatus.t :=
  {| McpServerStatus.id := McpServerConfig.id server;
     McpServerStatus.status := disconnected;
     McpServerStatus.lastConnected := None;
     McpServerStatus.error := None;
     McpServerStatus.capabilities := None |}.

(** [{ ...server, status: status || { id: server.id, status: 'disconnected' } }] *)
Definition with_status (server : McpServerConfig.t)
    (status : option McpServerStatus.t) : McpServerWithStatus.t :=
  {| McpServerWithStatus.server := server;
     McpServerWithStatus.status :=
       match status with
       | Some st => st
       | None => disconnected_status server
       end |}.

Section Routes.

Variable URL_canParse : string -> bool.

(** [GET /servers] *)
Definition get_servers (stored : Reply (list McpServerConfig.t))
    : Js HttpResponse :=
  try_catch
    (servers <- await stored ;;
     statuses <- read getAllServerStatuses ;;
     res_json
       (JsonServers
          (map (fun server =>
                  with_status server
                    (map_get (McpServerConfig.id server) statuses))
             servers)))%js
    (fun e =>
       res_status_json 500
         (JsonError (getErrorMessage e "Failed to get MCP servers"))).

(** [GET /servers/:id] *)
Definition get_server (id : string) (stored : Reply (option McpServerConfig.t))
    : Js HttpResponse :=
  try_catch
    (server <- await stored ;;
     match server with
     | None => res_status_json 404 (JsonError "MCP server not found")
     | Some server =>
         (status <- read (fun w => getServerStatus w id) ;;
          res_json (JsonServer (with_status server status)))
     end)%js
    (fun e =>
       res_status_json 500
         (JsonError (getErrorMessage e "Failed to get MCP server"))).

(** [POST /servers]: [parsed] is what [McpServerConfigSchema.parse] gives
    for the body with its fresh id, [created] what the store answers. *)
Definition post_server (parsed : Settled McpServerConfig.t)
    (created : Reply McpServerConfig.t) (env : ConnectReplies)
    : Js HttpResponse :=
  try_catch
    (settle parsed ;;
     server <- await created ;;
     (if McpServerConfig.enabled server
      then try_catch (connectToServer URL_canParse server env ;; ret tt)
             (fun _ => ret tt)
      else ret tt) ;;
     status <- read (fun w => getServerStatus w (McpServerConfig.id server)) ;;
     res_status_json 201 (JsonServer (with_status server status)))%js
    (fun e =>
       res_status_json 400
         (JsonError (getErrorMessage e "Failed to create MCP server"))).

(** [PUT /servers/:id] *)
Definition put_server (id : string) (updated : Reply (option McpServerConfig.t))
    (r : CloseReplies) (env : ConnectReplies) : Js HttpResponse :=
  try_catch
    (server <- await updated ;;
     match server with
     | None => res_status_json 404 (JsonError "MCP server not found")
     | Some server =>
         ((if McpServerConfig.enabled server
           then try_catch
                  (disconnectFromServer id r ;;
                   connectToServer URL_canParse server env ;;
                   ret tt)
                  (fun _ => ret tt)
           else disconnectFromServer id r) ;;
          status <- read (fun w => getServerStatus w (McpServerConfig.id server)) ;;
          res_json (JsonServer (with_status server status)))
     end)%js
    (fun e =>
       res_status_json 400
         (JsonError (getErrorMessage e "Failed to update MCP server"))).

(** [DELETE /servers/:id] *)
Definition delete_server (id : string) (r : CloseReplies) (deleted : Reply bool)
    : Js HttpResponse :=
  try_catch
    (disconnectFromServer id r ;;
     deleted <- await deleted ;;
     if negb deleted
     then res_status_json 404 (JsonError "MCP server not found")
     else res_json JsonSuccess)%js
    (fun e =>
       res_status_json 500
         (JsonError (getErrorMessage e "Failed to delete MCP server"))).

(** [POST /servers/:id/connect] *)
Definition post_connect (id : string) (stored : Reply (option McpServerConfig.t))
    (env : ConnectReplies) : Js HttpResponse :=
  try_catch
    (server <- await stored ;;
     match server with
     | None => res_status_json 404 (JsonError "MCP server not found")
     | Some server =>
         (status <- connectToServer URL_canParse server env ;;
          res_json (JsonStatus (Some status)))
     end)%js
    (fun e =>
       res_status_json 500
         (JsonError (getErrorMessage e "Failed to connect to MCP server"))).

(** [POST /servers/:id/disconnect] *)
Definition post_disconnect (id : string) (r : CloseReplies) : Js HttpResponse :=
  try_catch
    (disconnectFromServer id r ;;
     res_json JsonSuccess)%js
    (fun e =>
       res_status_json 500
         (JsonError (getErrorMessage e "Failed to disconnect from MCP server"))).

(** [GET /servers/:id/status] *)
Definition get_status (id : string) : Js HttpResponse :=
  try_catch
    (status <- read (fun w => getServerStatus w id) ;;
     match status with
     | None =>
         res_status_json 404 (JsonError "MCP server not found or not connected")
     | Some st => res_json (JsonStatus (Some st))
     end)%js
    (fun e =>
       res_status_json 500
         (JsonError (getErrorMessage e "Failed to get server status"))).

(** [GET /tools] *)
Definition get_tools : Js HttpResponse :=
  try_catch
    (tools <- read getAllTools ;; res_json (JsonTools tools))%js
    (fun e =>
       res_status_json 500
         (JsonError (getErrorMessage e "Failed to get MCP tools"))).

(** [GET /servers/:id/tools] *)
Definition get_server_tools (id : string) : Js HttpResponse :=
  try_catch
    (tools <- read (fun w => getServerTools w id) ;; res_json (JsonTools tools))%js
    (fun e =>
       res_status_json 500
         (JsonError (getErrorMessage e "Failed to get server tools"))).

(** [POST /tools/call]: [parsed] is what [McpToolCallRequestSchema.parse]
    gives for the body. *)
Definition post_tool_call (parsed : Settled McpToolCallRequest.t)
    (answer : Reply McpToolCallResult.t) : Js HttpResponse :=
  try_catch
    (request <- settle parsed ;;
     result <- callTool request answer ;;
     res_json (JsonToolCall result))%js
    (fun e =>
       res_status_json 400
         (JsonError (getErrorMessage e "Failed to call MCP tool"))).

(** [GET /resources] *)
Definition get_resources : Js HttpResponse :=
  try_catch
    (resources <- read getAllResources ;; res_json (JsonResources resources))%js
    (fun e =>
       res_status_json 500
         (JsonError (getErrorMessage e "Failed to get MCP resources"))).

(** [GET /servers/:id/resources] *)
Definition get_server_resources (id : string) : Js HttpResponse :=
  try_catch
    (resources <- read (fun w => getServerResources w id) ;;
     res_json (JsonResources resources))%js
    (fun e =>
       res_status_json 500
         (JsonError (getErrorMessage e "Failed to get server resources"))).

(** [POST /resources/read] *)
Definition post_resource_read (parsed : Settled McpResourceReadRequest.t)
    (answer : Reply ResourceReadResult.t) : Js HttpResponse :=
  try_catch
    (request <- settle parsed ;;
     result <- readResource request answer ;;
     res_json (JsonResourceContent result))%js
    (fun e =>
       res_status_json 400
         (JsonError (getErrorMessage e "Failed to read MCP resource"))).

(** [GET /prompts] *)
Definition get_prompts : Js HttpResponse :=
  try_catch
    (prompts <- read getAllPrompts ;; res_json (JsonPrompts prompts))%js
    (fun e =>
       res_status_json 500
         (JsonError (getErrorMessage e "Failed to get MCP prompts"))).

(** [GET /servers/:id/prompts] *)
Definition get_server_prompts (id : string) : Js HttpResponse :=
  try_catch
    (prompts <- read (fun w => getServerPrompts w id) ;;
     res_json (JsonPrompts prompts))%js
    (fun e =>
       res_status_json 500
         (JsonError (getErrorMessage e "Failed to get server prompts"))).

(** [POST /servers/:id/refresh] *)
Definition post_refresh (id : string) (env : ConnectReplies) : Js HttpResponse :=
  try_catch
    (refreshServerCapabilities URL_canParse id env ;;
     status <- read (fun w => getServerStatus w id) ;;
     res_json (JsonStatus status))%js
    (fun e =>
       res_status_json 500
         (JsonError (getErrorMessage e "Failed to refresh server capabilities"))).

(** One request to the router, with what the store, the body validation
    and the SDK answer while it is handled. *)
Inductive HttpCall :=
| GetServers (stored : Reply (list McpServerConfig.t))
| GetServer (id : string) (stored : Reply (option McpServerConfig.t))
| PostServer (parsed : Settled McpServerConfig.t)
    (created : Reply McpServerConfig.t) (env : ConnectReplies)
| PutServer (id : string) (updated : Reply (option McpServerConfig.t))
    (r : CloseReplies) (env : ConnectReplies)
| DeleteServer (id : string) (r : CloseReplies) (deleted : Reply bool)
| PostConnect (id : string) (stored : Reply (option McpServerConfig.t))
    (env : ConnectReplies)
| PostDisconnect (id : string) (r : CloseReplies)
| GetStatus (id : string)
| GetTools
| GetServerTools (id : string)
| PostToolCall (parsed : Settled McpToolCallRequest.t)
    (answer : Reply McpToolCallResult.t)
| GetResources
| GetServerResources (id : string)
| PostResourceRead (parsed : Settled McpResourceReadRequest.t)
    (answer : Reply ResourceReadResult.t)
| GetPrompts
| GetServerPrompts (id : string)
| PostRefresh (id : string) (env : ConnectReplies).

Definition serve (call : HttpCall) : Js HttpResponse :=
  match call with
  | GetServers stored => get_servers stored
  | GetServer id stored => get_server id stored
  | PostServer parsed created env => post_server parsed created env
  | PutServer id updated r env => put_server id updated r env
  | DeleteServer id r deleted => delete_server id r deleted
  | PostConnect id stored env => post_connect id stored env
  | PostDisconnect id r => post_disconnect id r
  | GetStatus id => get_status id
  | GetTools => get_tools
  | GetServerTools id => get_server_tools id
  | PostToolCall parsed answer => post_tool_call parsed answer
  | GetResources => get_resources
  | GetServerResources id => get_server_resources id
  | PostResourceRead parsed answer => post_resource_read parsed answer
  | GetPrompts => get_prompts
  | GetServerPrompts id => get_server_prompts id
  | PostRefresh id env => post_refresh id env
  end.

End Routes.

(** ** Further bookkeeping for the facts below *)

(** The status kinds a response can show for a server. *)
Definition shown_kind (s : McpServerWithStatus.t) : StatusKind :=
  McpServerStatus.status (McpServerWithStatus.status s).

(** The service methods a request to the router ends up calling, in
    order, given what the store and the body validation answered. *)
Definition service_calls (call : HttpCall) : list Call :=
  match call with
  | PostServer (Resolved _) created env =>
      match settled created with
      | Resolved server =>
          if McpServerConfig.enabled server then [CallConnect server env] else []
      | Rejected _ => []
      end
  | PutServer id updated r env =>
      match settled updated with
      | Resolved (Some server) =>
          if McpServerConfig.enabled server
          then [CallDisconnect id r; CallConnect server env]
          else [CallDisconnect id r]
      | _ => []
      end
  | DeleteServer id r _ => [CallDisconnect id r]
  | PostConnect _ stored env =>
      match settled stored with
      | Resolved (Some server) => [CallConnect server env]
      | _ => []
      end
  | PostDisconnect id r => [CallDisconnect id r]
  | PostToolCall (Resolved request) answer => [CallTool request answer]
  | PostResourceRead (Resolved request) answer =>
      [CallReadResource request answer]
  | PostRefresh id env => [CallRefresh id env]
  | _ => []
  end.

(** The two SDK calls that release an object. *)
Definition is_close (ev : Event) : bool :=
  match ev with
  | ClientClose _ => true
  | TransportClose _ => true
  | _ => false
  end.

(** Every stored connection is as some successful connect built it. *)
Definition as_built (w : World) : Prop :=
  forall serverId c,
    In (serverId, c) (connections w) ->
    exists env,
      c = new_connection (McpClientConnection.config c) env
            (McpClientConnection.client c).

(** * Facts *)

(** ** The [Map] operations *)

Section JsMapFacts.
Variable V : Type.
Implicit Types (m : JsMap V) (k : string) (v : V).

Lemma map_get_set_eq k v m : map_get k (map_set k v m) = Some v.
Proof.
  induction m as [|[k' v'] rest IH]; simpl.
  - now rewrite String.eqb_refl.
  - destruct (k =? k') eqn:E; simpl.
    + now rewrite String.eqb_refl.
    + now rewrite E.
Qed.

Lemma map_get_set_ne k k' v m :
  k <> k' -> map_get k' (map_set k v m) = map_get k' m.
Proof.
  intros Hne. induction m as [|[k0 v0] rest IH]; simpl.
  - destruct (k' =? k) eqn:E; [apply String.eqb_eq in E; congruence | reflexivity].
  - destruct (k =? k0) eqn:E; simpl.
    + apply String.eqb_eq in E; subst k0.
      destruct (k' =? k) eqn:E'; [apply String.eqb_eq in E'; congruence | reflexivity].
    + now rewrite IH.
Qed.

Lemma map_get_delete_eq k m : map_get k (map_delete k m) = None.
Proof.
  induction m as [|[k' v'] rest IH]; simpl; [reflexivity|].
  destruct (k =? k') eqn:E; simpl; [assumption | now rewrite E].
Qed.

Lemma map_get_delete_ne k k' m :
  k <> k' -> map_get k' (map_delete k m) = map_get k' m.
Proof.
  intros Hne. induction m as [|[k0 v0] rest IH]; simpl; [reflexivity|].
  destruct (k =? k0) eqn:E; simpl.
  - apply String.eqb_eq in E; subst k0.
    destruct (k' =? k) eqn:E'; [apply String.eqb_eq in E'; congruence | assumption].
  - now rewrite IH.
Qed.

Lemma map_delete_absent k m : map_get k m = None -> map_delete k m = m.
Proof.
  induction m as [|[k' v'] rest IH]; simpl; [reflexivity|].
  destruct (k =? k'); [discriminate | intros H; now rewrite IH].
Qed.

Lemma map_get_In k v m : map_get k m = Some v -> In (k, v) m.
Proof.
  induction m as [|[k' v'] rest IH]; simpl; [discriminate|].
  destruct (k =? k') eqn:E.
  - apply String.eqb_eq in E. intros [= ->]. left; congruence.
  - auto.
Qed.

Lemma In_map_keys k v m : In (k, v) m -> In k (map_keys m).
Proof. intros H. apply (in_map fst) in H. exact H. Qed.

Lemma In_map_get k v m : NoDup (map_keys m) -> In (k, v) m -> map_get k m = Some v.
Proof.
  induction m as [|[k' v'] rest IH]; simpl; [tauto|].
  intros Hnd [Heq | Hin].
  - injection Heq as -> ->. now rewrite String.eqb_refl.
  - inversion Hnd as [|? ? Hnotin Hnd']; subst.
    destruct (k =? k') eqn:E.
    + apply String.eqb_eq in E; subst k'.
      exfalso. apply Hnotin. eapply In_map_keys; eassumption.
    + auto.
Qed.

Lemma In_map_delete k k' v m :
  In (k', v) (map_delete k m) -> In (k', v) m /\ k' <> k.
Proof.
  induction m as [|[k0 v0] rest IH]; simpl; [tauto|].
  destruct (k =? k0) eqn:E.
  - intros H. destruct (IH H). auto.
  - intros [Heq | Hin].
    + injection Heq as -> ->. split; [now left|].
      intros ->. now rewrite String.eqb_refl in E.
    + destruct (IH Hin). auto.
Qed.

Lemma In_map_set k k' v v' m :
  In (k', v') (map_set k v m) -> (k' = k /\ v' = v) \/ In (k', v') m.
Proof.
  induction m as [|[k0 v0] rest IH]; simpl.
  - intros [[= <- <-] | []]. now left.
  - destruct (k =? k0) eqn:E; simpl.
    + intros [[= <- <-] | Hin]; auto.
    + intros [Heq | Hin]; auto. destruct (IH Hin); auto.
Qed.

Lemma map_keys_delete k k' m :
  In k' (map_keys (map_delete k m)) -> In k' (map_keys m).
Proof.
  unfold map_keys. induction m as [|[k0 v0] rest IH]; simpl; [tauto|].
  destruct (k =? k0); simpl; intuition.
Qed.

Lemma map_keys_set k k' v m :
  In k' (map_keys (map_set k v m)) -> k' = k \/ In k' (map_keys m).
Proof.
  unfold map_keys. induction m as [|[k0 v0] rest IH]; simpl.
  - intuition.
  - destruct (k =? k0) eqn:E; simpl.
    + apply String.eqb_eq in E; subst k0. intuition.
    + intuition.
Qed.

Lemma NoDup_map_delete k m :
  NoDup (map_keys m) -> NoDup (map_keys (map_delete k m)).
Proof.
  unfold map_keys. induction m as [|[k0 v0] rest IH]; simpl; [auto|].
  intros Hnd. inversion Hnd as [|? ? Hnotin Hnd']; subst.
  destruct (k =? k0); simpl; [auto|].
  constructor; [|auto].
  intros Hin. apply Hnotin. eapply map_keys_delete. exact Hin.
Qed.

Lemma NoDup_map_set k v m :
  NoDup (map_keys m) -> NoDup (map_keys (map_set k v m)).
Proof.
  unfold map_keys. induction m as [|[k0 v0] rest IH]; simpl.
  - intros _. constructor; [simpl; tauto | constructor].
  - intros Hnd. inversion Hnd as [|? ? Hnotin Hnd']; subst.
    destruct (k =? k0) eqn:E; simpl.
    + apply String.eqb_eq in E; subst k0. now constructor.
    + constructor; [|auto].
      intros Hin. apply map_keys_set in Hin. destruct Hin as [-> | Hin].
      * now rewrite String.eqb_refl in E.
      * now apply Hnotin.
Qed.
End JsMapFacts.

(** ** Each method, run to the end *)

Lemma disconnectFromServer_run serverId r w :
  disconnectFromServer serverId r w =
  (Normal tt,
   {| connections := map_delete serverId (connections w);
      next_handle := next_handle w;
      trace := trace w ++ disconnect_events w serverId r |}).
Proof.
  unfold disconnectFromServer, disconnect_events, bind, connections_get.
  destruct (map_get serverId (connections w)) as [c|] eqn:Hget.
  - unfold try_catch, client_close, transport_close, bind, emit, await,
      connections_delete.
    destruct (settled (client_closes r)); simpl.
    + destruct (settled (transport_closes r)); simpl;
        now rewrite <- app_assoc.
    + reflexivity.
  - rewrite (map_delete_absent _ _ _ Hget), app_nil_r.
    now destruct w.
Qed.

Lemma create_transport_run cp config w :
  create_transport cp config w =
  match transport_refusal cp config with
  | None =>
      (Normal (next_handle w),
       {| connections := connections w;
          next_handle := S (next_handle w);
          trace := trace w ++ [TransportNew (next_handle w)
                                 (McpServerConfig.type config)] |})
  | Some e => (Throw e, w)
  end.
Proof.
  unfold transport_refusal, outcome, create_transport.
  destruct (McpServerConfig.type config).
  - unfold required, bind.
    destruct (McpServerConfig.command config) as [s|]; simpl;
      [destruct (s =? ""); simpl|]; reflexivity.
  - unfold required, bind, new_URL.
    destruct (McpServerConfig.url config) as [s|]; simpl;
      [destruct (s =? ""); simpl; [|destruct (cp s); simpl]|]; reflexivity.
  - reflexivity.
Qed.

Lemma await_race_run config env w :
  await_race (handshake env)
    (McpServerConfig.timeout config, Error "Connection timeout") w =
  match handshake_failure config env with
  | None => (Normal tt, w)
  | Some e => (Throw e, w)
  end.
Proof.
  unfold handshake_failure, outcome, await_race, await. simpl.
  destruct (latency (handshake env) <? McpServerConfig.timeout config)%nat;
    [|reflexivity].
  destruct (settled (handshake env)) as [[]|e]; reflexivity.
Qed.

Lemma discover_tools_run c config r w :
  discover_tools c config r w =
  (Normal (listed_tools (McpServerConfig.id config) r),
   {| connections := connections w;
      next_handle := next_handle w;
      trace := trace w ++ [ClientRequest c "tools/list" NoParams] |}).
Proof.
  unfold discover_tools, listed_tools, try_catch, client_request, bind, emit, await.
  destruct (settled r); reflexivity.
Qed.

Lemma discover_resources_run c config r w :
  discover_resources c config r w =
  (Normal (listed_resources (McpServerConfig.id config) r),
   {| connections := connections w;
      next_handle := next_handle w;
      trace := trace w ++ [ClientRequest c "resources/list" NoParams] |}).
Proof.
  unfold discover_resources, listed_resources, try_catch, client_request, bind,
    emit, await.
  destruct (settled r); reflexivity.
Qed.

Lemma discover_prompts_run c config r w :
  discover_prompts c config r w =
  (Normal (listed_prompts (McpServerConfig.id config) r),
   {| connections := connections w;
      next_handle := next_handle w;
      trace := trace w ++ [ClientRequest c "prompts/list" NoParams] |}).
Proof.
  unfold discover_prompts, listed_prompts, try_catch, client_request, bind,
    emit, await.
  destruct (settled r); reflexivity.
Qed.

(** The three ways [connectToServer] can go. *)

Lemma connect_refused cp config env w e :
  transport_refusal cp config = Some e ->
  connectToServer cp config env w =
  (Normal (error_status config e),
   {| connections := map_delete (McpServerConfig.id config) (connections w);
      next_handle := S (next_handle w);
      trace := (trace w
                ++ disconnect_events w (McpServerConfig.id config) (closing env))
               ++ [ClientNew (next_handle w)] |}).
Proof.
  intros Href. unfold connectToServer, try_catch, bind at 1.
  rewrite disconnectFromServer_run.
  unfold bind at 1, new_Client, bind at 1, fresh_handle, bind at 1, emit, ret.
  simpl. unfold bind at 1. rewrite create_transport_run, Href. reflexivity.
Qed.

Lemma connect_handshake_failed cp config env w e :
  transport_refusal cp config = None ->
  handshake_failure config env = Some e ->
  connectToServer cp config env w =
  (Normal (error_status config e),
   {| connections := map_delete (McpServerConfig.id config) (connections w);
      next_handle := S (S (next_handle w));
      trace := (trace w
                ++ disconnect_events w (McpServerConfig.id config) (closing env))
               ++ handshake_events config (next_handle w) |}).
Proof.
  intros Href Hfail. unfold connectToServer, try_catch, bind at 1.
  rewrite disconnectFromServer_run.
  unfold bind at 1, new_Client, bind at 1, fresh_handle, bind at 1, emit, ret.
  simpl. unfold bind at 1. rewrite create_transport_run, Href. simpl.
  unfold bind at 1, timeout_promise, bind at 1, emit, ret. simpl.
  unfold bind at 1, client_connect, bind at 1, emit, ret. simpl.
  unfold bind at 1. rewrite await_race_run, Hfail.
  unfold handshake_events. repeat rewrite <- app_assoc. reflexivity.
Qed.

Lemma connect_succeeded cp config env w :
  transport_refusal cp config = None ->
  handshake_failure config env = None ->
  connectToServer cp config env w =
  (Normal (McpClientConnection.status (new_connection config env (next_handle w))),
   {| connections :=
        map_set (McpServerConfig.id config)
          (new_connection config env (next_handle w))
          (map_delete (McpServerConfig.id config) (connections w));
      next_handle := S (S (next_handle w));
      trace := ((trace w
                 ++ disconnect_events w (McpServerConfig.id config) (closing env))
                ++ handshake_events config (next_handle w))
               ++ discovery_events (next_handle w) |}).
Proof.
  intros Href Hok. unfold connectToServer, try_catch, bind at 1.
  rewrite disconnectFromServer_run.
  unfold bind at 1, new_Client, bind at 1, fresh_handle, bind at 1, emit, ret.
  simpl. unfold bind at 1. rewrite create_transport_run, Href. simpl.
  unfold bind at 1, timeout_promise, bind at 1, emit, ret. simpl.
  unfold bind at 1, client_connect, bind at 1, emit, ret. simpl.
  unfold bind at 1. rewrite await_race_run, Hok.
  unfold bind at 1. rewrite discover_tools_run. simpl.
  unfold bind at 1. rewrite discover_resources_run. simpl.
  unfold bind at 1. rewrite discover_prompts_run. simpl.
  unfold bind, connections_set, ret. simpl.
  unfold handshake_events, discovery_events, new_connection.
  repeat rewrite <- app_assoc. reflexivity.
Qed.

Lemma connect_outcome cp config env w :
  exists st, outcome (connectToServer cp config env) w = Normal st.
Proof.
  unfold outcome.
  destruct (transport_refusal cp config) as [e|] eqn:Href.
  - rewrite (connect_refused cp config env w e Href). eexists; reflexivity.
  - destruct (handshake_failure config env) as [e|] eqn:Hhs.
    + rewrite (connect_handshake_failed cp config env w e Href Hhs). eexists; reflexivity.
    + rewrite (connect_succeeded cp config env w Href Hhs). eexists; reflexivity.
Qed.

Lemma callTool_not_connected request answer w :
  (forall c, map_get (McpToolCallRequest.serverId request) (connections w) = Some c ->
             is_connected c = false) ->
  exists msg,
    callTool request answer w = (Throw (Error msg), w) /\
    (msg = "MCP server " ++ McpToolCallRequest.serverId request ++ " not connected"
     \/ msg = "MCP server " ++ McpToolCallRequest.serverId request
                ++ " is not connected").
Proof.
  intros Hnot. unfold callTool, bind, connections_get.
  destruct (map_get _ (connections w)) as [c|].
  - rewrite (Hnot c eq_refl). simpl. eexists; split; [reflexivity | now right].
  - eexists; split; [reflexivity | now left].
Qed.

Lemma readResource_not_connected request answer w :
  (forall c, map_get (McpResourceReadRequest.serverId request) (connections w) = Some c ->
             is_connected c = false) ->
  exists msg,
    readResource request answer w = (Throw (Error msg), w) /\
    (msg = "MCP server " ++ McpResourceReadRequest.serverId request
             ++ " not connected"
     \/ msg = "MCP server " ++ McpResourceReadRequest.serverId request
                ++ " is not connected").
Proof.
  intros Hnot. unfold readResource, bind, connections_get.
  destruct (map_get _ (connections w)) as [c|].
  - rewrite (Hnot c eq_refl). simpl. eexists; split; [reflexivity | now right].
  - eexists; split; [reflexivity | now left].
Qed.

Lemma callTool_connected request answer w c :
  map_get (McpToolCallRequest.serverId request) (connections w) = Some c ->
  is_connected c = true ->
  callTool request answer w =
  (match settled answer with
   | Resolved result =>
       Normal {| McpToolCallResponse.content :=
                   or_empty (McpToolCallResult.content result);
                 McpToolCallResponse.isError :=
                   or_false (McpToolCallResult.isError result) |}
   | Rejected e =>
       Throw (Error ("Failed to call tool " ++ McpToolCallRequest.toolName request
                       ++ ": " ++ getErrorMessage e "Unknown error"))
   end,
   {| connections := connections w;
      next_handle := next_handle w;
      trace := trace w
               ++ [ClientRequest (McpClientConnection.client c) "tools/call"
                     (ToolCallParams (McpToolCallRequest.toolName request)
                        (McpToolCallRequest.arguments request))] |}).
Proof.
  intros Hget Hconn. unfold callTool, bind at 1, connections_get.
  rewrite Hget, Hconn. simpl.
  unfold try_catch, client_request, bind, emit, await.
  destruct (settled answer); reflexivity.
Qed.

Lemma readResource_connected request answer w c :
  map_get (McpResourceReadRequest.serverId request) (connections w) = Some c ->
  is_connected c = true ->
  readResource request answer w =
  (match settled answer with
   | Resolved result =>
       Normal {| McpResourceContent.contents :=
                   or_empty (ResourceReadResult.contents result) |}
   | Rejected e =>
       Throw (Error ("Failed to read resource "
                       ++ McpResourceReadRequest.uri request
                       ++ ": " ++ getErrorMessage e "Unknown error"))
   end,
   {| connections := connections w;
      next_handle := next_handle w;
      trace := trace w
               ++ [ClientRequest (McpClientConnection.client c) "resources/read"
                     (ResourceReadParams (McpResourceReadRequest.uri request))] |}).
Proof.
  intros Hget Hconn. unfold readResource, bind at 1, connections_get.
  rewrite Hget, Hconn. simpl.
  unfold try_catch, client_request, bind, emit, await.
  destruct (settled answer); reflexivity.
Qed.

(** Neither request method ever touches the [connections] map. *)
Lemma callTool_connections request answer w :
  connections (after (callTool request answer) w) = connections w.
Proof.
  unfold after.
  destruct (map_get (McpToolCallRequest.serverId request) (connections w))
    as [c|] eqn:Hget; [destruct (is_connected c) eqn:Hconn|].
  - now rewrite (callTool_connected request answer w c Hget Hconn).
  - destruct (callTool_not_connected request answer w) as (msg & -> & _);
      [intros c' Hc'; congruence | reflexivity].
  - destruct (callTool_not_connected request answer w) as (msg & -> & _);
      [intros c' Hc'; congruence | reflexivity].
Qed.

Lemma readResource_connections request answer w :
  connections (after (readResource request answer) w) = connections w.
Proof.
  unfold after.
  destruct (map_get (McpResourceReadRequest.serverId request) (connections w))
    as [c|] eqn:Hget; [destruct (is_connected c) eqn:Hconn|].
  - now rewrite (readResource_connected request answer w c Hget Hconn).
  - destruct (readResource_not_connected request answer w) as (msg & -> & _);
      [intros c' Hc'; congruence | reflexivity].
  - destruct (readResource_not_connected request answer w) as (msg & -> & _);
      [intros c' Hc'; congruence | reflexivity].
Qed.

Lemma callTool_next_handle request answer w :
  next_handle (after (callTool request answer) w) = next_handle w.
Proof.
  unfold after.
  destruct (map_get (McpToolCallRequest.serverId request) (connections w))
    as [c|] eqn:Hget; [destruct (is_connected c) eqn:Hconn|].
  - now rewrite (callTool_connected request answer w c Hget Hconn).
  - destruct (callTool_not_connected request answer w) as (msg & -> & _);
      [intros c' Hc'; congruence | reflexivity].
  - destruct (callTool_not_connected request answer w) as (msg & -> & _);
      [intros c' Hc'; congruence | reflexivity].
Qed.

Lemma readResource_next_handle request answer w :
  next_handle (after (readResource request answer) w) = next_handle w.
Proof.
  unfold after.
  destruct (map_get (McpResourceReadRequest.serverId request) (connections w))
    as [c|] eqn:Hget; [destruct (is_connected c) eqn:Hconn|].
  - now rewrite (readResource_connected request answer w c Hget Hconn).
  - destruct (readResource_not_connected request answer w) as (msg & -> & _);
      [intros c' Hc'; congruence | reflexivity].
  - destruct (readResource_not_connected request answer w) as (msg & -> & _);
      [intros c' Hc'; congruence | reflexivity].
Qed.

Lemma refresh_skipped cp serverId env w :
  (forall c, map_get serverId (connections w) = Some c -> is_connected c = false) ->
  refreshServerCapabilities cp serverId env w = (Normal tt, w).
Proof.
  intros Hnot. unfold refreshServerCapabilities, bind, connections_get.
  destruct (map_get serverId (connections w)) as [c|]; [|reflexivity].
  now rewrite (Hnot c eq_refl).
Qed.

Lemma refresh_run cp serverId env w c :
  map_get serverId (connections w) = Some c ->
  is_connected c = true ->
  refreshServerCapabilities cp serverId env w =
  (Normal tt,
   after (connectToServer cp (McpClientConnection.config c) env)
     (cleared w serverId c)).
Proof.
  intros Hget Hconn.
  unfold refreshServerCapabilities, bind at 1, connections_get.
  rewrite Hget, Hconn. simpl.
  unfold try_catch, bind at 1, connections_set. fold (cleared w serverId c).
  unfold bind, after.
  destruct (connect_outcome cp (McpClientConnection.config c) env
              (cleared w serverId c)) as [st Hst].
  unfold outcome in Hst.
  destruct (connectToServer cp (McpClientConnection.config c) env
              (cleared w serverId c)) as [[st'|e] w'];
    simpl in *; [reflexivity | discriminate].
Qed.

(** ** The representation invariant holds in every reachable world *)

Lemma entry_ok_later w w' serverId c :
  next_handle w <= next_handle w' ->
  entry_ok w serverId c -> entry_ok w' serverId c.
Proof.
  intros Hle [H1 H2 H3 H4 H5 H6 H7 H8].
  constructor; auto; lia.
Qed.

Lemma well_formed_initial : well_formed initial_world.
Proof.
  constructor; simpl.
  - constructor.
  - intros ? ? [].
  - intros ? ? ? ? [].
Qed.

(** Dropping entries and handing out handles keeps the invariant. *)
Lemma well_formed_shrink w w' :
  well_formed w ->
  NoDup (map_keys (connections w')) ->
  (forall serverId c, In (serverId, c) (connections w') ->
                      In (serverId, c) (connections w)) ->
  next_handle w <= next_handle w' ->
  well_formed w'.
Proof.
  intros [Hkeys Hentries Hclients] Hnd Hsub Hle.
  constructor.
  - exact Hnd.
  - intros serverId c Hin. eapply entry_ok_later; eauto.
  - intros id1 c1 id2 c2 H1 H2. eauto.
Qed.

Lemma well_formed_delete w serverId n tr :
  well_formed w -> next_handle w <= n ->
  well_formed {| connections := map_delete serverId (connections w);
                 next_handle := n;
                 trace := tr |}.
Proof.
  intros Hwf Hle. apply well_formed_shrink with (w := w); simpl;
    [assumption | | | assumption].
  - apply NoDup_map_delete. apply (wf_keys Hwf).
  - intros k c Hin. now apply In_map_delete in Hin.
Qed.

Lemma listed_tools_tagged serverId r t :
  In t (listed_tools serverId r) -> McpTool.serverId t = serverId.
Proof.
  unfold listed_tools. destruct (settled r); [|intros []].
  intros Hin. apply in_map_iff in Hin. destruct Hin as (d & <- & _). reflexivity.
Qed.

Lemma listed_resources_tagged serverId r x :
  In x (listed_resources serverId r) -> McpResource.serverId x = serverId.
Proof.
  unfold listed_resources. destruct (settled r); [|intros []].
  intros Hin. apply in_map_iff in Hin. destruct Hin as (d & <- & _). reflexivity.
Qed.

Lemma listed_prompts_tagged serverId r p :
  In p (listed_prompts serverId r) -> McpPrompt.serverId p = serverId.
Proof.
  unfold listed_prompts. destruct (settled r); [|intros []].
  intros Hin. apply in_map_iff in Hin. destruct Hin as (d & <- & _). reflexivity.
Qed.

Lemma new_connection_ok w config env tr :
  entry_ok {| connections :=
                map_set (McpServerConfig.id config)
                  (new_connection config env (next_handle w))
                  (map_delete (McpServerConfig.id config) (connections w));
              next_handle := S (S (next_handle w));
              trace := tr |}
    (McpServerConfig.id config) (new_connection config env (next_handle w)).
Proof.
  constructor; simpl; try reflexivity; try lia.
  - intros t. apply listed_tools_tagged.
  - intros r. apply listed_resources_tagged.
  - intros p. apply listed_prompts_tagged.
Qed.

Lemma well_formed_connected w config env tr :
  well_formed w ->
  well_formed {| connections :=
                   map_set (McpServerConfig.id config)
                     (new_connection config env (next_handle w))
                     (map_delete (McpServerConfig.id config) (connections w));
                 next_handle := S (S (next_handle w));
                 trace := tr |}.
Proof.
  intros Hwf.
  assert (Hold : forall k c,
             In (k, c) (map_delete (McpServerConfig.id config) (connections w)) ->
             entry_ok w k c).
  { intros k c Hin. apply In_map_delete in Hin. apply (wf_entries Hwf), Hin. }
  constructor; simpl.
  - apply NoDup_map_set, NoDup_map_delete, (wf_keys Hwf).
  - intros k c Hin. apply In_map_set in Hin. destruct Hin as [[-> ->] | Hin].
    + apply new_connection_ok.
    + eapply entry_ok_later; [|apply Hold, Hin]. simpl; lia.
  - intros id1 c1 id2 c2 H1 H2 Heq.
    apply In_map_set in H1. apply In_map_set in H2.
    destruct H1 as [[-> ->] | H1], H2 as [[-> ->] | H2].
    + reflexivity.
    + exfalso. pose proof (entry_client_old (Hold _ _ H2)) as Hlt.
      simpl in Heq. lia.
    + exfalso. pose proof (entry_client_old (Hold _ _ H1)) as Hlt.
      simpl in Heq. lia.
    + apply In_map_delete in H1. apply In_map_delete in H2.
      eapply (wf_clients Hwf); [apply H1 | apply H2 | exact Heq].
Qed.

Lemma well_formed_connect cp config env w :
  well_formed w -> well_formed (after (connectToServer cp config env) w).
Proof.
  intros Hwf. unfold after.
  destruct (transport_refusal cp config) as [e|] eqn:Href.
  - rewrite (connect_refused cp config env w e Href). simpl.
    apply well_formed_delete; [assumption | lia].
  - destruct (handshake_failure config env) as [e|] eqn:Hhs.
    + rewrite (connect_handshake_failed cp config env w e Href Hhs). simpl.
      apply well_formed_delete; [assumption | lia].
    + rewrite (connect_succeeded cp config env w Href Hhs). simpl.
      now apply well_formed_connected.
Qed.

Lemma well_formed_disconnect serverId r w :
  well_formed w -> well_formed (after (disconnectFromServer serverId r) w).
Proof.
  intros Hwf. unfold after. rewrite disconnectFromServer_run. simpl.
  apply well_formed_delete; [assumption | lia].
Qed.

Lemma well_formed_cleared w serverId c :
  well_formed w ->
  map_get serverId (connections w) = Some c ->
  well_formed (cleared w serverId c).
Proof.
  intros Hwf Hget. pose proof (map_get_In _ _ _ _ Hget) as Hin.
  pose proof (wf_entries Hwf _ _ Hin) as [H1 H2 H3 H4 H5 H6 H7 H8].
  unfold cleared. constructor; simpl.
  - apply NoDup_map_set, (wf_keys Hwf).
  - intros k c' Hin'. apply In_map_set in Hin'.
    destruct Hin' as [[-> ->] | Hin'].
    + constructor; simpl; auto; intros ? [].
    + eapply entry_ok_later; [|apply (wf_entries Hwf), Hin']. simpl; lia.
  - intros id1 c1 id2 c2 Hin1 Hin2 Heq.
    apply In_map_set in Hin1. apply In_map_set in Hin2.
    destruct Hin1 as [[-> ->] | Hin1], Hin2 as [[-> ->] | Hin2]; simpl in Heq.
    + reflexivity.
    + eapply (wf_clients Hwf); [apply Hin | apply Hin2 | exact Heq].
    + eapply (wf_clients Hwf); [apply Hin1 | apply Hin | exact Heq].
    + eapply (wf_clients Hwf); [apply Hin1 | apply Hin2 | exact Heq].
Qed.

Lemma well_formed_refresh cp serverId env w :
  well_formed w ->
  well_formed (after (refreshServerCapabilities cp serverId env) w).
Proof.
  intros Hwf. unfold after.
  destruct (map_get serverId (connections w)) as [c|] eqn:Hget;
    [destruct (is_connected c) eqn:Hconn|].
  - rewrite (refresh_run cp serverId env w c Hget Hconn). simpl.
    apply well_formed_connect. now apply well_formed_cleared.
  - rewrite refresh_skipped; [assumption | intros c' Hc'; congruence].
  - rewrite refresh_skipped; [assumption | intros c' Hc'; congruence].
Qed.

Lemma well_formed_disconnect_each keys r :
  forall w, well_formed w -> well_formed (after (disconnect_each keys r) w).
Proof.
  induction keys as [|k rest IH]; intros w Hwf.
  - exact Hwf.
  - unfold after. simpl. unfold bind, try_catch.
    rewrite disconnectFromServer_run.
    apply IH. apply well_formed_delete; [assumption | lia].
Qed.

Lemma well_formed_run cp call w : well_formed w -> well_formed (run cp call w).
Proof.
  intros Hwf. destruct call; simpl.
  - now apply well_formed_connect.
  - now apply well_formed_disconnect.
  - apply well_formed_shrink with (w := w); [assumption | | |].
    + rewrite callTool_connections. apply (wf_keys Hwf).
    + rewrite callTool_connections. auto.
    + rewrite callTool_next_handle. lia.
  - apply well_formed_shrink with (w := w); [assumption | | |].
    + rewrite readResource_connections. apply (wf_keys Hwf).
    + rewrite readResource_connections. auto.
    + rewrite readResource_next_handle. lia.
  - now apply well_formed_refresh.
  - unfold disconnectAll, after. now apply well_formed_disconnect_each.
Qed.

Lemma reachable_well_formed cp w : reachable cp w -> well_formed w.
Proof.
  induction 1 as [|w call _ IH].
  - apply well_formed_initial.
  - now apply well_formed_run.
Qed.

(** ** Status tests and the read methods *)

Lemma StatusKind_eqb_eq a b : StatusKind_eqb a b = true <-> a = b.
Proof. destruct a, b; simpl; split; intros H; congruence. Qed.

Lemma is_connected_true c :
  is_connected c = true <->
  McpServerStatus.status (McpClientConnection.status c) = connected.
Proof. unfold is_connected. apply StatusKind_eqb_eq. Qed.

Lemma is_connected_false c :
  is_connected c = false <->
  McpServerStatus.status (McpClientConnection.status c) <> connected.
Proof.
  rewrite <- is_connected_true. destruct (is_connected c); split; congruence.
Qed.

Lemma getServerStatus_Some w serverId st :
  getServerStatus w serverId = Some st <->
  exists c, map_get serverId (connections w) = Some c /\
            McpClientConnection.status c = st.
Proof.
  unfold getServerStatus. destruct (map_get serverId (connections w)) as [c|].
  - split.
    + intros [= <-]. now exists c.
    + intros (c' & [= <-] & <-). reflexivity.
  - split; [discriminate | intros (c' & Hc' & _); discriminate].
Qed.

Lemma not_connected_lookup w serverId :
  (forall st, getServerStatus w serverId = Some st ->
              McpServerStatus.status st <> connected) ->
  forall c, map_get serverId (connections w) = Some c -> is_connected c = false.
Proof.
  intros Hnot c Hget. apply is_connected_false. apply Hnot.
  apply getServerStatus_Some. now exists c.
Qed.

(** Membership in an aggregated view, for any of the three lists. *)
Lemma In_aggregate {A} (proj : McpClientConnection.t -> list A) w x :
  In x (flat_map (fun c => if is_connected c then proj c else [])
          (map_values (connections w))) <->
  exists serverId c,
    In (serverId, c) (connections w) /\
    McpServerStatus.status (McpClientConnection.status c) = connected /\
    In x (proj c).
Proof.
  rewrite in_flat_map. unfold map_values. split.
  - intros (c & Hc & Hx). apply in_map_iff in Hc.
    destruct Hc as ([k c'] & Hsnd & Hin). simpl in Hsnd. subst c'.
    destruct (is_connected c) eqn:Hconn; [|destruct Hx].
    exists k, c. split; [assumption|]. split; [|assumption].
    now apply is_connected_true.
  - intros (k & c & Hin & Hconn & Hx). exists c. split.
    + apply in_map_iff. now exists (k, c).
    + apply is_connected_true in Hconn. now rewrite Hconn.
Qed.

(** * The claims *)

(** C4: when the connection of a server id is absent, or stored with a
    status other than [connected], [callTool] and [readResource] both throw
    a not-connected error and leave the world, trace included, exactly as
    it was: no call into the SDK is made. *)
Theorem C4_not_connected_fails_without_io w serverId :
  (forall st, getServerStatus w serverId = Some st ->
              McpServerStatus.status st <> connected) ->
  (forall request answer,
      McpToolCallRequest.serverId request = serverId ->
      exists msg,
        callTool request answer w = (Throw (Error msg), w) /\
        (msg = "MCP server " ++ serverId ++ " not connected" \/
         msg = "MCP server " ++ serverId ++ " is not connected")) /\
  (forall request answer,
      McpResourceReadRequest.serverId request = serverId ->
      exists msg,
        readResource request answer w = (Throw (Error msg), w) /\
        (msg = "MCP server " ++ serverId ++ " not connected" \/
         msg = "MCP server " ++ serverId ++ " is not connected")).
Proof.
  intros Hnot. split; intros request answer <-.
  - apply callTool_not_connected. now apply not_connected_lookup.
  - apply readResource_not_connected. now apply not_connected_lookup.
Qed.

(** C9: for a connected server, [callTool] and [readResource] leave the
    [connections] map as it was whatever the SDK answers, so status,
    capability lists and timestamps stay put; a rejected request is
    rethrown to the caller and the stored status is still [connected]. *)
Theorem C9_requests_do_not_touch_connections w serverId c :
  map_get serverId (connections w) = Some c ->
  McpServerStatus.status (McpClientConnection.status c) = connected ->
  (forall request answer,
      McpToolCallRequest.serverId request = serverId ->
      let w' := after (callTool request answer) w in
      connections w' = connections w /\
      map_get serverId (connections w') = Some c /\
      (forall e, settled answer = Rejected e ->
                 outcome (callTool request answer) w =
                 Throw (Error ("Failed to call tool "
                                 ++ McpToolCallRequest.toolName request ++ ": "
                                 ++ getErrorMessage e "Unknown error")) /\
                 getServerStatus w' serverId =
                 Some (McpClientConnection.status c))) /\
  (forall request answer,
      McpResourceReadRequest.serverId request = serverId ->
      let w' := after (readResource request answer) w in
      connections w' = connections w /\
      map_get serverId (connections w') = Some c /\
      (forall e, settled answer = Rejected e ->
                 outcome (readResource request answer) w =
                 Throw (Error ("Failed to read resource "
                                 ++ McpResourceReadRequest.uri request ++ ": "
                                 ++ getErrorMessage e "Unknown error")) /\
                 getServerStatus w' serverId =
                 Some (McpClientConnection.status c))).
Proof.
  intros Hget Hconn. apply is_connected_true in Hconn.
  split; intros request answer Hid w'; subst w' serverId.
  - rewrite callTool_connections. repeat split; try assumption.
    + unfold outcome. rewrite (callTool_connected request answer w c Hget Hconn).
      now rewrite H.
    + unfold getServerStatus. now rewrite callTool_connections, Hget.
  - rewrite readResource_connections. repeat split; try assumption.
    + unfold outcome.
      rewrite (readResource_connected request answer w c Hget Hconn).
      now rewrite H.
    + unfold getServerStatus. now rewrite readResource_connections, Hget.
Qed.

Lemma C4_witness :
  (forall st, getServerStatus Sample.stale "A" = Some st ->
              McpServerStatus.status st <> connected) /\
  (exists msg,
      callTool (Sample.call_search "A") (Sample.ok 5 Sample.hit) Sample.stale =
        (Throw (Error msg), Sample.stale) /\
      (msg = "MCP server A not connected" \/
       msg = "MCP server A is not connected")) /\
  (exists msg,
      readResource (Sample.read_readme "A") (Sample.ok 5 Sample.page)
        Sample.stale = (Throw (Error msg), Sample.stale) /\
      (msg = "MCP server A not connected" \/
       msg = "MCP server A is not connected")).
Proof.
  assert (H : forall st, getServerStatus Sample.stale "A" = Some st ->
                         McpServerStatus.status st <> connected).
  { intros st Hst. vm_compute in Hst. injection Hst as <-. discriminate. }
  split; [exact H|].
  destruct (C4_not_connected_fails_without_io Sample.stale "A" H) as [Hc Hr].
  split.
  - exact (Hc (Sample.call_search "A") (Sample.ok 5 Sample.hit) eq_refl).
  - exact (Hr (Sample.read_readme "A") (Sample.ok 5 Sample.page) eq_refl).
Defined.

Lemma C9_witness :
  map_get "A" (connections Sample.two_servers)
    = Some (new_connection (Sample.config "A" stdio 1000) (Sample.healthy 20) 0) /\
  connections
    (after (callTool (Sample.call_search "A") (Sample.fails 5 "socket hang up"))
       Sample.two_servers)
    = connections Sample.two_servers /\
  connections
    (after (readResource (Sample.read_readme "A") (Sample.ok 5 Sample.page))
       Sample.two_servers)
    = connections Sample.two_servers.
Proof.
  assert (Hget : map_get "A" (connections Sample.two_servers)
                 = Some (new_connection (Sample.config "A" stdio 1000)
                           (Sample.healthy 20) 0)) by reflexivity.
  split; [exact Hget|].
  destruct (C9_requests_do_not_touch_connections Sample.two_servers "A" _
              Hget eq_refl) as [Htool Hread].
  split.
  - apply (Htool (Sample.call_search "A") (Sample.fails 5 "socket hang up") eq_refl).
  - apply (Hread (Sample.read_readme "A") (Sample.ok 5 Sample.page) eq_refl).
Defined.

(** C10: in every world the service can reach, each connection held by
    the [connections] map has status [connected]; the per-server status
    query therefore answers either a [connected] status or nothing; and a
    [connectToServer] that returns an [error] status leaves no entry for
    that server id, the [error] status being only the returned value. *)
Theorem C10_stored_connections_are_connected cp w :
  reachable cp w ->
  (forall serverId c,
      In (serverId, c) (connections w) ->
      McpServerStatus.status (McpClientConnection.status c) = connected) /\
  (forall serverId,
      getServerStatus w serverId = None \/
      exists st, getServerStatus w serverId = Some st /\
                 McpServerStatus.status st = connected) /\
  (forall config env,
      let w' := after (connectToServer cp config env) w in
      exists st,
        outcome (connectToServer cp config env) w = Normal st /\
        ((McpServerStatus.status st = connected /\
          getServerStatus w' (McpServerConfig.id config) = Some st) \/
         (McpServerStatus.status st = error /\
          map_get (McpServerConfig.id config) (connections w') = None /\
          getServerStatus w' (McpServerConfig.id config) = None))).
Proof.
  intros Hreach. pose proof (reachable_well_formed cp w Hreach) as Hwf.
  split; [|split].
  - intros serverId c Hin. apply (entry_connected (wf_entries Hwf _ _ Hin)).
  - intros serverId. unfold getServerStatus.
    destruct (map_get serverId (connections w)) as [c|] eqn:Hget; [right | now left].
    exists (McpClientConnection.status c). split; [reflexivity|].
    apply map_get_In in Hget. apply (entry_connected (wf_entries Hwf _ _ Hget)).
  - intros config env w'. subst w'. unfold outcome, after, getServerStatus.
    destruct (transport_refusal cp config) as [e|] eqn:Href.
    + rewrite (connect_refused cp config env w e Href). simpl.
      rewrite map_get_delete_eq. eexists. split; [reflexivity|]. right. auto.
    + destruct (handshake_failure config env) as [e|] eqn:Hhs.
      * rewrite (connect_handshake_failed cp config env w e Href Hhs). simpl.
        rewrite map_get_delete_eq. eexists. split; [reflexivity|]. right. auto.
      * rewrite (connect_succeeded cp config env w Href Hhs). simpl.
        rewrite map_get_set_eq. eexists. split; [reflexivity|]. left. auto.
Qed.

Lemma C10_witness :
  reachable Sample.canParse Sample.two_servers /\
  (forall serverId c,
      In (serverId, c) (connections Sample.two_servers) ->
      McpServerStatus.status (McpClientConnection.status c) = connected) /\
  (getServerStatus Sample.two_servers "C" = None \/
   exists st, getServerStatus Sample.two_servers "C" = Some st /\
              McpServerStatus.status st = connected).
Proof.
  assert (Hreach : reachable Sample.canParse Sample.two_servers).
  { unfold Sample.two_servers. apply reach_call, reach_call, reach_initial. }
  split; [exact Hreach|].
  destruct (C10_stored_connections_are_connected Sample.canParse
              Sample.two_servers Hreach) as (Hall & Hquery & _).
  split; [exact Hall | exact (Hquery "C")].
Defined.

(** C8, as stated, fails: server A is connected with a configured timeout
    of 1000 ms, the answer to [tools/call] arrives after 5000 ms, and
    [callTool] returns that answer instead of failing with a timeout
    error. *)
Lemma C8_slow_call_is_not_timed_out :
  (exists c,
      map_get "A" (connections Sample.two_servers) = Some c /\
      is_connected c = true /\
      McpServerConfig.timeout (McpClientConnection.config c) = 1000) /\
  latency (Sample.ok 5000 Sample.hit) = 5000 /\
  ~ (exists e,
        outcome (callTool (Sample.call_search "A") (Sample.ok 5000 Sample.hit))
          Sample.two_servers = Throw e).
Proof.
  split; [|split].
  - eexists. repeat split; reflexivity.
  - reflexivity.
  - intros (e & He). vm_compute in He. discriminate.
Qed.

(** C8, amended: a tool call or resource read against a connected server
    is not raced against the server's configured timeout; its outcome is
    what the SDK's request settles with, after however many milliseconds:
    the normalised result when it resolves, a [Failed to ...] error when it
    rejects. Either way the stored status of the server stays as it was. *)
Theorem C8_requests_ignore_the_configured_timeout w serverId c :
  map_get serverId (connections w) = Some c ->
  McpServerStatus.status (McpClientConnection.status c) = connected ->
  (forall request ms s,
      McpToolCallRequest.serverId request = serverId ->
      outcome (callTool request (mkReply ms s)) w =
      match s with
      | Resolved result =>
          Normal {| McpToolCallResponse.content :=
                      or_empty (McpToolCallResult.content result);
                    McpToolCallResponse.isError :=
                      or_false (McpToolCallResult.isError result) |}
      | Rejected e =>
          Throw (Error ("Failed to call tool "
                          ++ McpToolCallRequest.toolName request ++ ": "
                          ++ getErrorMessage e "Unknown error"))
      end /\
      getServerStatus (after (callTool request (mkReply ms s)) w) serverId =
      Some (McpClientConnection.status c)) /\
  (forall request ms s,
      McpResourceReadRequest.serverId request = serverId ->
      outcome (readResource request (mkReply ms s)) w =
      match s with
      | Resolved result =>
          Normal {| McpResourceContent.contents :=
                      or_empty (ResourceReadResult.contents result) |}
      | Rejected e =>
          Throw (Error ("Failed to read resource "
                          ++ McpResourceReadRequest.uri request ++ ": "
                          ++ getErrorMessage e "Unknown error"))
      end /\
      getServerStatus (after (readResource request (mkReply ms s)) w) serverId =
      Some (McpClientConnection.status c)).
Proof.
  intros Hget Hconn. apply is_connected_true in Hconn.
  split; intros request ms s Hid; subst serverId; unfold outcome, after.
  - rewrite (callTool_connected request (mkReply ms s) w c Hget Hconn).
    simpl. split; [reflexivity|]. unfold getServerStatus. simpl. now rewrite Hget.
  - rewrite (readResource_connected request (mkReply ms s) w c Hget Hconn).
    simpl. split; [reflexivity|]. unfold getServerStatus. simpl. now rewrite Hget.
Qed.

Lemma C8_witness :
  map_get "A" (connections Sample.two_servers)
    = Some (new_connection (Sample.config "A" stdio 1000) (Sample.healthy 20) 0) /\
  outcome (callTool (Sample.call_search "A") (mkReply 5000 (Resolved Sample.hit)))
    Sample.two_servers
    = Normal {| McpToolCallResponse.content :=
                  or_empty (McpToolCallResult.content Sample.hit);
                McpToolCallResponse.isError :=
                  or_false (McpToolCallResult.isError Sample.hit) |} /\
  getServerStatus
    (after (callTool (Sample.call_search "A") (mkReply 5000 (Resolved Sample.hit)))
       Sample.two_servers) "A"
    = Some (McpClientConnection.status
              (new_connection (Sample.config "A" stdio 1000) (Sample.healthy 20) 0)).
Proof.
  assert (Hget : map_get "A" (connections Sample.two_servers)
                 = Some (new_connection (Sample.config "A" stdio 1000)
                           (Sample.healthy 20) 0)) by reflexivity.
  split; [exact Hget|].
  destruct (C8_requests_ignore_the_configured_timeout Sample.two_servers "A" _
              Hget eq_refl) as [Htool _].
  exact (Htool (Sample.call_search "A") 5000 (Resolved Sample.hit) eq_refl).
Defined.

(** C1, as stated, fails: the handshake of server A is rejected, the
    connect returns an [error] status, and the per-server status query
    afterwards answers nothing rather than that [error] status. *)
Lemma C1_error_status_is_not_queryable :
  let config := Sample.config "A" stdio 1000 in
  let env := Sample.refusing 10 in
  let w' := after (connectToServer Sample.canParse config env) initial_world in
  transport_refusal Sample.canParse config = None /\
  settled (handshake env) = Rejected (Error "spawn npx ENOENT") /\
  ~ (exists st, getServerStatus w' "A" = Some st /\
                McpServerStatus.status st = error).
Proof.
  split; [reflexivity | split; [reflexivity|]].
  intros (st & Hst & _). vm_compute in Hst. discriminate.
Qed.

(** C1, amended: when the transport was built and the handshake is
    rejected or does not settle before the configured timeout,
    [connectToServer] returns a status with [status = error] and its error
    message set; nothing is stored for the server, so the per-server views
    of tools, resources and prompts are empty and the per-server status
    query answers nothing. *)
Theorem C1_failed_handshake_returns_error cp config env w :
  transport_refusal cp config = None ->
  (McpServerConfig.timeout config <= latency (handshake env) \/
   exists e, settled (handshake env) = Rejected e) ->
  let w' := after (connectToServer cp config env) w in
  let serverId := McpServerConfig.id config in
  (exists msg,
      outcome (connectToServer cp config env) w =
      Normal {| McpServerStatus.id := serverId;
                McpServerStatus.status := error;
                McpServerStatus.lastConnected := None;
                McpServerStatus.error := Some msg;
                McpServerStatus.capabilities := None |}) /\
  getServerStatus w' serverId = None /\
  getServerTools w' serverId = [] /\
  getServerResources w' serverId = [] /\
  getServerPrompts w' serverId = [].
Proof.
  intros Href Hfail w' serverId. subst w' serverId.
  assert (Hhs : exists e, handshake_failure config env = Some e).
  { unfold handshake_failure, outcome, await_race, await. simpl.
    destruct (latency (handshake env) <? McpServerConfig.timeout config)%nat
      eqn:Hlt; [|eexists; reflexivity].
    apply Nat.ltb_lt in Hlt. destruct Hfail as [Hle | [e He]]; [lia|].
    rewrite He. eexists; reflexivity. }
  destruct Hhs as [e Hhs].
  unfold outcome, after, getServerStatus, getServerTools, getServerResources,
    getServerPrompts.
  rewrite (connect_handshake_failed cp config env w e Href Hhs). simpl.
  rewrite map_get_delete_eq. repeat split; try reflexivity.
  eexists. reflexivity.
Qed.

Lemma C1_witness :
  let config := Sample.config "A" stdio 1000 in
  let env := Sample.healthy 2000 in
  let w' := after (connectToServer Sample.canParse config env) initial_world in
  McpServerConfig.timeout config <= latency (handshake env) /\
  (exists msg,
      outcome (connectToServer Sample.canParse config env) initial_world =
      Normal {| McpServerStatus.id := "A";
                McpServerStatus.status := error;
                McpServerStatus.lastConnected := None;
                McpServerStatus.error := Some msg;
                McpServerStatus.capabilities := None |}) /\
  getServerStatus w' "A" = None.
Proof.
  intros config env w'.
  assert (Hlate : McpServerConfig.timeout config <= latency (handshake env)).
  { vm_compute. lia. }
  split; [exact Hlate|].
  destruct (C1_failed_handshake_returns_error Sample.canParse config env
              initial_world eq_refl (or_introl Hlate)) as (Hst & Hnone & _).
  split; [exact Hst | exact Hnone].
Defined.

(** C6, as stated, fails: server A is connected, its capabilities are
    refreshed while the server refuses the new handshake, and afterwards
    the status query answers nothing at all: neither [connected] nor
    [error]. *)
Lemma C6_failed_refresh_leaves_no_status :
  let env := Sample.refusing 10 in
  let w' := after (refreshServerCapabilities Sample.canParse "A" env)
              Sample.one_server in
  reachable Sample.canParse Sample.one_server /\
  (exists st, getServerStatus Sample.one_server "A" = Some st /\
              McpServerStatus.status st = connected) /\
  ~ (exists st', getServerStatus w' "A" = Some st' /\
                 (McpServerStatus.status st' = connected \/
                  McpServerStatus.status st' = error)).
Proof.
  split; [|split].
  - unfold Sample.one_server. apply reach_call, reach_initial.
  - eexists. split; reflexivity.
  - intros (st' & Hst' & _). vm_compute in Hst'. discriminate.
Qed.

(** C6, amended: refreshing a server stored as [connected] reconnects it
    with its stored configuration and ends in one of two ways: the server
    is stored again with status [connected] and with the capability lists
    just listed, or (when the reconnect fails) no connection is stored for
    it, the status query answers nothing, and the [error] status is only
    the value the inner connect returned. A [connecting] status is never
    stored. *)
Theorem C6_refresh_ends_connected_or_absent cp w serverId st env :
  reachable cp w ->
  getServerStatus w serverId = Some st ->
  McpServerStatus.status st = connected ->
  let w' := after (refreshServerCapabilities cp serverId env) w in
  (exists c',
      map_get serverId (connections w') = Some c' /\
      McpServerStatus.status (McpClientConnection.status c') = connected /\
      getServerStatus w' serverId = Some (McpClientConnection.status c') /\
      getServerTools w' serverId = listed_tools serverId (list_tools env) /\
      getServerResources w' serverId
        = listed_resources serverId (list_resources env) /\
      getServerPrompts w' serverId = listed_prompts serverId (list_prompts env))
  \/
  (getServerStatus w' serverId = None /\
   map_get serverId (connections w') = None /\
   exists c e,
     map_get serverId (connections w) = Some c /\
     outcome (connectToServer cp (McpClientConnection.config c) env)
       (cleared w serverId c)
     = Normal (error_status (McpClientConnection.config c) e)).
Proof.
  intros Hreach Hst Hconn w'. subst w'.
  apply getServerStatus_Some in Hst. destruct Hst as (c & Hget & <-).
  pose proof (reachable_well_formed cp w Hreach) as Hwf.
  pose proof (entry_config_id (wf_entries Hwf _ _ (map_get_In _ _ _ _ Hget)))
    as Hid.
  apply is_connected_true in Hconn.
  unfold after. rewrite (refresh_run cp serverId env w c Hget Hconn). simpl.
  unfold after, outcome, getServerStatus, getServerTools, getServerResources,
    getServerPrompts.
  destruct (transport_refusal cp (McpClientConnection.config c)) as [e|] eqn:Href.
  - right.
    rewrite (connect_refused cp _ env (cleared w serverId c) e Href). simpl.
    rewrite Hid, map_get_delete_eq. repeat split.
    exists c, e. split; [exact Hget|].
    now rewrite (connect_refused cp _ env (cleared w serverId c) e Href).
  - destruct (handshake_failure (McpClientConnection.config c) env) as [e|] eqn:Hhs.
    + right.
      rewrite (connect_handshake_failed cp _ env (cleared w serverId c) e Href Hhs).
      simpl. rewrite Hid, map_get_delete_eq. repeat split.
      exists c, e. split; [exact Hget|].
      now rewrite (connect_handshake_failed cp _ env (cleared w serverId c) e
                     Href Hhs).
    + left.
      rewrite (connect_succeeded cp _ env (cleared w serverId c) Href Hhs).
      simpl. rewrite Hid, map_get_set_eq. eexists. split; [reflexivity|].
      simpl. rewrite Hid. repeat split; reflexivity.
Qed.

Lemma C6_witness :
  let env := Sample.no_prompts 20 in
  let w' := after (refreshServerCapabilities Sample.canParse "A" env)
              Sample.one_server in
  reachable Sample.canParse Sample.one_server /\
  ((exists c',
       map_get "A" (connections w') = Some c' /\
       McpServerStatus.status (McpClientConnection.status c') = connected /\
       getServerStatus w' "A" = Some (McpClientConnection.status c') /\
       getServerTools w' "A" = listed_tools "A" (list_tools env) /\
       getServerResources w' "A" = listed_resources "A" (list_resources env) /\
       getServerPrompts w' "A" = listed_prompts "A" (list_prompts env))
   \/
   (getServerStatus w' "A" = None /\
    map_get "A" (connections w') = None /\
    exists c e,
      map_get "A" (connections Sample.one_server) = Some c /\
      outcome (connectToServer Sample.canParse (McpClientConnection.config c) env)
        (cleared Sample.one_server "A" c)
      = Normal (error_status (McpClientConnection.config c) e))).
Proof.
  intros env w'.
  assert (Hreach : reachable Sample.canParse Sample.one_server).
  { unfold Sample.one_server. apply reach_call, reach_initial. }
  split; [exact Hreach|].
  exact (C6_refresh_ends_connected_or_absent Sample.canParse Sample.one_server
           "A" _ env Hreach eq_refl eq_refl).
Defined.

(** C2, evaluated where it fails: two connect attempts for server A whose
    handshake does not settle within the configured 1000 ms. Each returns
    the [Connection timeout] error status; each hands a new transport to
    [client.connect]; no [close] is ever called on a client or a transport;
    nothing is stored, so both transports stay open out of the service's
    reach. *)
Theorem C2_timed_out_connects_leave_transports_open :
  let config := Sample.config "A" stdio 1000 in
  let env := Sample.healthy 2000 in
  let w1 := after (connectToServer Sample.canParse config env) initial_world in
  let w2 := after (connectToServer Sample.canParse config env) w1 in
  outcome (connectToServer Sample.canParse config env) initial_world
    = Normal (error_status config (Error "Connection timeout")) /\
  outcome (connectToServer Sample.canParse config env) w1
    = Normal (error_status config (Error "Connection timeout")) /\
  trace w2 = [ ClientNew 0; TransportNew 1 stdio; TimerStart 1000;
               ClientConnect 0 1;
               ClientNew 2; TransportNew 3 stdio; TimerStart 1000;
               ClientConnect 2 3 ] /\
  connections w2 = [] /\
  leaked_transports w1 = [1] /\
  leaked_transports w2 = [1; 3].
Proof. repeat split. Qed.

(** ** Which configurations get a transport *)

Lemma transport_refusal_stdio cp config :
  McpServerConfig.type config = stdio ->
  truthy (McpServerConfig.command config) = true ->
  transport_refusal cp config = None.
Proof.
  intros Htype Hcmd. unfold transport_refusal, outcome, create_transport.
  rewrite Htype. unfold required, bind. rewrite Hcmd.
  destruct (McpServerConfig.command config); [reflexivity | discriminate].
Qed.

Lemma transport_refusal_sse cp config u :
  McpServerConfig.type config = sse ->
  McpServerConfig.url config = Some u ->
  truthy (Some u) = true ->
  cp u = true ->
  transport_refusal cp config = None.
Proof.
  intros Htype Hurl Htruthy Hparse.
  unfold transport_refusal, outcome, create_transport.
  rewrite Htype. unfold required, bind, new_URL. rewrite Hurl, Htruthy.
  simpl. now rewrite Hparse.
Qed.

Lemma transport_refusal_websocket cp config :
  McpServerConfig.type config = websocket ->
  transport_refusal cp config
  = Some (Error "Unsupported transport type: websocket").
Proof.
  intros Htype. unfold transport_refusal, outcome, create_transport.
  now rewrite Htype.
Qed.

(** C3, as stated, fails: a configuration whose declared kind is
    [websocket] and which carries a URL is answered with the error status
    [Unsupported transport type: websocket]; no transport is built and
    [client.connect] is never called. *)
Lemma C3_websocket_is_rejected_as_unsupported :
  let config := Sample.config "A" websocket 1000 in
  let env := Sample.healthy 20 in
  let w' := after (connectToServer Sample.canParse config env) initial_world in
  McpServerConfig.type config = websocket /\
  McpServerConfig.url config = Some "ws://localhost:9000/mcp" /\
  outcome (connectToServer Sample.canParse config env) initial_world
    = Normal (error_status config
                (Error "Unsupported transport type: websocket")) /\
  ~ (exists c t kind,
        In (TransportNew t kind) (trace w') \/ In (ClientConnect c t) (trace w')).
Proof.
  repeat split.
  intros (c & t & kind & [H | H]); vm_compute in H; intuition discriminate.
Qed.

(** C3, amended: a [stdio] configuration with a non-empty command, and an
    [sse] configuration with a non-empty URL that parses, get a transport
    of their own kind, which is handed to [client.connect] under the
    configured timer; a [websocket] configuration gets no transport and no
    handshake: the connect returns the error status
    [Unsupported transport type: websocket] and stores nothing. *)
Theorem C3_stdio_and_sse_reach_the_handshake cp config env w :
  let w' := after (connectToServer cp config env) w in
  let c := next_handle w in
  let before :=
    (trace w ++ disconnect_events w (McpServerConfig.id config) (closing env))%list
  in
  (((McpServerConfig.type config = stdio /\
     truthy (McpServerConfig.command config) = true) \/
    (McpServerConfig.type config = sse /\
     exists u, McpServerConfig.url config = Some u /\
               truthy (Some u) = true /\ cp u = true)) ->
   exists rest,
     trace w' =
     (before ++ [ ClientNew c;
                  TransportNew (S c) (McpServerConfig.type config);
                  TimerStart (McpServerConfig.timeout config);
                  ClientConnect c (S c) ] ++ rest)%list) /\
  (McpServerConfig.type config = websocket ->
   outcome (connectToServer cp config env) w
     = Normal (error_status config
                 (Error "Unsupported transport type: websocket")) /\
   trace w' = (before ++ [ClientNew c])%list /\
   getServerStatus w' (McpServerConfig.id config) = None).
Proof.
  intros w' c before. subst w' c before. unfold after, outcome. split.
  - intros Hkind.
    assert (Href : transport_refusal cp config = None).
    { destruct Hkind as [[Htype Hcmd] | [Htype (u & Hurl & Htruthy & Hparse)]].
      - now apply transport_refusal_stdio.
      - now apply transport_refusal_sse with (u := u). }
    destruct (handshake_failure config env) as [e|] eqn:Hhs.
    + rewrite (connect_handshake_failed cp config env w e Href Hhs). simpl.
      exists []. reflexivity.
    + rewrite (connect_succeeded cp config env w Href Hhs). simpl.
      exists (discovery_events (next_handle w)).
      unfold handshake_events. rewrite <- app_assoc. reflexivity.
  - intros Htype.
    rewrite (connect_refused cp config env w _
               (transport_refusal_websocket cp config Htype)).
    simpl. unfold getServerStatus. simpl. now rewrite map_get_delete_eq.
Qed.

Lemma C3_witness :
  let stdio_config := Sample.config "A" stdio 1000 in
  let ws_config := Sample.config "A" websocket 1000 in
  let env := Sample.healthy 20 in
  (McpServerConfig.type stdio_config = stdio /\
   truthy (McpServerConfig.command stdio_config) = true) /\
  (exists rest,
      trace (after (connectToServer Sample.canParse stdio_config env)
               initial_world)
      = ([] ++ [ ClientNew 0; TransportNew 1 stdio; TimerStart 1000;
                 ClientConnect 0 1 ] ++ rest)%list) /\
  McpServerConfig.type ws_config = websocket /\
  trace (after (connectToServer Sample.canParse ws_config env) initial_world)
    = ([] ++ [ClientNew 0])%list.
Proof.
  intros stdio_config ws_config env.
  assert (Hstdio : McpServerConfig.type stdio_config = stdio /\
                   truthy (McpServerConfig.command stdio_config) = true)
    by (split; reflexivity).
  split; [exact Hstdio|].
  split.
  - exact (proj1 (C3_stdio_and_sse_reach_the_handshake Sample.canParse
                    stdio_config env initial_world) (or_introl Hstdio)).
  - split; [reflexivity|].
    exact (proj1 (proj2 (proj2 (C3_stdio_and_sse_reach_the_handshake
                                  Sample.canParse ws_config env initial_world)
                           eq_refl))).
Defined.

(** C5: for a timeout that [setTimeout] takes as given (at most
    2147483647 ms), when the transport is built and the handshake resolves
    before the timer, [connectToServer] returns and stores a [connected]
    status whatever the three list requests answer. Each capability list
    is, when its own request resolves, the listed definitions in their
    order, each copied field by field and given the server's id (or empty
    when the result has no such list), and is empty when its request is
    rejected, independently of the other two; in particular a rejected
    [prompts/list] leaves the prompts empty and the tools and resources as
    listed. *)
Theorem C5_discovery_failures_are_swallowed cp config env w :
  transport_refusal cp config = None ->
  (Z.of_nat (McpServerConfig.timeout config) <= 2147483647)%Z ->
  latency (handshake env) < McpServerConfig.timeout config ->
  settled (handshake env) = Resolved tt ->
  let w' := after (connectToServer cp config env) w in
  let serverId := McpServerConfig.id config in
  (exists st,
      outcome (connectToServer cp config env) w = Normal st /\
      McpServerStatus.status st = connected /\
      McpServerStatus.error st = None /\
      getServerStatus w' serverId = Some st) /\
  (forall x, settled (list_tools env) = Resolved x ->
             getServerTools w' serverId
             = map (fun tool =>
                      {| McpTool.name := McpToolDefinition.name tool;
                         McpTool.title := McpToolDefinition.title tool;
                         McpTool.description :=
                           McpToolDefinition.description tool;
                         McpTool.inputSchema :=
                           McpToolDefinition.inputSchema tool;
                         McpTool.outputSchema :=
                           McpToolDefinition.outputSchema tool;
                         McpTool.annotations :=
                           McpToolDefinition.annotations tool;
                         McpTool.serverId := serverId |})
                 match McpListToolsResult.tools x with
                 | Some listed => listed
                 | None => []
                 end) /\
  (forall e, settled (list_tools env) = Rejected e ->
             getServerTools w' serverId = []) /\
  (forall x, settled (list_resources env) = Resolved x ->
             getServerResources w' serverId
             = map (fun resource =>
                      {| McpResource.uri := McpResourceDefinition.uri resource;
                         McpResource.name :=
                           McpResourceDefinition.name resource;
                         McpResource.title :=
                           McpResourceDefinition.title resource;
                         McpResource.description :=
                           McpResourceDefinition.description resource;
                         McpResource.mimeType :=
                           McpResourceDefinition.mimeType resource;
                         McpResource.serverId := serverId |})
                 match McpListResourcesResult.resources x with
                 | Some listed => listed
                 | None => []
                 end) /\
  (forall e, settled (list_resources env) = Rejected e ->
             getServerResources w' serverId = []) /\
  (forall x, settled (list_prompts env) = Resolved x ->
             getServerPrompts w' serverId
             = map (fun prompt =>
                      {| McpPrompt.name := McpPromptDefinition.name prompt;
                         McpPrompt.title := McpPromptDefinition.title prompt;
                         McpPrompt.description :=
                           McpPromptDefinition.description prompt;
                         McpPrompt.arguments :=
                           McpPromptDefinition.arguments prompt;
                         McpPrompt.serverId := serverId |})
                 match McpListPromptsResult.prompts x with
                 | Some listed => listed
                 | None => []
                 end) /\
  (forall e, settled (list_prompts env) = Rejected e ->
             getServerPrompts w' serverId = []).
Proof.
  intros Href Hrange Hlt Hok w' serverId. subst w' serverId.
  assert (Hhs : handshake_failure config env = None).
  { unfold handshake_failure, outcome, await_race, await. simpl.
    apply Nat.ltb_lt in Hlt. now rewrite Hlt, Hok. }
  unfold outcome, after, getServerStatus, getServerTools, getServerResources,
    getServerPrompts.
  rewrite (connect_succeeded cp config env w Href Hhs). simpl.
  rewrite map_get_set_eq. simpl.
  split; [eexists; repeat split; reflexivity|].
  unfold listed_tools, listed_resources, listed_prompts.
  repeat split; intros x Hx; now rewrite Hx.
Qed.

Lemma C5_witness :
  let config := Sample.config "A" stdio 1000 in
  let env := Sample.no_prompts 20 in
  let w' := after (connectToServer Sample.canParse config env) initial_world in
  (Z.of_nat (McpServerConfig.timeout config) <= 2147483647)%Z /\
  latency (handshake env) < McpServerConfig.timeout config /\
  settled (list_prompts env) = Rejected (Error "Method not found") /\
  (exists st,
      outcome (connectToServer Sample.canParse config env) initial_world
        = Normal st /\
      McpServerStatus.status st = connected /\
      McpServerStatus.error st = None /\
      getServerStatus w' "A" = Some st) /\
  getServerTools w' "A"
  = [ {| McpTool.name := "search";
         McpTool.title := None;
         McpTool.description := Some "full-text search";
         McpTool.inputSchema := None;
         McpTool.outputSchema := None;
         McpTool.annotations := None;
         McpTool.serverId := "A" |} ] /\
  getServerResources w' "A"
  = [ {| McpResource.uri := "file:///README.md";
         McpResource.name := "readme";
         McpResource.title := None;
         McpResource.description := None;
         McpResource.mimeType := Some "text/markdown";
         McpResource.serverId := "A" |} ] /\
  getServerPrompts w' "A" = [].
Proof.
  intros config env w'.
  assert (Hrange : (Z.of_nat (McpServerConfig.timeout config) <= 2147483647)%Z).
  { vm_compute. discriminate. }
  assert (Hlt : latency (handshake env) < McpServerConfig.timeout config).
  { vm_compute. lia. }
  split; [exact Hrange|]. split; [exact Hlt|]. split; [reflexivity|].
  destruct (C5_discovery_failures_are_swallowed Sample.canParse config env
              initial_world eq_refl Hrange Hlt eq_refl)
    as (Hst & Htools & _ & Hres & _ & _ & Hprompts).
  split; [exact Hst|]. split; [|split].
  - exact (Htools _ eq_refl).
  - exact (Hres _ eq_refl).
  - exact (Hprompts _ eq_refl).
Defined.

(** ** Aggregated views in reachable worlds *)

(** In a reachable world a descriptor found in an aggregated view names,
    through its [serverId], the stored connection it comes from. *)
Lemma aggregate_owner {A} (proj : McpClientConnection.t -> list A)
    (owner : A -> string) w x :
  well_formed w ->
  (forall serverId c y, entry_ok w serverId c -> In y (proj c) ->
                        owner y = serverId) ->
  In x (flat_map (fun c => if is_connected c then proj c else [])
          (map_values (connections w))) ->
  exists c,
    map_get (owner x) (connections w) = Some c /\
    McpServerStatus.status (McpClientConnection.status c) = connected /\
    In x (proj c).
Proof.
  intros Hwf Htag Hin. apply In_aggregate in Hin.
  destruct Hin as (serverId & c & Hin & Hconn & Hx).
  exists c. rewrite (Htag serverId c x (wf_entries Hwf _ _ Hin) Hx).
  split; [|auto]. apply In_map_get; [apply (wf_keys Hwf) | exact Hin].
Qed.

(** C7: each aggregated view holds exactly the descriptors of the stored
    connections whose status is [connected]; in a reachable world every
    descriptor of a view carries the id of the connected server that lists
    it; and when two servers A and B both list a tool of the same name,
    the aggregate holds both descriptors, which differ by their server id,
    and [callTool] addressed to A makes one [tools/call] request, on the
    client of A's connection, which is not the client of B's. *)
Theorem C7_aggregates_and_routing cp :
  (forall w t,
      In t (getAllTools w) <->
      exists serverId c,
        In (serverId, c) (connections w) /\
        McpServerStatus.status (McpClientConnection.status c) = connected /\
        In t (McpClientConnection.tools c)) /\
  (forall w r,
      In r (getAllResources w) <->
      exists serverId c,
        In (serverId, c) (connections w) /\
        McpServerStatus.status (McpClientConnection.status c) = connected /\
        In r (McpClientConnection.resources c)) /\
  (forall w p,
      In p (getAllPrompts w) <->
      exists serverId c,
        In (serverId, c) (connections w) /\
        McpServerStatus.status (McpClientConnection.status c) = connected /\
        In p (McpClientConnection.prompts c)) /\
  (forall w,
      reachable cp w ->
      (forall t, In t (getAllTools w) ->
                 exists c,
                   map_get (McpTool.serverId t) (connections w) = Some c /\
                   McpServerStatus.status (McpClientConnection.status c)
                     = connected /\
                   In t (McpClientConnection.tools c)) /\
      (forall r, In r (getAllResources w) ->
                 exists c,
                   map_get (McpResource.serverId r) (connections w) = Some c /\
                   McpServerStatus.status (McpClientConnection.status c)
                     = connected /\
                   In r (McpClientConnection.resources c)) /\
      (forall p, In p (getAllPrompts w) ->
                 exists c,
                   map_get (McpPrompt.serverId p) (connections w) = Some c /\
                   McpServerStatus.status (McpClientConnection.status c)
                     = connected /\
                   In p (McpClientConnection.prompts c)) /\
      (forall a b ca cb ta tb,
          a <> b ->
          map_get a (connections w) = Some ca ->
          map_get b (connections w) = Some cb ->
          In ta (McpClientConnection.tools ca) ->
          In tb (McpClientConnection.tools cb) ->
          McpTool.name ta = McpTool.name tb ->
          In ta (getAllTools w) /\
          In tb (getAllTools w) /\
          ta <> tb /\
          McpTool.serverId ta = a /\
          McpTool.serverId tb = b /\
          McpClientConnection.client ca <> McpClientConnection.client cb /\
          forall args answer,
            trace (after (callTool
                            {| McpToolCallRequest.serverId := a;
                               McpToolCallRequest.toolName := McpTool.name ta;
                               McpToolCallRequest.arguments := args |}
                            answer) w)
            = (trace w
               ++ [ClientRequest (McpClientConnection.client ca) "tools/call"
                     (ToolCallParams (McpTool.name ta) args)])%list)).
Proof.
  split; [|split; [|split]].
  - intros w t. apply (In_aggregate McpClientConnection.tools).
  - intros w r. apply (In_aggregate McpClientConnection.resources).
  - intros w p. apply (In_aggregate McpClientConnection.prompts).
  - intros w Hreach. pose proof (reachable_well_formed cp w Hreach) as Hwf.
    split; [|split; [|split]].
    + intros t. apply (aggregate_owner McpClientConnection.tools McpTool.serverId);
        [assumption|]. intros serverId c y Hok. apply (entry_tools Hok).
    + intros r.
      apply (aggregate_owner McpClientConnection.resources McpResource.serverId);
        [assumption|]. intros serverId c y Hok. apply (entry_resources Hok).
    + intros p.
      apply (aggregate_owner McpClientConnection.prompts McpPrompt.serverId);
        [assumption|]. intros serverId c y Hok. apply (entry_prompts Hok).
    + intros a b ca cb ta tb Hab Hga Hgb Hta Htb Hname.
      pose proof (map_get_In _ _ _ _ Hga) as Hina.
      pose proof (map_get_In _ _ _ _ Hgb) as Hinb.
      pose proof (wf_entries Hwf _ _ Hina) as Hoka.
      pose proof (wf_entries Hwf _ _ Hinb) as Hokb.
      pose proof (entry_tools Hoka ta Hta) as Hida.
      pose proof (entry_tools Hokb tb Htb) as Hidb.
      split; [|split; [|split; [|split; [|split; [|split]]]]].
      * apply (In_aggregate McpClientConnection.tools).
        exists a, ca. pose proof (entry_connected Hoka). auto.
      * apply (In_aggregate McpClientConnection.tools).
        exists b, cb. pose proof (entry_connected Hokb). auto.
      * intros Heq. apply Hab. rewrite <- Hida, <- Hidb. now rewrite Heq.
      * exact Hida.
      * exact Hidb.
      * intros Heq. apply Hab. exact (wf_clients Hwf _ _ _ _ Hina Hinb Heq).
      * intros args answer. unfold after.
        rewrite (callTool_connected
                   {| McpToolCallRequest.serverId := a;
                      McpToolCallRequest.toolName := McpTool.name ta;
                      McpToolCallRequest.arguments := args |}
                   answer w ca Hga);
          [reflexivity | apply is_connected_true, (entry_connected Hoka)].
Qed.

Lemma C7_witness :
  let ta := tag_tool "A" Sample.search in
  let tb := tag_tool "B" Sample.search in
  reachable Sample.canParse Sample.two_servers /\
  "A" <> "B" /\
  In ta (getAllTools Sample.two_servers) /\
  In tb (getAllTools Sample.two_servers) /\
  ta <> tb /\
  trace (after (callTool (Sample.call_search "A") (Sample.ok 5 Sample.hit))
           Sample.two_servers)
  = (trace Sample.two_servers
     ++ [ClientRequest 0 "tools/call" (ToolCallParams "search" (Some "{}"))])%list.
Proof.
  intros ta tb.
  assert (Hreach : reachable Sample.canParse Sample.two_servers).
  { unfold Sample.two_servers. apply reach_call, reach_call, reach_initial. }
  assert (Hab : "A" <> "B") by discriminate.
  split; [exact Hreach|]. split; [exact Hab|].
  destruct (C7_aggregates_and_routing Sample.canParse) as (_ & _ & _ & Hw).
  destruct (Hw Sample.two_servers Hreach) as (_ & _ & _ & Hscenario).
  destruct (Hscenario "A" "B"
              (new_connection (Sample.config "A" stdio 1000) (Sample.healthy 20) 0)
              (new_connection (Sample.config "B" sse 1000) (Sample.healthy 20) 2)
              ta tb Hab eq_refl eq_refl (or_introl eq_refl) (or_introl eq_refl)
              eq_refl)
    as (Hina & Hinb & Hne & _ & _ & _ & Hcall).
  split; [exact Hina|]. split; [exact Hinb|]. split; [exact Hne|].
  exact (Hcall (Some "{}") (Sample.ok 5 Sample.hit)).
Defined.

(** * Further facts about the service *)

(** ** More on the [Map] operations *)

Lemma map_set_absent {V} k (v : V) m :
  map_get k m = None -> map_set k v m = (m ++ [(k, v)])%list.
Proof.
  induction m as [|[k' v'] rest IH]; simpl; [reflexivity|].
  destruct (k =? k'); [discriminate | intros H; now rewrite IH].
Qed.

Lemma map_delete_twice {V} k (m : JsMap V) :
  map_delete k (map_delete k m) = map_delete k m.
Proof. apply map_delete_absent, map_get_delete_eq. Qed.

Lemma map_get_keys {V} (m : JsMap V) :
  NoDup (map_keys m) ->
  map (fun k => map_get k m) (map_keys m) = map Some (map_values m).
Proof.
  unfold map_keys, map_values.
  induction m as [|[k v] rest IH]; simpl; [reflexivity|].
  intros Hnd. inversion Hnd as [|? ? Hnotin Hnd']; subst.
  rewrite String.eqb_refl. f_equal.
  rewrite <- (IH Hnd'). apply map_ext_in. intros k' Hin.
  destruct (k' =? k) eqn:E; [|reflexivity].
  apply String.eqb_eq in E. subst k'. contradiction.
Qed.

Lemma getServerStatus_None w serverId :
  getServerStatus w serverId = None <-> map_get serverId (connections w) = None.
Proof.
  unfold getServerStatus.
  destruct (map_get serverId (connections w)); split; congruence.
Qed.

(** ** [disconnectFromServer] *)

Lemma disconnect_absent_run serverId r w :
  map_get serverId (connections w) = None ->
  disconnectFromServer serverId r w = (Normal tt, w).
Proof.
  intros Hnone. rewrite disconnectFromServer_run. unfold disconnect_events.
  rewrite Hnone, app_nil_r, (map_delete_absent _ _ _ Hnone). now destruct w.
Qed.

(** X1: disconnecting a server id that has no stored connection changes
    nothing: no SDK call is made, the map is left as it was, and the
    method returns normally. *)
Theorem X1_disconnect_absent_is_noop serverId r w :
  getServerStatus w serverId = None ->
  disconnectFromServer serverId r w = (Normal tt, w).
Proof.
  intros Hnone. apply getServerStatus_None in Hnone.
  now apply disconnect_absent_run.
Qed.

Lemma X1_witness :
  getServerStatus Sample.one_server "B" = None /\
  disconnectFromServer "B" Sample.closes_ok Sample.one_server
    = (Normal tt, Sample.one_server).
Proof.
  assert (H : getServerStatus Sample.one_server "B" = None) by reflexivity.
  split; [exact H|].
  exact (X1_disconnect_absent_is_noop "B" Sample.closes_ok Sample.one_server H).
Defined.

(** X2: [disconnectFromServer] never throws, whatever the two [close]
    calls answer; afterwards nothing is stored for the server id, and the
    connection of every other server id is the one stored before. *)
Theorem X2_disconnect_removes_only_its_server serverId other r w :
  other <> serverId ->
  let w' := after (disconnectFromServer serverId r) w in
  outcome (disconnectFromServer serverId r) w = Normal tt /\
  getServerStatus w' serverId = None /\
  map_get other (connections w') = map_get other (connections w) /\
  getServerStatus w' other = getServerStatus w other.
Proof.
  intros Hne w'. subst w'. unfold outcome, after, getServerStatus.
  rewrite disconnectFromServer_run. simpl.
  rewrite map_get_delete_eq, map_get_delete_ne by congruence. auto.
Qed.

Lemma X2_witness :
  let r := {| client_closes := Sample.fails 1 "already closed";
              transport_closes := Sample.ok 1 tt |} in
  let w' := after (disconnectFromServer "A" r) Sample.two_servers in
  "B" <> "A" /\
  outcome (disconnectFromServer "A" r) Sample.two_servers = Normal tt /\
  getServerStatus w' "A" = None /\
  map_get "B" (connections w') = map_get "B" (connections Sample.two_servers) /\
  getServerStatus w' "B" = getServerStatus Sample.two_servers "B".
Proof.
  intros r w'.
  assert (Hne : "B" <> "A") by discriminate.
  split; [exact Hne|].
  exact (X2_disconnect_removes_only_its_server "A" "B" r Sample.two_servers Hne).
Defined.

(** X3: for a stored connection, [disconnectFromServer] calls
    [client.close()] first and [transport.close()] only if the former
    resolved; when [client.close()] rejects, the transport is never closed,
    yet the entry is removed all the same. A rejection of
    [transport.close()] changes nothing. *)
Theorem X3_disconnect_close_sequence serverId r w c :
  map_get serverId (connections w) = Some c ->
  let w' := after (disconnectFromServer serverId r) w in
  trace w' =
    (trace w
     ++ match settled (client_closes r) with
        | Resolved _ =>
            [ ClientClose (McpClientConnection.client c);
              TransportClose (McpClientConnection.transport c) ]
        | Rejected _ => [ ClientClose (McpClientConnection.client c) ]
        end)%list /\
  map_get serverId (connections w') = None.
Proof.
  intros Hget w'. subst w'. unfold after.
  rewrite disconnectFromServer_run. simpl. unfold disconnect_events.
  rewrite Hget, map_get_delete_eq.
  destruct (settled (client_closes r)); auto.
Qed.

Lemma X3_witness :
  let r := {| client_closes := Sample.fails 1 "already closed";
              transport_closes := Sample.ok 1 tt |} in
  let w' := after (disconnectFromServer "A" r) Sample.one_server in
  map_get "A" (connections Sample.one_server)
    = Some (new_connection (Sample.config "A" stdio 1000) (Sample.healthy 20) 0) /\
  trace w' = (trace Sample.one_server ++ [ClientClose 0])%list /\
  map_get "A" (connections w') = None.
Proof.
  intros r w'.
  assert (Hget : map_get "A" (connections Sample.one_server)
                 = Some (new_connection (Sample.config "A" stdio 1000)
                           (Sample.healthy 20) 0)) by reflexivity.
  split; [exact Hget|].
  exact (X3_disconnect_close_sequence "A" r Sample.one_server _ Hget).
Defined.

(** X4: disconnecting the same server id a second time, whatever the SDK
    answered the first time, is a no-op. *)
Theorem X4_disconnect_twice_is_disconnect_once serverId r1 r2 w :
  disconnectFromServer serverId r2 (after (disconnectFromServer serverId r1) w)
  = (Normal tt, after (disconnectFromServer serverId r1) w).
Proof.
  apply disconnect_absent_run. unfold after.
  rewrite disconnectFromServer_run. simpl. apply map_get_delete_eq.
Qed.

(** ** [connectToServer] *)

Lemma map_delete_set {V} k (v : V) m :
  map_delete k (map_set k v m) = map_delete k m.
Proof.
  induction m as [|[k' v'] rest IH]; simpl.
  - now rewrite String.eqb_refl.
  - destruct (k =? k') eqn:E; simpl.
    + now rewrite String.eqb_refl.
    + now rewrite E, IH.
Qed.

Lemma handshake_in_time config env :
  latency (handshake env) < McpServerConfig.timeout config ->
  settled (handshake env) = Resolved tt ->
  handshake_failure config env = None.
Proof.
  intros Hlt Hok. unfold handshake_failure, outcome, await_race, await. simpl.
  apply Nat.ltb_lt in Hlt. now rewrite Hlt, Hok.
Qed.

Lemma handshake_late config env :
  McpServerConfig.timeout config <= latency (handshake env) ->
  handshake_failure config env = Some (Error "Connection timeout").
Proof.
  intros Hle. unfold handshake_failure, outcome, await_race. simpl.
  apply Nat.ltb_ge in Hle. now rewrite Hle.
Qed.

Lemma handshake_rejected config env e :
  latency (handshake env) < McpServerConfig.timeout config ->
  settled (handshake env) = Rejected e ->
  handshake_failure config env = Some e.
Proof.
  intros Hlt Hrej. unfold handshake_failure, outcome, await_race, await. simpl.
  apply Nat.ltb_lt in Hlt. now rewrite Hlt, Hrej.
Qed.

(** The map after a connect, in terms of the map before. *)
Lemma connect_connections cp config env w :
  let serverId := McpServerConfig.id config in
  connections (after (connectToServer cp config env) w)
  = map_delete serverId (connections w)
  \/ connections (after (connectToServer cp config env) w)
     = map_set serverId (new_connection config env (next_handle w))
         (map_delete serverId (connections w)).
Proof.
  unfold after.
  destruct (transport_refusal cp config) as [e|] eqn:Href.
  - rewrite (connect_refused cp config env w e Href). now left.
  - destruct (handshake_failure config env) as [e|] eqn:Hhs.
    + rewrite (connect_handshake_failed cp config env w e Href Hhs). now left.
    + rewrite (connect_succeeded cp config env w Href Hhs). now right.
Qed.

(** X5: whatever its outcome, [connectToServer] leaves the stored
    connection of every other server id untouched. *)
Theorem X5_connect_leaves_other_servers_alone cp config env w other :
  other <> McpServerConfig.id config ->
  let w' := after (connectToServer cp config env) w in
  map_get other (connections w') = map_get other (connections w) /\
  getServerStatus w' other = getServerStatus w other /\
  getServerTools w' other = getServerTools w other /\
  getServerResources w' other = getServerResources w other /\
  getServerPrompts w' other = getServerPrompts w other.
Proof.
  intros Hne w'. subst w'.
  assert (Hget : map_get other (connections (after (connectToServer cp config env) w))
                 = map_get other (connections w)).
  { destruct (connect_connections cp config env w) as [-> | ->].
    - apply map_get_delete_ne. congruence.
    - rewrite map_get_set_ne by congruence. apply map_get_delete_ne. congruence. }
  unfold getServerStatus, getServerTools, getServerResources, getServerPrompts.
  rewrite Hget. auto.
Qed.

Lemma X5_witness :
  let config := Sample.config "A" stdio 1000 in
  let w' := after (connectToServer Sample.canParse config (Sample.refusing 10))
              Sample.two_servers in
  "B" <> McpServerConfig.id config /\
  map_get "B" (connections w') = map_get "B" (connections Sample.two_servers) /\
  getServerTools w' "B" = getServerTools Sample.two_servers "B".
Proof.
  intros config w'.
  assert (Hne : "B" <> McpServerConfig.id config) by discriminate.
  split; [exact Hne|].
  destruct (X5_connect_leaves_other_servers_alone Sample.canParse config
              (Sample.refusing 10) Sample.two_servers "B" Hne)
    as (Hget & _ & Htools & _).
  split; [exact Hget | exact Htools].
Defined.

(** X6: [connectToServer] begins by doing exactly what
    [disconnectFromServer] does for its server id, then constructs the new
    client; from there on, whatever the outcome, it makes no [close] call:
    neither on the client nor on the transport it has just created. *)
Theorem X6_connect_tears_down_first_and_never_closes cp config env w :
  exists rest,
    trace (after (connectToServer cp config env) w)
    = (trace (after (disconnectFromServer (McpServerConfig.id config)
                       (closing env)) w)
       ++ ClientNew (next_handle w) :: rest)%list /\
    forallb (fun ev => negb (is_close ev)) rest = true.
Proof.
  unfold after. rewrite disconnectFromServer_run. simpl.
  destruct (transport_refusal cp config) as [e|] eqn:Href.
  - rewrite (connect_refused cp config env w e Href). simpl.
    exists []. split; reflexivity.
  - destruct (handshake_failure config env) as [e|] eqn:Hhs.
    + rewrite (connect_handshake_failed cp config env w e Href Hhs). simpl.
      eexists. split; reflexivity.
    + rewrite (connect_succeeded cp config env w Href Hhs). simpl.
      unfold handshake_events, discovery_events.
      rewrite <- app_assoc. simpl.
      eexists. split; reflexivity.
Qed.

(** X7: for a timeout that [setTimeout] takes as given (from 1 to
    2147483647 ms) and a transport that was built, the error status of a
    failed handshake carries [Connection timeout] if the handshake had not
    settled when the timer fired (whatever it would have settled with), and
    the message of the thrown value, or [Unknown connection error] for a
    thrown value that has none, if it was rejected before that. *)
Theorem X7_failed_handshake_error_message cp config env w :
  transport_refusal cp config = None ->
  1 <= McpServerConfig.timeout config ->
  (Z.of_nat (McpServerConfig.timeout config) <= 2147483647)%Z ->
  (McpServerConfig.timeout config < latency (handshake env) ->
   outcome (connectToServer cp config env) w
   = Normal {| McpServerStatus.id := McpServerConfig.id config;
               McpServerStatus.status := error;
               McpServerStatus.lastConnected := None;
               McpServerStatus.error := Some "Connection timeout";
               McpServerStatus.capabilities := None |}) /\
  (forall e,
      latency (handshake env) < McpServerConfig.timeout config ->
      settled (handshake env) = Rejected e ->
      outcome (connectToServer cp config env) w
      = Normal {| McpServerStatus.id := McpServerConfig.id config;
                  McpServerStatus.status := error;
                  McpServerStatus.lastConnected := None;
                  McpServerStatus.error :=
                    Some (getErrorMessage e "Unknown connection error");
                  McpServerStatus.capabilities := None |}) /\
  (forall msg,
      latency (handshake env) < McpServerConfig.timeout config ->
      settled (handshake env) = Rejected (Error msg) ->
      exists st,
        outcome (connectToServer cp config env) w = Normal st /\
        McpServerStatus.status st = error /\
        McpServerStatus.error st = Some msg).
Proof.
  intros Href Hpos Hrange. unfold outcome. split; [|split].
  - intros Hlate.
    assert (Hle : McpServerConfig.timeout config <= latency (handshake env))
      by lia.
    now rewrite (connect_handshake_failed cp config env w _ Href
                   (handshake_late config env Hle)).
  - intros e Hlt Hrej.
    now rewrite (connect_handshake_failed cp config env w _ Href
                   (handshake_rejected config env e Hlt Hrej)).
  - intros msg Hlt Hrej.
    rewrite (connect_handshake_failed cp config env w _ Href
               (handshake_rejected config env _ Hlt Hrej)).
    eexists. repeat split.
Qed.

Lemma X7_witness :
  let config := Sample.config "A" stdio 1000 in
  let late := Sample.refusing 1500 in
  let quick :=
    {| closing := Sample.closes_ok;
       handshake := mkReply 10 (Rejected (mkThrown None None));
       list_tools := list_tools (Sample.healthy 20);
       list_resources := list_resources (Sample.healthy 20);
       list_prompts := list_prompts (Sample.healthy 20);
       now := now (Sample.healthy 20) |} in
  transport_refusal Sample.canParse config = None /\
  1 <= McpServerConfig.timeout config /\
  (Z.of_nat (McpServerConfig.timeout config) <= 2147483647)%Z /\
  McpServerConfig.timeout config < latency (handshake late) /\
  outcome (connectToServer Sample.canParse config late) initial_world
    = Normal {| McpServerStatus.id := "A";
                McpServerStatus.status := error;
                McpServerStatus.lastConnected := None;
                McpServerStatus.error := Some "Connection timeout";
                McpServerStatus.capabilities := None |} /\
  outcome (connectToServer Sample.canParse config quick) initial_world
    = Normal {| McpServerStatus.id := "A";
                McpServerStatus.status := error;
                McpServerStatus.lastConnected := None;
                McpServerStatus.error := Some "Unknown connection error";
                McpServerStatus.capabilities := None |}.
Proof.
  intros config late quick.
  assert (Href : transport_refusal Sample.canParse config = None) by reflexivity.
  assert (Hpos : 1 <= McpServerConfig.timeout config).
  { vm_compute. lia. }
  assert (Hrange : (Z.of_nat (McpServerConfig.timeout config) <= 2147483647)%Z).
  { vm_compute. discriminate. }
  assert (Hlate : McpServerConfig.timeout config < latency (handshake late)).
  { vm_compute. lia. }
  assert (Hlt : latency (handshake quick) < McpServerConfig.timeout config).
  { vm_compute. lia. }
  split; [exact Href|]. split; [exact Hpos|]. split; [exact Hrange|].
  split; [exact Hlate|]. split.
  - exact (proj1 (X7_failed_handshake_error_message Sample.canParse config late
                    initial_world Href Hpos Hrange) Hlate).
  - exact (proj1 (proj2 (X7_failed_handshake_error_message Sample.canParse
                           config quick initial_world Href Hpos Hrange))
             _ Hlt eq_refl).
Defined.

Lemma transport_refusal_no_command cp config :
  McpServerConfig.type config = stdio ->
  truthy (McpServerConfig.command config) = false ->
  transport_refusal cp config
  = Some (Error "Command is required for stdio transport").
Proof.
  intros Htype Hcmd. unfold transport_refusal, outcome, create_transport.
  rewrite Htype. unfold required, bind. now rewrite Hcmd.
Qed.

Lemma transport_refusal_no_url cp config :
  McpServerConfig.type config = sse ->
  truthy (McpServerConfig.url config) = false ->
  transport_refusal cp config
  = Some (Error "URL is required for SSE transport").
Proof.
  intros Htype Hurl. unfold transport_refusal, outcome, create_transport.
  rewrite Htype. unfold required, bind. now rewrite Hurl.
Qed.

(** X8: a [stdio] configuration whose command is missing or empty, and an
    [sse] configuration whose URL is missing or empty, are answered with
    an error status naming the missing parameter. By then the previous
    connection of that server id, if any, has been torn down and a client
    object made; no transport is built, no handshake attempted, and nothing
    is stored. *)
Theorem X8_missing_transport_parameter cp config env w msg :
  (McpServerConfig.type config = stdio /\
   truthy (McpServerConfig.command config) = false /\
   msg = "Command is required for stdio transport") \/
  (McpServerConfig.type config = sse /\
   truthy (McpServerConfig.url config) = false /\
   msg = "URL is required for SSE transport") ->
  let w' := after (connectToServer cp config env) w in
  outcome (connectToServer cp config env) w
  = Normal {| McpServerStatus.id := McpServerConfig.id config;
              McpServerStatus.status := error;
              McpServerStatus.lastConnected := None;
              McpServerStatus.error := Some msg;
              McpServerStatus.capabilities := None |} /\
  trace w'
  = (trace (after (disconnectFromServer (McpServerConfig.id config)
                     (closing env)) w)
     ++ [ClientNew (next_handle w)])%list /\
  getServerStatus w' (McpServerConfig.id config) = None.
Proof.
  intros Hbad w'. subst w'.
  assert (Href : transport_refusal cp config = Some (Error msg)).
  { destruct Hbad as [(Htype & Hcmd & ->) | (Htype & Hurl & ->)].
    - now apply transport_refusal_no_command.
    - now apply transport_refusal_no_url. }
  unfold outcome, after, getServerStatus.
  rewrite (connect_refused cp config env w _ Href), disconnectFromServer_run.
  simpl. rewrite map_get_delete_eq. auto.
Qed.

Lemma X8_witness :
  let config :=
    {| McpServerConfig.id := "A";
       McpServerConfig.name := "A";
       McpServerConfig.description := None;
       McpServerConfig.enabled := true;
       McpServerConfig.type := stdio;
       McpServerConfig.command := Some "";
       McpServerConfig.args := None;
       McpServerConfig.url := None;
       McpServerConfig.env := None;
       McpServerConfig.timeout := 1000;
       McpServerConfig.maxRetries := 3 |} in
  let w' := after (connectToServer Sample.canParse config (Sample.healthy 20))
              Sample.one_server in
  truthy (McpServerConfig.command config) = false /\
  outcome (connectToServer Sample.canParse config (Sample.healthy 20))
    Sample.one_server
  = Normal {| McpServerStatus.id := "A";
              McpServerStatus.status := error;
              McpServerStatus.lastConnected := None;
              McpServerStatus.error :=
                Some "Command is required for stdio transport";
              McpServerStatus.capabilities := None |} /\
  getServerStatus w' "A" = None.
Proof.
  intros config w'.
  assert (Hcmd : truthy (McpServerConfig.command config) = false) by reflexivity.
  split; [exact Hcmd|].
  destruct (X8_missing_transport_parameter Sample.canParse config
              (Sample.healthy 20) Sample.one_server
              "Command is required for stdio transport"
              (or_introl (conj eq_refl (conj Hcmd eq_refl))))
    as (Hout & _ & Hnone).
  split; [exact Hout | exact Hnone].
Defined.

Lemma aggregate_append {A} (proj : McpClientConnection.t -> list A)
    (m : JsMap McpClientConnection.t) (k : string) c :
  flat_map (fun c => if is_connected c then proj c else [])
    (map_values (m ++ [(k, c)])%list)
  = (flat_map (fun c => if is_connected c then proj c else []) (map_values m)
     ++ (if is_connected c then proj c else []))%list.
Proof.
  unfold map_values. rewrite map_app, flat_map_app. simpl.
  now rewrite app_nil_r.
Qed.

(** X9: a successful connect puts its server last in the order of the
    aggregated views: each view is what it would be once the server is
    disconnected, followed by the server's newly listed descriptors. *)
Theorem X9_connect_appends_to_the_aggregates cp config env w :
  transport_refusal cp config = None ->
  latency (handshake env) < McpServerConfig.timeout config ->
  settled (handshake env) = Resolved tt ->
  let serverId := McpServerConfig.id config in
  let w0 := after (disconnectFromServer serverId (closing env)) w in
  let w' := after (connectToServer cp config env) w in
  getAllTools w' = (getAllTools w0 ++ getServerTools w' serverId)%list /\
  getAllResources w'
    = (getAllResources w0 ++ getServerResources w' serverId)%list /\
  getAllPrompts w' = (getAllPrompts w0 ++ getServerPrompts w' serverId)%list.
Proof.
  intros Href Hlt Hok serverId w0 w'. subst serverId w0 w'.
  pose proof (handshake_in_time config env Hlt Hok) as Hhs.
  unfold after, getAllTools, getAllResources, getAllPrompts, getServerTools,
    getServerResources, getServerPrompts.
  rewrite (connect_succeeded cp config env w Href Hhs), disconnectFromServer_run.
  simpl. rewrite map_get_set_eq.
  rewrite (map_set_absent _ _ _ (map_get_delete_eq _ _ _)).
  rewrite !aggregate_append. auto.
Qed.

Lemma X9_witness :
  let config := Sample.config "A" stdio 1000 in
  let env := Sample.healthy 20 in
  let w' := after (connectToServer Sample.canParse config env)
              Sample.two_servers in
  latency (handshake env) < McpServerConfig.timeout config /\
  getAllTools w'
  = (getAllTools (after (disconnectFromServer "A" (closing env))
                    Sample.two_servers)
     ++ getServerTools w' "A")%list /\
  map McpTool.serverId (getAllTools Sample.two_servers) = ["A"; "B"] /\
  map McpTool.serverId (getAllTools w') = ["B"; "A"].
Proof.
  intros config env w'.
  assert (Hlt : latency (handshake env) < McpServerConfig.timeout config).
  { vm_compute. lia. }
  split; [exact Hlt|].
  split; [|split; reflexivity].
  exact (proj1 (X9_connect_appends_to_the_aggregates Sample.canParse config env
                  Sample.two_servers eq_refl Hlt eq_refl)).
Defined.

(** X10: for a timeout that [setTimeout] takes as given (at most
    2147483647 ms), disconnecting right after a connect whose handshake
    resolved before the timer releases exactly what that connect acquired:
    [close] is called on the client and then on the transport the connect
    created, and the map is back to what it was without that server id. *)
Theorem X10_disconnect_releases_what_connect_acquired cp config env r w :
  transport_refusal cp config = None ->
  (Z.of_nat (McpServerConfig.timeout config) <= 2147483647)%Z ->
  latency (handshake env) < McpServerConfig.timeout config ->
  settled (handshake env) = Resolved tt ->
  settled (client_closes r) = Resolved tt ->
  let serverId := McpServerConfig.id config in
  let w1 := after (connectToServer cp config env) w in
  let w2 := after (disconnectFromServer serverId r) w1 in
  getServerStatus w1 serverId
  = Some (connected_status config (now env)
            (getServerTools w1 serverId) (getServerResources w1 serverId)
            (getServerPrompts w1 serverId)) /\
  trace w2
  = (trace w1 ++ [ ClientClose (next_handle w);
                   TransportClose (S (next_handle w)) ])%list /\
  connections w2
  = connections (after (disconnectFromServer serverId (closing env)) w).
Proof.
  intros Href Hrange Hlt Hok Hclose serverId w1 w2. subst serverId w1 w2.
  pose proof (handshake_in_time config env Hlt Hok) as Hhs.
  unfold after, getServerStatus, getServerTools, getServerResources,
    getServerPrompts.
  rewrite (connect_succeeded cp config env w Href Hhs).
  rewrite !disconnectFromServer_run. cbn [fst snd trace connections next_handle].
  split; [|split].
  - rewrite map_get_set_eq. reflexivity.
  - f_equal. unfold disconnect_events. cbn [connections].
    now rewrite map_get_set_eq, Hclose.
  - now rewrite map_delete_set, map_delete_twice.
Qed.

Lemma X10_witness :
  let config := Sample.config "A" stdio 1000 in
  let env := Sample.healthy 20 in
  let w1 := after (connectToServer Sample.canParse config env) initial_world in
  let w2 := after (disconnectFromServer "A" Sample.closes_ok) w1 in
  (Z.of_nat (McpServerConfig.timeout config) <= 2147483647)%Z /\
  latency (handshake env) < McpServerConfig.timeout config /\
  trace w2 = (trace w1 ++ [ClientClose 0; TransportClose 1])%list /\
  connections w2 = [].
Proof.
  intros config env w1 w2.
  assert (Hrange : (Z.of_nat (McpServerConfig.timeout config) <= 2147483647)%Z).
  { vm_compute. discriminate. }
  assert (Hlt : latency (handshake env) < McpServerConfig.timeout config).
  { vm_compute. lia. }
  split; [exact Hrange|]. split; [exact Hlt|].
  exact (proj2 (X10_disconnect_releases_what_connect_acquired Sample.canParse
                  config env Sample.closes_ok initial_world eq_refl Hrange Hlt
                  eq_refl eq_refl)).
Defined.

(** ** Where stored connections come from *)

Lemma disconnect_each_run r keys :
  forall w, exists evs,
    disconnect_each keys r w =
    (Normal tt,
     {| connections :=
          fold_left (fun m k => map_delete k m) keys (connections w);
        next_handle := next_handle w;
        trace := trace w ++ evs |}).
Proof.
  induction keys as [|k rest IH]; intros w.
  - exists []. simpl. rewrite app_nil_r. now destruct w.
  - simpl. unfold bind, try_catch. rewrite disconnectFromServer_run.
    destruct (IH {| connections := map_delete k (connections w);
                    next_handle := next_handle w;
                    trace := trace w ++ disconnect_events w k (r k) |})
      as [evs ->].
    simpl. exists (disconnect_events w k (r k) ++ evs)%list.
    now rewrite app_assoc.
Qed.

Lemma In_fold_delete {V} keys :
  forall (m : JsMap V) k v,
    In (k, v) (fold_left (fun m k => map_delete k m) keys m) ->
    In (k, v) m /\ ~ In k keys.
Proof.
  induction keys as [|k0 rest IH]; intros m k v Hin; simpl in *.
  - auto.
  - apply IH in Hin. destruct Hin as [Hin Hnot].
    apply In_map_delete in Hin. destruct Hin as [Hin Hne].
    split; [assumption|]. intros [-> | H]; auto.
Qed.

(** An entry found after a run was there before, or is the connection a
    successful connect has just built. *)
Lemma run_entries cp call w k c :
  well_formed w ->
  In (k, c) (connections (run cp call w)) ->
  In (k, c) (connections w) \/
  exists config env, c = new_connection config env (next_handle w).
Proof.
  intros Hwf. destruct call; simpl.
  - destruct (connect_connections cp config env w) as [-> | ->]; intros Hin.
    + left. now apply In_map_delete in Hin.
    + apply In_map_set in Hin. destruct Hin as [[_ ->] | Hin].
      * right. eauto.
      * left. now apply In_map_delete in Hin.
  - unfold after. rewrite disconnectFromServer_run. simpl. intros Hin.
    left. now apply In_map_delete in Hin.
  - rewrite callTool_connections. auto.
  - rewrite readResource_connections. auto.
  - unfold after.
    destruct (map_get serverId (connections w)) as [c0|] eqn:Hget;
      [destruct (is_connected c0) eqn:Hconn|].
    + rewrite (refresh_run cp serverId env w c0 Hget Hconn). simpl.
      pose proof (entry_config_id
                    (wf_entries Hwf _ _ (map_get_In _ _ _ _ Hget))) as Hid.
      destruct (connect_connections cp (McpClientConnection.config c0) env
                  (cleared w serverId c0)) as [-> | ->];
        simpl; rewrite Hid, map_delete_set; intros Hin.
      * left. now apply In_map_delete in Hin.
      * apply In_map_set in Hin. destruct Hin as [[_ ->] | Hin].
        -- right. eauto.
        -- left. now apply In_map_delete in Hin.
    + rewrite refresh_skipped; [auto | intros c' Hc'; congruence].
    + rewrite refresh_skipped; [auto | intros c' Hc'; congruence].
  - unfold disconnectAll, after.
    destruct (disconnect_each_run r (map_keys (connections w)) w) as [evs ->].
    simpl. intros Hin. left. now apply In_fold_delete in Hin.
Qed.

Lemma as_built_run cp call w :
  well_formed w -> as_built w -> as_built (run cp call w).
Proof.
  intros Hwf Hbuilt k c Hin.
  destruct (run_entries cp call w k c Hwf Hin) as [Hold | (config & env & ->)].
  - eapply Hbuilt; eassumption.
  - exists env. reflexivity.
Qed.

Lemma reachable_as_built cp w : reachable cp w -> as_built w.
Proof.
  induction 1 as [|w call Hreach IH].
  - intros k c [].
  - apply as_built_run; [now apply (reachable_well_formed cp) | assumption].
Qed.

(** X11: in every world the service can reach, a status held for a server
    id carries that id, is [connected], has its connection time set and no
    error message, flags logging, and flags each of tools, resources and
    prompts exactly when the server's view of that kind is not empty. *)
Theorem X11_stored_status_describes_the_connection cp w serverId st :
  reachable cp w ->
  getServerStatus w serverId = Some st ->
  McpServerStatus.id st = serverId /\
  McpServerStatus.status st = connected /\
  McpServerStatus.error st = None /\
  (exists stamp, McpServerStatus.lastConnected st = Some stamp) /\
  exists caps,
    McpServerStatus.capabilities st = Some caps /\
    Capabilities.logging caps = true /\
    Capabilities.tools caps = (0 <? length (getServerTools w serverId))%nat /\
    Capabilities.resources caps
      = (0 <? length (getServerResources w serverId))%nat /\
    Capabilities.prompts caps = (0 <? length (getServerPrompts w serverId))%nat.
Proof.
  intros Hreach Hst.
  apply getServerStatus_Some in Hst. destruct Hst as (c & Hget & <-).
  pose proof (map_get_In _ _ _ _ Hget) as Hin.
  pose proof (wf_entries (reachable_well_formed cp w Hreach) _ _ Hin) as Hok.
  destruct (reachable_as_built cp w Hreach _ _ Hin) as [env Hc].
  unfold getServerTools, getServerResources, getServerPrompts.
  rewrite Hget, (proj2 (is_connected_true c) (entry_connected Hok)).
  split; [apply (entry_status_id Hok)|].
  split; [apply (entry_connected Hok)|].
  rewrite Hc. simpl. split; [reflexivity|]. split; [eexists; reflexivity|].
  eexists. split; [reflexivity|]. simpl. auto.
Qed.

Lemma X11_witness :
  let w := after (connectToServer Sample.canParse (Sample.config "A" stdio 1000)
                    (Sample.no_prompts 20)) initial_world in
  reachable Sample.canParse w /\
  exists st,
    getServerStatus w "A" = Some st /\
    McpServerStatus.status st = connected /\
    exists caps,
      McpServerStatus.capabilities st = Some caps /\
      Capabilities.tools caps = true /\
      Capabilities.prompts caps = false.
Proof.
  intros w.
  assert (Hreach : reachable Sample.canParse w).
  { exact (reach_call Sample.canParse initial_world
             (CallConnect (Sample.config "A" stdio 1000) (Sample.no_prompts 20))
             (reach_initial Sample.canParse)). }
  split; [exact Hreach|].
  eexists. split; [reflexivity|].
  destruct (X11_stored_status_describes_the_connection Sample.canParse w "A" _
              Hreach eq_refl)
    as (_ & Hconn & _ & _ & caps & Hcaps & _ & Htools & _ & Hprompts).
  split; [exact Hconn|].
  exists caps. split; [exact Hcaps|]. split; [exact Htools | exact Hprompts].
Defined.

(** X12: in every world the service can reach, two different server ids
    never share an SDK object: their stored connections have different
    clients and different transports. *)
Theorem X12_connections_share_no_sdk_object cp w a b ca cb :
  reachable cp w ->
  a <> b ->
  map_get a (connections w) = Some ca ->
  map_get b (connections w) = Some cb ->
  McpClientConnection.client ca <> McpClientConnection.client cb /\
  McpClientConnection.transport ca <> McpClientConnection.transport cb.
Proof.
  intros Hreach Hab Hga Hgb.
  pose proof (reachable_well_formed cp w Hreach) as Hwf.
  pose proof (map_get_In _ _ _ _ Hga) as Hina.
  pose proof (map_get_In _ _ _ _ Hgb) as Hinb.
  destruct (reachable_as_built cp w Hreach _ _ Hina) as [enva Hca].
  destruct (reachable_as_built cp w Hreach _ _ Hinb) as [envb Hcb].
  assert (Hclients : McpClientConnection.client ca
                     <> McpClientConnection.client cb).
  { intros Heq. apply Hab. exact (wf_clients Hwf _ _ _ _ Hina Hinb Heq). }
  split; [exact Hclients|].
  rewrite Hca, Hcb. simpl. congruence.
Qed.

Lemma X12_witness :
  reachable Sample.canParse Sample.two_servers /\
  "A" <> "B" /\
  forall ca cb,
    map_get "A" (connections Sample.two_servers) = Some ca ->
    map_get "B" (connections Sample.two_servers) = Some cb ->
    McpClientConnection.client ca <> McpClientConnection.client cb /\
    McpClientConnection.transport ca <> McpClientConnection.transport cb.
Proof.
  assert (Hreach : reachable Sample.canParse Sample.two_servers).
  { unfold Sample.two_servers. apply reach_call, reach_call, reach_initial. }
  assert (Hab : "A" <> "B") by discriminate.
  split; [exact Hreach|]. split; [exact Hab|].
  intros ca cb.
  exact (X12_connections_share_no_sdk_object Sample.canParse Sample.two_servers
           "A" "B" ca cb Hreach Hab).
Defined.

(** ** The read methods against each other *)

Lemma aggregate_by_keys {A} (proj : McpClientConnection.t -> list A)
    (m : JsMap McpClientConnection.t) :
  NoDup (map_keys m) ->
  flat_map (fun c => if is_connected c then proj c else []) (map_values m)
  = flat_map (fun k =>
                match map_get k m with
                | Some c => if is_connected c then proj c else []
                | None => []
                end)
      (map_keys m).
Proof.
  intros Hnd. rewrite !flat_map_concat_map. f_equal.
  transitivity
    (map (fun o : option McpClientConnection.t =>
            match o with
            | Some c => if is_connected c then proj c else []
            | None => []
            end)
       (map (fun k => map_get k m) (map_keys m))).
  - rewrite (map_get_keys m Hnd), map_map. reflexivity.
  - now rewrite map_map.
Qed.

(** X13: in every world the service can reach, each aggregated view is
    the concatenation of the per-server views, taken over the stored
    server ids in the order of the map. *)
Theorem X13_aggregate_is_the_per_server_views_in_map_order cp w :
  reachable cp w ->
  getAllTools w = flat_map (getServerTools w) (map_keys (connections w)) /\
  getAllResources w
    = flat_map (getServerResources w) (map_keys (connections w)) /\
  getAllPrompts w = flat_map (getServerPrompts w) (map_keys (connections w)).
Proof.
  intros Hreach.
  pose proof (wf_keys (reachable_well_formed cp w Hreach)) as Hnd.
  unfold getAllTools, getAllResources, getAllPrompts.
  rewrite !(aggregate_by_keys _ _ Hnd). auto.
Qed.

Lemma X13_witness :
  reachable Sample.canParse Sample.two_servers /\
  getAllTools Sample.two_servers
  = (getServerTools Sample.two_servers "A"
     ++ getServerTools Sample.two_servers "B" ++ [])%list.
Proof.
  assert (Hreach : reachable Sample.canParse Sample.two_servers).
  { unfold Sample.two_servers. apply reach_call, reach_call, reach_initial. }
  split; [exact Hreach|].
  exact (proj1 (X13_aggregate_is_the_per_server_views_in_map_order
                  Sample.canParse Sample.two_servers Hreach)).
Defined.

(** X14: the map returned by [getAllServerStatuses] has the keys of the
    [connections] map, in the same order, and looking a server id up in it
    gives what [getServerStatus] gives for that id. *)
Theorem X14_all_statuses_agree_with_the_status_query w :
  map_keys (getAllServerStatuses w) = map_keys (connections w) /\
  forall serverId,
    map_get serverId (getAllServerStatuses w) = getServerStatus w serverId.
Proof.
  unfold getAllServerStatuses, getServerStatus, map_keys. split.
  - rewrite map_map. reflexivity.
  - intros serverId. induction (connections w) as [|[k c] rest IH]; simpl.
    + reflexivity.
    + destruct (serverId =? k); [reflexivity | exact IH].
Qed.

(** ** [disconnectAll] *)

Lemma fold_delete_all {V} keys :
  forall m : JsMap V,
    (forall k, In k (map_keys m) -> In k keys) ->
    fold_left (fun m k => map_delete k m) keys m = [].
Proof.
  intros m Hsub.
  destruct (fold_left (fun m k => map_delete k m) keys m) as [|[k v] rest] eqn:E;
    [reflexivity|].
  exfalso.
  assert (Hin : In (k, v) (fold_left (fun m k => map_delete k m) keys m))
    by (rewrite E; now left).
  apply In_fold_delete in Hin. destruct Hin as [Hin Hnot].
  apply Hnot, Hsub. eapply In_map_keys. exact Hin.
Qed.

(** X15: [disconnectAll] never throws, whatever the [close] calls answer,
    and leaves the [connections] map empty; every aggregated view is then
    empty and no handle has been handed out. *)
Theorem X15_disconnectAll_empties_the_map r w :
  let w' := after (disconnectAll r) w in
  outcome (disconnectAll r) w = Normal tt /\
  connections w' = [] /\
  next_handle w' = next_handle w /\
  getAllTools w' = [] /\
  getAllResources w' = [] /\
  getAllPrompts w' = [].
Proof.
  intros w'. subst w'.
  unfold outcome, after, disconnectAll, getAllTools, getAllResources,
    getAllPrompts.
  destruct (disconnect_each_run r (map_keys (connections w)) w) as [evs ->].
  simpl. rewrite (fold_delete_all (map_keys (connections w)) (connections w));
    auto.
  repeat split.
Qed.

Lemma disconnect_each_closes r serverId c keys :
  forall w,
    In serverId keys ->
    map_get serverId (connections w) = Some c ->
    In (ClientClose (McpClientConnection.client c))
      (trace (after (disconnect_each keys r) w)) /\
    (forall u, settled (client_closes (r serverId)) = Resolved u ->
               In (TransportClose (McpClientConnection.transport c))
                 (trace (after (disconnect_each keys r) w))).
Proof.
  induction keys as [|k rest IH]; intros w Hin Hget; [destruct Hin|].
  unfold after. simpl. unfold bind, try_catch. rewrite disconnectFromServer_run.
  destruct (String.eqb_spec serverId k) as [<- | Hne].
  - destruct (disconnect_each_run r rest
                {| connections := map_delete serverId (connections w);
                   next_handle := next_handle w;
                   trace := trace w
                            ++ disconnect_events w serverId (r serverId) |})
      as [evs ->].
    simpl. unfold disconnect_events. rewrite Hget. split.
    + apply in_or_app. left. apply in_or_app. right. now left.
    + intros u Hu. rewrite Hu.
      apply in_or_app. left. apply in_or_app. right. right. now left.
  - destruct Hin as [Heq | Hin]; [congruence|].
    apply (IH _ Hin). simpl. rewrite map_get_delete_ne by congruence. exact Hget.
Qed.

(** X16: [disconnectAll] calls [client.close()] on the client of every
    stored connection, and [transport.close()] on its transport whenever
    that [client.close()] resolves. *)
Theorem X16_disconnectAll_closes_every_connection r w serverId c :
  map_get serverId (connections w) = Some c ->
  let w' := after (disconnectAll r) w in
  In (ClientClose (McpClientConnection.client c)) (trace w') /\
  (forall u, settled (client_closes (r serverId)) = Resolved u ->
             In (TransportClose (McpClientConnection.transport c)) (trace w')).
Proof.
  intros Hget w'. subst w'. unfold disconnectAll, after.
  apply (disconnect_each_closes r serverId c (map_keys (connections w)) w);
    [|exact Hget].
  eapply In_map_keys. apply map_get_In. exact Hget.
Qed.

Lemma X16_witness :
  let w' := after (disconnectAll (fun _ => Sample.closes_ok)) Sample.two_servers in
  map_get "B" (connections Sample.two_servers)
    = Some (new_connection (Sample.config "B" sse 1000) (Sample.healthy 20) 2) /\
  In (ClientClose 2) (trace w') /\
  In (TransportClose 3) (trace w').
Proof.
  intros w'.
  assert (Hget : map_get "B" (connections Sample.two_servers)
                 = Some (new_connection (Sample.config "B" sse 1000)
                           (Sample.healthy 20) 2)) by reflexivity.
  split; [exact Hget|].
  destruct (X16_disconnectAll_closes_every_connection
              (fun _ => Sample.closes_ok) Sample.two_servers "B" _ Hget)
    as [Hclient Htransport].
  split; [exact Hclient | exact (Htransport tt eq_refl)].
Defined.

(** ** [refreshServerCapabilities] *)

(** X17: refreshing a server id that has no stored connection, or one
    stored with a status other than [connected], does nothing at all: no
    connect is attempted, no SDK call made, the world is unchanged. *)
Theorem X17_refresh_of_unconnected_server_is_noop cp serverId env w :
  (forall st, getServerStatus w serverId = Some st ->
              McpServerStatus.status st <> connected) ->
  refreshServerCapabilities cp serverId env w = (Normal tt, w).
Proof.
  intros Hnot. apply refresh_skipped. now apply not_connected_lookup.
Qed.

Lemma X17_witness :
  (forall st, getServerStatus Sample.one_server "B" = Some st ->
              McpServerStatus.status st <> connected) /\
  refreshServerCapabilities Sample.canParse "B" (Sample.healthy 20)
    Sample.one_server = (Normal tt, Sample.one_server).
Proof.
  assert (H : forall st, getServerStatus Sample.one_server "B" = Some st ->
                         McpServerStatus.status st <> connected).
  { intros st Hst. vm_compute in Hst. discriminate. }
  split; [exact H|].
  exact (X17_refresh_of_unconnected_server_is_noop Sample.canParse "B"
           (Sample.healthy 20) Sample.one_server H).
Defined.

(** X18: in every world the service can reach, a refresh touches only the
    refreshed server: the stored connection of every other server id is
    left as it was, and a connection stored for the refreshed id afterwards
    carries the configuration the old one had. *)
Theorem X18_refresh_keeps_configuration_and_other_servers
    cp w serverId other env c :
  reachable cp w ->
  map_get serverId (connections w) = Some c ->
  other <> serverId ->
  let w' := after (refreshServerCapabilities cp serverId env) w in
  map_get other (connections w') = map_get other (connections w) /\
  (forall c', map_get serverId (connections w') = Some c' ->
              McpClientConnection.config c' = McpClientConnection.config c).
Proof.
  intros Hreach Hget Hne w'. subst w'.
  pose proof (reachable_well_formed cp w Hreach) as Hwf.
  pose proof (map_get_In _ _ _ _ Hget) as Hin.
  pose proof (wf_entries Hwf _ _ Hin) as Hok.
  pose proof (entry_config_id Hok) as Hid.
  pose proof (proj2 (is_connected_true c) (entry_connected Hok)) as Hconn.
  unfold after. rewrite (refresh_run cp serverId env w c Hget Hconn). simpl.
  destruct (connect_connections cp (McpClientConnection.config c) env
              (cleared w serverId c)) as [-> | ->];
    simpl; rewrite Hid, map_delete_set.
  - rewrite map_get_delete_eq, map_get_delete_ne by congruence.
    split; [reflexivity | discriminate].
  - rewrite map_get_set_eq, map_get_set_ne, map_get_delete_ne by congruence.
    split; [reflexivity|]. now intros c' [= <-].
Qed.

Lemma X18_witness :
  let w' := after (refreshServerCapabilities Sample.canParse "A"
                     (Sample.no_prompts 20)) Sample.two_servers in
  reachable Sample.canParse Sample.two_servers /\
  "B" <> "A" /\
  map_get "B" (connections w') = map_get "B" (connections Sample.two_servers) /\
  (forall c', map_get "A" (connections w') = Some c' ->
              McpClientConnection.config c' = Sample.config "A" stdio 1000).
Proof.
  intros w'.
  assert (Hreach : reachable Sample.canParse Sample.two_servers).
  { unfold Sample.two_servers. apply reach_call, reach_call, reach_initial. }
  assert (Hne : "B" <> "A") by discriminate.
  split; [exact Hreach|]. split; [exact Hne|].
  exact (X18_refresh_keeps_configuration_and_other_servers Sample.canParse
           Sample.two_servers "A" "B" (Sample.no_prompts 20) _ Hreach eq_refl Hne).
Defined.

(** * Facts about the HTTP routes *)

(** ** Each handler, run to the end *)

Lemma run_pair {A} (m : Js A) w : m w = (outcome m w, after m w).
Proof. unfold outcome, after. now destruct (m w). Qed.

Lemma connect_normal cp config env w :
  exists st,
    connectToServer cp config env w
    = (Normal st, after (connectToServer cp config env) w).
Proof.
  destruct (connect_outcome cp config env w) as [st Hst].
  exists st. now rewrite (run_pair (connectToServer cp config env) w), Hst.
Qed.

Lemma disconnect_normal serverId r w :
  disconnectFromServer serverId r w
  = (Normal tt, after (disconnectFromServer serverId r) w).
Proof. unfold after. now rewrite disconnectFromServer_run. Qed.

Lemma refresh_normal cp serverId env w :
  refreshServerCapabilities cp serverId env w
  = (Normal tt, after (refreshServerCapabilities cp serverId env) w).
Proof.
  unfold after.
  destruct (map_get serverId (connections w)) as [c|] eqn:Hget;
    [destruct (is_connected c) eqn:Hconn|].
  - now rewrite (refresh_run cp serverId env w c Hget Hconn).
  - rewrite refresh_skipped; [reflexivity | intros c' Hc'; congruence].
  - rewrite refresh_skipped; [reflexivity | intros c' Hc'; congruence].
Qed.

Lemma get_servers_run stored w :
  get_servers stored w =
  (Normal
     match settled stored with
     | Resolved servers =>
         mkResponse 200
           (JsonServers
              (map (fun server =>
                      with_status server
                        (map_get (McpServerConfig.id server)
                           (getAllServerStatuses w)))
                 servers))
     | Rejected e =>
         mkResponse 500 (JsonError (getErrorMessage e "Failed to get MCP servers"))
     end, w).
Proof.
  unfold get_servers, try_catch, bind, await, read, res_json, res_status_json,
    ret, throw.
  destruct (settled stored); reflexivity.
Qed.

Lemma get_server_run id stored w :
  get_server id stored w =
  (Normal
     match settled stored with
     | Resolved (Some server) =>
         mkResponse 200 (JsonServer (with_status server (getServerStatus w id)))
     | Resolved None => mkResponse 404 (JsonError "MCP server not found")
     | Rejected e =>
         mkResponse 500 (JsonError (getErrorMessage e "Failed to get MCP server"))
     end, w).
Proof.
  unfold get_server, try_catch, bind, await, read, res_json, res_status_json,
    ret, throw.
  destruct (settled stored) as [[server|]|e]; reflexivity.
Qed.

Lemma post_server_run cp parsed created env w :
  post_server cp parsed created env w =
  match parsed, settled created with
  | Resolved _, Resolved server =>
      let w' := if McpServerConfig.enabled server
                then after (connectToServer cp server env) w else w in
      (Normal
         (mkResponse 201
            (JsonServer
               (with_status server
                  (getServerStatus w' (McpServerConfig.id server))))), w')
  | Resolved _, Rejected e
  | Rejected e, _ =>
      (Normal
         (mkResponse 400
            (JsonError (getErrorMessage e "Failed to create MCP server"))), w)
  end.
Proof.
  unfold post_server, try_catch at 1, bind at 1, settle.
  destruct parsed as [validated|e]; [|reflexivity].
  unfold ret at 1, bind at 1, await.
  destruct (settled created) as [server|e]; [|reflexivity].
  unfold ret at 1, bind at 1.
  destruct (McpServerConfig.enabled server).
  - unfold try_catch, bind at 1.
    destruct (connect_normal cp server env w) as [st ->]. reflexivity.
  - reflexivity.
Qed.

Lemma put_server_run cp id updated r env w :
  put_server cp id updated r env w =
  match settled updated with
  | Resolved (Some server) =>
      let w' := if McpServerConfig.enabled server
                then after (connectToServer cp server env)
                       (after (disconnectFromServer id r) w)
                else after (disconnectFromServer id r) w in
      (Normal
         (mkResponse 200
            (JsonServer
               (with_status server
                  (getServerStatus w' (McpServerConfig.id server))))), w')
  | Resolved None =>
      (Normal (mkResponse 404 (JsonError "MCP server not found")), w)
  | Rejected e =>
      (Normal
         (mkResponse 400
            (JsonError (getErrorMessage e "Failed to update MCP server"))), w)
  end.
Proof.
  unfold put_server, try_catch at 1, bind at 1, await.
  destruct (settled updated) as [[server|]|e]; try reflexivity.
  unfold ret at 1, bind at 1.
  destruct (McpServerConfig.enabled server).
  - unfold try_catch, bind at 1. rewrite disconnect_normal.
    unfold bind at 1.
    destruct (connect_normal cp server env (after (disconnectFromServer id r) w))
      as [st ->].
    reflexivity.
  - rewrite disconnect_normal. reflexivity.
Qed.

Lemma delete_server_run id r deleted w :
  delete_server id r deleted w =
  (Normal
     match settled deleted with
     | Resolved true => mkResponse 200 JsonSuccess
     | Resolved false => mkResponse 404 (JsonError "MCP server not found")
     | Rejected e =>
         mkResponse 500
           (JsonError (getErrorMessage e "Failed to delete MCP server"))
     end,
   after (disconnectFromServer id r) w).
Proof.
  unfold delete_server, try_catch, bind at 1. rewrite disconnect_normal.
  unfold bind, await, res_json, res_status_json, ret, throw.
  destruct (settled deleted) as [[|]|e]; reflexivity.
Qed.

Lemma post_connect_run cp id stored env w :
  post_connect cp id stored env w =
  match settled stored with
  | Resolved (Some server) =>
      (match outcome (connectToServer cp server env) w with
       | Normal status => Normal (mkResponse 200 (JsonStatus (Some status)))
       | Throw e =>
           Normal
             (mkResponse 500
                (JsonError (getErrorMessage e "Failed to connect to MCP server")))
       end,
       after (connectToServer cp server env) w)
  | Resolved None =>
      (Normal (mkResponse 404 (JsonError "MCP server not found")), w)
  | Rejected e =>
      (Normal
         (mkResponse 500
            (JsonError (getErrorMessage e "Failed to connect to MCP server"))), w)
  end.
Proof.
  unfold post_connect, try_catch, bind at 1, await.
  destruct (settled stored) as [[server|]|e]; try reflexivity.
  unfold ret at 1, bind.
  rewrite (run_pair (connectToServer cp server env) w).
  destruct (outcome (connectToServer cp server env) w); reflexivity.
Qed.

Lemma post_disconnect_run id r w :
  post_disconnect id r w =
  (Normal (mkResponse 200 JsonSuccess), after (disconnectFromServer id r) w).
Proof.
  unfold post_disconnect, try_catch, bind. now rewrite disconnect_normal.
Qed.

Lemma get_status_run id w :
  get_status id w =
  (Normal
     match getServerStatus w id with
     | Some st => mkResponse 200 (JsonStatus (Some st))
     | None =>
         mkResponse 404 (JsonError "MCP server not found or not connected")
     end, w).
Proof.
  unfold get_status, try_catch, bind, read.
  destruct (getServerStatus w id); reflexivity.
Qed.

Lemma post_tool_call_run parsed answer w :
  post_tool_call parsed answer w =
  match parsed with
  | Resolved request =>
      (Normal
         match outcome (callTool request answer) w with
         | Normal result => mkResponse 200 (JsonToolCall result)
         | Throw e =>
             mkResponse 400
               (JsonError (getErrorMessage e "Failed to call MCP tool"))
         end,
       after (callTool request answer) w)
  | Rejected e =>
      (Normal
         (mkResponse 400
            (JsonError (getErrorMessage e "Failed to call MCP tool"))), w)
  end.
Proof.
  unfold post_tool_call, try_catch, bind at 1, settle.
  destruct parsed as [request|e]; [|reflexivity].
  unfold ret at 1, bind.
  rewrite (run_pair (callTool request answer) w).
  destruct (outcome (callTool request answer) w); reflexivity.
Qed.

Lemma post_resource_read_run parsed answer w :
  post_resource_read parsed answer w =
  match parsed with
  | Resolved request =>
      (Normal
         match outcome (readResource request answer) w with
         | Normal result => mkResponse 200 (JsonResourceContent result)
         | Throw e =>
             mkResponse 400
               (JsonError (getErrorMessage e "Failed to read MCP resource"))
         end,
       after (readResource request answer) w)
  | Rejected e =>
      (Normal
         (mkResponse 400
            (JsonError (getErrorMessage e "Failed to read MCP resource"))), w)
  end.
Proof.
  unfold post_resource_read, try_catch, bind at 1, settle.
  destruct parsed as [request|e]; [|reflexivity].
  unfold ret at 1, bind.
  rewrite (run_pair (readResource request answer) w).
  destruct (outcome (readResource request answer) w); reflexivity.
Qed.

Lemma post_refresh_run cp id env w :
  let w' := after (refreshServerCapabilities cp id env) w in
  post_refresh cp id env w =
  (Normal (mkResponse 200 (JsonStatus (getServerStatus w' id))), w').
Proof.
  unfold post_refresh, try_catch, bind at 1. now rewrite refresh_normal.
Qed.

Lemma serve_run cp call w :
  exists resp,
    serve cp call w
    = (Normal resp, fold_left (fun w c => run cp c w) (service_calls call) w).
Proof.
  destruct call; simpl.
  - rewrite get_servers_run. eauto.
  - rewrite get_server_run. eauto.
  - rewrite post_server_run. destruct parsed; [|eauto].
    destruct (settled created) as [server|e]; [|eauto].
    destruct (McpServerConfig.enabled server); simpl; eauto.
  - rewrite put_server_run.
    destruct (settled updated) as [[server|]|e]; [|eauto|eauto].
    destruct (McpServerConfig.enabled server); simpl; eauto.
  - rewrite delete_server_run. simpl. eauto.
  - rewrite post_connect_run.
    destruct (settled stored) as [[server|]|e]; [|eauto|eauto].
    simpl. destruct (outcome (connectToServer cp server env) w); eauto.
  - rewrite post_disconnect_run. simpl. eauto.
  - rewrite get_status_run. eauto.
  - unfold get_tools, try_catch, bind, read. simpl. eauto.
  - unfold get_server_tools, try_catch, bind, read. simpl. eauto.
  - rewrite post_tool_call_run. destruct parsed; simpl; eauto.
  - unfold get_resources, try_catch, bind, read. simpl. eauto.
  - unfold get_server_resources, try_catch, bind, read. simpl. eauto.
  - rewrite post_resource_read_run. destruct parsed; simpl; eauto.
  - unfold get_prompts, try_catch, bind, read. simpl. eauto.
  - unfold get_server_prompts, try_catch, bind, read. simpl. eauto.
  - pose proof (post_refresh_run cp id env w) as H. simpl in H. rewrite H.
    simpl. eauto.
Qed.

Lemma reachable_calls cp calls :
  forall w, reachable cp w ->
            reachable cp (fold_left (fun w c => run cp c w) calls w).
Proof.
  induction calls as [|c rest IH]; intros w Hreach; simpl.
  - exact Hreach.
  - apply IH. now apply reach_call.
Qed.

(** X19: every route handler ends by sending a response: whatever the
    store, the body validation and the SDK answer, no exception escapes a
    handler. *)
Theorem X19_every_request_gets_a_response cp call w :
  exists resp, outcome (serve cp call) w = Normal resp.
Proof.
  destruct (serve_run cp call w) as [resp H]. exists resp.
  unfold outcome. now rewrite H.
Qed.

(** X20: what a request does to the service is the sequence of service
    methods listed by [service_calls]: nothing for the read routes and for
    requests the store or the validation refuses; a disconnect for DELETE,
    even when the store then finds nothing to delete; a disconnect
    followed, for an enabled server, by a connect for PUT; a connect for
    POST of an enabled server. *)
Theorem X20_request_effect_is_a_sequence_of_service_calls cp call w :
  after (serve cp call) w
  = fold_left (fun w c => run cp c w) (service_calls call) w.
Proof.
  destruct (serve_run cp call w) as [resp H]. unfold after. now rewrite H.
Qed.

(** X21: a request to the router takes a world the service can reach to
    a world the service can reach; the invariants of the service therefore
    hold between any two requests. *)
Theorem X21_requests_keep_the_service_reachable cp call w :
  reachable cp w -> reachable cp (after (serve cp call) w).
Proof.
  intros Hreach. destruct (serve_run cp call w) as [resp H].
  unfold after. rewrite H. simpl. now apply reachable_calls.
Qed.

Lemma X21_witness :
  let call :=
    PutServer "A" (Sample.ok 3 (Some (Sample.config "A" sse 1000)))
      Sample.closes_ok (Sample.healthy 20) in
  reachable Sample.canParse Sample.one_server /\
  reachable Sample.canParse (after (serve Sample.canParse call) Sample.one_server).
Proof.
  intros call.
  assert (Hreach : reachable Sample.canParse Sample.one_server).
  { unfold Sample.one_server. apply reach_call, reach_initial. }
  split; [exact Hreach|].
  exact (X21_requests_keep_the_service_reachable Sample.canParse call
           Sample.one_server Hreach).
Defined.

Lemma reachable_status_connected cp w id st :
  reachable cp w ->
  getServerStatus w id = Some st ->
  McpServerStatus.status st = connected.
Proof.
  intros Hreach Hst. apply getServerStatus_Some in Hst.
  destruct Hst as (c & Hget & <-).
  apply (entry_connected
           (wf_entries (reachable_well_formed cp w Hreach) _ _
              (map_get_In _ _ _ _ Hget))).
Qed.

Lemma with_status_kind cp w id server :
  reachable cp w ->
  shown_kind (with_status server (getServerStatus w id)) = connected \/
  shown_kind (with_status server (getServerStatus w id)) = disconnected.
Proof.
  intros Hreach. unfold shown_kind, with_status. simpl.
  destruct (getServerStatus w id) as [st|] eqn:Hst.
  - left. eapply reachable_status_connected; eassumption.
  - now right.
Qed.

Lemma statuses_lookup w id :
  map_get id (getAllServerStatuses w) = getServerStatus w id.
Proof.
  unfold getAllServerStatuses, getServerStatus.
  induction (connections w) as [|[k c] rest IH]; simpl; [reflexivity|].
  destruct (id =? k); [reflexivity | exact IH].
Qed.

(** X22: whenever a response carries servers with their status (the list,
    the single server, and the answers to create and update), the status
    shown for a server is [connected] or [disconnected]; [error] and
    [connecting] are never shown there, whatever happened to the server
    before or during the request. *)
Theorem X22_servers_are_shown_connected_or_disconnected cp call w resp :
  reachable cp w ->
  outcome (serve cp call) w = Normal resp ->
  (forall s, body resp = JsonServer s ->
             shown_kind s = connected \/ shown_kind s = disconnected) /\
  (forall l s, body resp = JsonServers l -> In s l ->
               shown_kind s = connected \/ shown_kind s = disconnected).
Proof.
  intros Hreach Hout.
  unfold outcome in Hout.
  destruct call; simpl in Hout.
  - rewrite get_servers_run in Hout. simpl in Hout. injection Hout as <-.
    destruct (settled stored) as [servers|e]; simpl;
      (split; [discriminate|]); [|discriminate].
    intros l s [= <-] Hin. apply in_map_iff in Hin.
    destruct Hin as (server & <- & _). rewrite statuses_lookup.
    now apply (with_status_kind cp).
  - rewrite get_server_run in Hout. simpl in Hout. injection Hout as <-.
    destruct (settled stored) as [[server|]|e]; simpl;
      (split; [|discriminate]); try discriminate.
    intros s [= <-]. now apply (with_status_kind cp).
  - rewrite post_server_run in Hout. destruct parsed as [v|e].
    + destruct (settled created) as [server|e]; simpl in Hout;
        injection Hout as <-; simpl; (split; [|discriminate]);
        try discriminate.
      intros s [= <-]. apply (with_status_kind cp).
      destruct (McpServerConfig.enabled server); [|assumption].
      exact (reach_call cp w (CallConnect server env) Hreach).
    + simpl in Hout. injection Hout as <-. simpl. split; discriminate.
  - rewrite put_server_run in Hout.
    destruct (settled updated) as [[server|]|e]; simpl in Hout;
      injection Hout as <-; simpl; (split; [|discriminate]); try discriminate.
    intros s [= <-]. apply (with_status_kind cp).
    pose proof (reach_call cp w (CallDisconnect id r) Hreach) as Hd.
    destruct (McpServerConfig.enabled server); [|assumption].
    exact (reach_call cp _ (CallConnect server env) Hd).
  - rewrite delete_server_run in Hout. injection Hout as <-.
    destruct (settled deleted) as [[|]|e]; simpl; split; discriminate.
  - rewrite post_connect_run in Hout.
    destruct (settled stored) as [[server|]|e]; simpl in Hout.
    + destruct (outcome (connectToServer cp server env) w);
        injection Hout as <-; simpl; split; discriminate.
    + injection Hout as <-. simpl. split; discriminate.
    + injection Hout as <-. simpl. split; discriminate.
  - rewrite post_disconnect_run in Hout. injection Hout as <-.
    simpl. split; discriminate.
  - rewrite get_status_run in Hout. injection Hout as <-.
    destruct (getServerStatus w id); simpl; split; discriminate.
  - injection Hout as <-. simpl. split; discriminate.
  - injection Hout as <-. simpl. split; discriminate.
  - rewrite post_tool_call_run in Hout. destruct parsed as [request|e].
    + injection Hout as <-.
      destruct (outcome (callTool request answer) w); simpl; split; discriminate.
    + injection Hout as <-. simpl. split; discriminate.
  - injection Hout as <-. simpl. split; discriminate.
  - injection Hout as <-. simpl. split; discriminate.
  - rewrite post_resource_read_run in Hout. destruct parsed as [request|e].
    + injection Hout as <-.
      destruct (outcome (readResource request answer) w); simpl;
        split; discriminate.
    + injection Hout as <-. simpl. split; discriminate.
  - injection Hout as <-. simpl. split; discriminate.
  - injection Hout as <-. simpl. split; discriminate.
  - pose proof (post_refresh_run cp id env w) as H. simpl in H.
    rewrite H in Hout. injection Hout as <-. simpl. split; discriminate.
Qed.

Lemma X22_witness :
  let failed :=
    after (connectToServer Sample.canParse (Sample.config "A" stdio 1000)
             (Sample.refusing 10)) initial_world in
  let call := GetServer "A" (Sample.ok 3 (Some (Sample.config "A" stdio 1000))) in
  let resp :=
    mkResponse 200
      (JsonServer (with_status (Sample.config "A" stdio 1000) None)) in
  reachable Sample.canParse failed /\
  outcome (serve Sample.canParse call) failed = Normal resp /\
  shown_kind (with_status (Sample.config "A" stdio 1000) None) = disconnected.
Proof.
  intros failed call resp.
  assert (Hreach : reachable Sample.canParse failed).
  { exact (reach_call Sample.canParse initial_world
             (CallConnect (Sample.config "A" stdio 1000) (Sample.refusing 10))
             (reach_initial Sample.canParse)). }
  assert (Hout : outcome (serve Sample.canParse call) failed = Normal resp)
    by reflexivity.
  split; [exact Hreach|]. split; [exact Hout|].
  destruct (proj1 (X22_servers_are_shown_connected_or_disconnected
                     Sample.canParse call failed resp Hreach Hout)
              _ eq_refl) as [H | H].
  - discriminate H.
  - exact H.
Defined.

(** X23: the list of servers and the single-server route agree: the entry
    the list shows for a server the store returns is the body the
    single-server route sends when asked for that server's id. *)
Theorem X23_list_agrees_with_single_server all one servers server w :
  settled all = Resolved servers ->
  settled one = Resolved (Some server) ->
  In server servers ->
  exists l s,
    outcome (get_servers all) w = Normal (mkResponse 200 (JsonServers l)) /\
    In s l /\
    outcome (get_server (McpServerConfig.id server) one) w
    = Normal (mkResponse 200 (JsonServer s)).
Proof.
  intros Hall Hone Hin. unfold outcome.
  rewrite get_servers_run, get_server_run, Hall, Hone. simpl.
  eexists. exists (with_status server
                     (getServerStatus w (McpServerConfig.id server))).
  split; [reflexivity|]. split; [|reflexivity].
  apply in_map_iff. exists server. split; [|assumption].
  now rewrite statuses_lookup.
Qed.

Lemma X23_witness :
  let servers := [Sample.config "B" sse 1000; Sample.config "C" stdio 1000] in
  let all := Sample.ok 3 servers in
  let one := Sample.ok 3 (Some (Sample.config "B" sse 1000)) in
  In (Sample.config "B" sse 1000) servers /\
  exists l s,
    outcome (get_servers all) Sample.two_servers
    = Normal (mkResponse 200 (JsonServers l)) /\
    In s l /\
    outcome (get_server "B" one) Sample.two_servers
    = Normal (mkResponse 200 (JsonServer s)).
Proof.
  intros servers all one.
  assert (Hin : In (Sample.config "B" sse 1000) servers)
    by (left; reflexivity).
  split; [exact Hin|].
  exact (X23_list_agrees_with_single_server all one servers
           (Sample.config "B" sse 1000) Sample.two_servers eq_refl eq_refl Hin).
Defined.

(** X24: in every world the service can reach, the status route answers
    404 [MCP server not found or not connected] exactly when no connection
    is stored for the id, and otherwise 200 with a [connected] status; it
    changes nothing. In particular it answers 404, not an [error] status,
    for a server whose last connect failed. *)
Theorem X24_status_route_is_404_or_connected cp id w :
  reachable cp w ->
  after (get_status id) w = w /\
  ((getServerStatus w id = None /\
    outcome (get_status id) w
    = Normal (mkResponse 404
                (JsonError "MCP server not found or not connected")))
   \/
   (exists st,
       getServerStatus w id = Some st /\
       McpServerStatus.status st = connected /\
       outcome (get_status id) w
       = Normal (mkResponse 200 (JsonStatus (Some st))))).
Proof.
  intros Hreach. unfold after, outcome. rewrite get_status_run. simpl.
  split; [reflexivity|].
  destruct (getServerStatus w id) as [st|] eqn:Hst.
  - right. exists st. repeat split.
    eapply reachable_status_connected; eassumption.
  - left. auto.
Qed.

Lemma X24_witness :
  let failed :=
    after (connectToServer Sample.canParse (Sample.config "A" stdio 1000)
             (Sample.healthy 2000)) initial_world in
  reachable Sample.canParse failed /\
  outcome (get_status "A") failed
  = Normal (mkResponse 404 (JsonError "MCP server not found or not connected")).
Proof.
  intros failed.
  assert (Hreach : reachable Sample.canParse failed).
  { exact (reach_call Sample.canParse initial_world
             (CallConnect (Sample.config "A" stdio 1000) (Sample.healthy 2000))
             (reach_initial Sample.canParse)). }
  split; [exact Hreach|].
  destruct (X24_status_route_is_404_or_connected Sample.canParse "A" failed
              Hreach) as (_ & [[_ H] | (st & Hst & _)]).
  - exact H.
  - discriminate Hst.
Defined.

(** X25: when the store returns the server, the connect route answers 200
    with the status [connectToServer] returned, also when that status is
    an [error] status: a failed connect is not an HTTP error. It answers
    404 when the store has no such server and 500 only when the store
    itself fails, in both cases without touching the service. *)
Theorem X25_connect_route_reports_failure_in_the_body cp id stored env w :
  (forall server,
      settled stored = Resolved (Some server) ->
      exists st,
        outcome (connectToServer cp server env) w = Normal st /\
        post_connect cp id stored env w
        = (Normal (mkResponse 200 (JsonStatus (Some st))),
           after (connectToServer cp server env) w)) /\
  (settled stored = Resolved None ->
   post_connect cp id stored env w
   = (Normal (mkResponse 404 (JsonError "MCP server not found")), w)) /\
  (forall e,
      settled stored = Rejected e ->
      post_connect cp id stored env w
      = (Normal
           (mkResponse 500
              (JsonError (getErrorMessage e "Failed to connect to MCP server"))),
         w)).
Proof.
  rewrite post_connect_run. split; [|split].
  - intros server ->.
    destruct (connect_outcome cp server env w) as [st Hst].
    exists st. now rewrite Hst.
  - now intros ->.
  - now intros e ->.
Qed.

Lemma X25_witness :
  let server := Sample.config "A" stdio 1000 in
  let stored := Sample.ok 3 (Some server) in
  settled stored = Resolved (Some server) /\
  outcome (post_connect Sample.canParse "A" stored (Sample.healthy 2000))
    initial_world
  = Normal (mkResponse 200
              (JsonStatus
                 (Some (error_status server (Error "Connection timeout"))))).
Proof.
  intros server stored.
  assert (Hs : settled stored = Resolved (Some server)) by reflexivity.
  split; [exact Hs|].
  destruct (proj1 (X25_connect_route_reports_failure_in_the_body
                     Sample.canParse "A" stored (Sample.healthy 2000)
                     initial_world) server Hs) as (st & Hst & Hrun).
  unfold outcome. rewrite Hrun. simpl.
  unfold outcome in Hst. vm_compute in Hst. injection Hst as <-. reflexivity.
Defined.

Lemma connect_trace_extends cp config env w :
  exists evs,
    trace (after (connectToServer cp config env) w) = (trace w ++ evs)%list.
Proof.
  unfold after.
  destruct (transport_refusal cp config) as [e|] eqn:Href.
  - rewrite (connect_refused cp config env w e Href). simpl.
    rewrite <- app_assoc. eauto.
  - destruct (handshake_failure config env) as [e|] eqn:Hhs.
    + rewrite (connect_handshake_failed cp config env w e Href Hhs). simpl.
      rewrite <- app_assoc. eauto.
    + rewrite (connect_succeeded cp config env w Href Hhs). simpl.
      rewrite <- !app_assoc. eauto.
Qed.

(** X26: when the store returns a server for the update, the update
    route answers 200 and first tears down the connection stored under
    the id of the route, closing its client. For a disabled server nothing
    else happens, so nothing is stored under the route's id afterwards; for
    an enabled server a connect with the returned configuration follows.
    The body shows the returned server with the status stored afterwards
    under the server's own id, or [disconnected] when there is none; the
    store is not required to return the server under the id of the
    route, and when it does, a disabled server is shown [disconnected]. *)
Theorem X26_update_route_reconnects_or_disconnects
    cp id updated r env w server :
  settled updated = Resolved (Some server) ->
  let w' := after (put_server cp id updated r env) w in
  (exists s,
      outcome (put_server cp id updated r env) w
      = Normal (mkResponse 200 (JsonServer s)) /\
      McpServerWithStatus.server s = server /\
      McpServerWithStatus.status s
      = match getServerStatus w' (McpServerConfig.id server) with
        | Some st => st
        | None => disconnected_status server
        end) /\
  (forall c, map_get id (connections w) = Some c ->
             In (ClientClose (McpClientConnection.client c)) (trace w')) /\
  (McpServerConfig.enabled server = false ->
   w' = after (disconnectFromServer id r) w /\
   getServerStatus w' id = None /\
   (McpServerConfig.id server = id ->
    outcome (put_server cp id updated r env) w
    = Normal (mkResponse 200
                (JsonServer
                   {| McpServerWithStatus.server := server;
                      McpServerWithStatus.status :=
                        disconnected_status server |})))) /\
  (McpServerConfig.enabled server = true ->
   w' = after (connectToServer cp server env)
          (after (disconnectFromServer id r) w)).
Proof.
  intros Hupd w'.
  assert (Hout : put_server cp id updated r env w
                 = (Normal
                      (mkResponse 200
                         (JsonServer
                            (with_status server
                               (getServerStatus w'
                                  (McpServerConfig.id server))))), w')).
  { subst w'. rewrite (run_pair (put_server cp id updated r env) w) at 1.
    unfold outcome, after. rewrite put_server_run, Hupd.
    destruct (McpServerConfig.enabled server); reflexivity. }
  assert (Hw : w' = if McpServerConfig.enabled server
                    then after (connectToServer cp server env)
                           (after (disconnectFromServer id r) w)
                    else after (disconnectFromServer id r) w).
  { subst w'. unfold after at 1. rewrite put_server_run, Hupd.
    destruct (McpServerConfig.enabled server); reflexivity. }
  assert (Hclosed : forall c,
             map_get id (connections w) = Some c ->
             In (ClientClose (McpClientConnection.client c))
               (trace (after (disconnectFromServer id r) w))).
  { intros c Hget. unfold after. rewrite disconnectFromServer_run. simpl.
    unfold disconnect_events. rewrite Hget.
    apply in_or_app. right. now left. }
  assert (Hgone : getServerStatus (after (disconnectFromServer id r) w) id
                  = None).
  { unfold after, getServerStatus. rewrite disconnectFromServer_run. simpl.
    now rewrite map_get_delete_eq. }
  unfold outcome. rewrite Hout. clear Hout. clearbody w'. subst w'.
  split; [eexists; repeat split|].
  destruct (McpServerConfig.enabled server).
  - split; [|split; [discriminate | reflexivity]].
    intros c Hget.
    destruct (connect_trace_extends cp server env
                (after (disconnectFromServer id r) w)) as [evs ->].
    apply in_or_app. left. now apply Hclosed.
  - split; [exact Hclosed|]. split; [|discriminate].
    intros _. split; [reflexivity|]. split; [exact Hgone|].
    intros Hid. cbn [fst]. unfold with_status. now rewrite Hid, Hgone.
Qed.

Lemma X26_witness :
  let server :=
    {| McpServerConfig.id := "B";
       McpServerConfig.name := "B";
       McpServerConfig.description := None;
       McpServerConfig.enabled := false;
       McpServerConfig.type := sse;
       McpServerConfig.command := None;
       McpServerConfig.args := None;
       McpServerConfig.url := Some "http://localhost:9000/sse";
       McpServerConfig.env := None;
       McpServerConfig.timeout := 1000;
       McpServerConfig.maxRetries := 3 |} in
  let updated := Sample.ok 3 (Some server) in
  let w' := after (put_server Sample.canParse "A" updated Sample.closes_ok
                     (Sample.healthy 20)) Sample.two_servers in
  settled updated = Resolved (Some server) /\
  McpServerConfig.enabled server = false /\
  getServerStatus w' "A" = None /\
  In (ClientClose 0) (trace w') /\
  exists s,
    outcome (put_server Sample.canParse "A" updated Sample.closes_ok
               (Sample.healthy 20)) Sample.two_servers
    = Normal (mkResponse 200 (JsonServer s)) /\
    McpServerWithStatus.server s = server /\
    McpServerWithStatus.status s
    = match getServerStatus w' "B" with
      | Some st => st
      | None => disconnected_status server
      end.
Proof.
  intros server updated w'.
  assert (Hs : settled updated = Resolved (Some server)) by reflexivity.
  split; [exact Hs|]. split; [reflexivity|].
  destruct (X26_update_route_reconnects_or_disconnects Sample.canParse "A"
              updated Sample.closes_ok (Sample.healthy 20) Sample.two_servers
              server Hs) as (Hbody & Hclosed & Hoff & _).
  split; [exact (proj1 (proj2 (Hoff eq_refl)))|].
  split; [exact (Hclosed _ eq_refl)|].
  exact Hbody.
Defined.

(** X27: the delete route disconnects the server before it asks the store
    to delete it, so the connection is gone whatever the store answers:
    200 when a record was deleted, 404 when there was none, 500 when the
    store failed. *)
Theorem X27_delete_route_always_disconnects id r deleted w :
  let w' := after (delete_server id r deleted) w in
  w' = after (disconnectFromServer id r) w /\
  getServerStatus w' id = None /\
  exists resp,
    outcome (delete_server id r deleted) w = Normal resp /\
    code resp = match settled deleted with
                | Resolved true => 200
                | Resolved false => 404
                | Rejected _ => 500
                end.
Proof.
  intros w'.
  assert (Hw : w' = after (disconnectFromServer id r) w).
  { subst w'. unfold after at 1. now rewrite delete_server_run. }
  clearbody w'. subst w'. split; [reflexivity|]. split.
  - unfold after, getServerStatus. rewrite disconnectFromServer_run.
    cbn [snd connections]. now rewrite map_get_delete_eq.
  - unfold outcome. rewrite delete_server_run. eexists. split; [reflexivity|].
    destruct (settled deleted) as [[|]|e]; reflexivity.
Qed.

(** X28: the tool-call route never answers 500. For a request the
    validation accepts it answers 200 with the normalised result whenever
    the SDK request resolves, also when the tool itself reported an error
    ([isError] true); it answers 400 with the not-connected message,
    without any SDK call, when the server is not connected; and 400 with
    [Failed to call tool ...] when the SDK request is rejected. *)
Theorem X28_tool_call_route_status_codes request answer w :
  let serverId := McpToolCallRequest.serverId request in
  let route := post_tool_call (Resolved request) answer in
  ((forall st, getServerStatus w serverId = Some st ->
               McpServerStatus.status st <> connected) ->
   exists msg,
     route w = (Normal (mkResponse 400 (JsonError msg)), w) /\
     (msg = "MCP server " ++ serverId ++ " not connected" \/
      msg = "MCP server " ++ serverId ++ " is not connected")) /\
  (forall st,
      getServerStatus w serverId = Some st ->
      McpServerStatus.status st = connected ->
      (forall result,
          settled answer = Resolved result ->
          outcome route w
          = Normal
              (mkResponse 200
                 (JsonToolCall
                    {| McpToolCallResponse.content :=
                         or_empty (McpToolCallResult.content result);
                       McpToolCallResponse.isError :=
                         or_false (McpToolCallResult.isError result) |}))) /\
      (forall e,
          settled answer = Rejected e ->
          outcome route w
          = Normal
              (mkResponse 400
                 (JsonError ("Failed to call tool "
                               ++ McpToolCallRequest.toolName request ++ ": "
                               ++ getErrorMessage e "Unknown error"))))).
Proof.
  intros serverId route. subst serverId route. unfold outcome.
  rewrite post_tool_call_run. unfold outcome, after. split.
  - intros Hnot.
    destruct (callTool_not_connected request answer w
                (not_connected_lookup w _ Hnot)) as (msg & -> & Hmsg).
    exists msg. split; [reflexivity | exact Hmsg].
  - intros st Hst Hconn. apply getServerStatus_Some in Hst.
    destruct Hst as (c & Hget & <-). apply is_connected_true in Hconn.
    rewrite (callTool_connected request answer w c Hget Hconn). simpl.
    split; [intros result -> | intros e ->]; reflexivity.
Qed.

Lemma X28_witness :
  let failing : McpToolCallResult.t :=
    {| McpToolCallResult.content :=
         Some [ {| ContentItem.type := "text";
                   ContentItem.text := Some "index is locked";
                   ContentItem.data := None |} ];
       McpToolCallResult.isError := Some true |} in
  let route := post_tool_call (Resolved (Sample.call_search "A"))
                 (Sample.ok 5 failing) in
  (exists st, getServerStatus Sample.one_server "A" = Some st /\
              McpServerStatus.status st = connected) /\
  outcome route Sample.one_server
  = Normal
      (mkResponse 200
         (JsonToolCall
            {| McpToolCallResponse.content :=
                 or_empty (McpToolCallResult.content failing);
               McpToolCallResponse.isError := true |})).
Proof.
  intros failing route.
  split; [eexists; split; reflexivity|].
  exact (proj1 (proj2 (X28_tool_call_route_status_codes
                         (Sample.call_search "A") (Sample.ok 5 failing)
                         Sample.one_server) _ eq_refl eq_refl)
           failing eq_refl).
Defined.

(** X29: the refresh route always answers 200, with the status the
    service holds for the id after the refresh. In every world the service
    can reach that status is [connected] or absent: after a refresh whose
    reconnect failed the body carries no status, and no [error]. *)
Theorem X29_refresh_route_answers_current_status cp id env w :
  reachable cp w ->
  let w' := after (refreshServerCapabilities cp id env) w in
  post_refresh cp id env w
  = (Normal (mkResponse 200 (JsonStatus (getServerStatus w' id))), w') /\
  (forall st, getServerStatus w' id = Some st ->
              McpServerStatus.status st = connected).
Proof.
  intros Hreach w'. split.
  - apply post_refresh_run.
  - intros st Hst. eapply reachable_status_connected; [|exact Hst].
    exact (reach_call cp w (CallRefresh id env) Hreach).
Qed.

Lemma X29_witness :
  reachable Sample.canParse Sample.one_server /\
  post_refresh Sample.canParse "A" (Sample.refusing 10) Sample.one_server
  = (Normal (mkResponse 200 (JsonStatus None)),
     after (refreshServerCapabilities Sample.canParse "A" (Sample.refusing 10))
       Sample.one_server).
Proof.
  assert (Hreach : reachable Sample.canParse Sample.one_server).
  { unfold Sample.one_server. apply reach_call, reach_initial. }
  split; [exact Hreach|].
  exact (proj1 (X29_refresh_route_answers_current_status Sample.canParse "A"
                  (Sample.refusing 10) Sample.one_server Hreach)).
Defined.
